(** * Formulation actions of gadogado-feed-formulator

    A shallow embedding of the server actions of the formulation module
    (getFormulationById, createFormulation, updateFormulation,
    deleteFormulation, toggleFormulationStatus, duplicateFormulation,
    getFormulationTypes), of the zod schemas they validate against and of
    the part of the drizzle table declarations they touch, followed by the
    properties of the formulation-ingredient consistency and cost-allocation
    logic. The pagination of the list actions (lib/actions/common) and the
    nutrient actions, with the tables that reference nutrients, are embedded
    in the same way.

    Conventions of the embedding:
    - a JavaScript number is an exact rational or one of the three IEEE
      special values; rounding of finite results and the sign of zero are
      not represented;
    - a table is the list of its rows in insertion order; declared primary
      keys, unique columns, NOT NULL columns and foreign keys are enforced
      by the insert, update and delete statements; a decimal column of
      formulations or formulation_ingredients holds the number written to
      it rounded to the scale of the column and refuses a number beyond its
      precision, an integer column refuses a number beyond 32 bits; the
      columns of nutrients hold the number written to them;
    - an action is a function from the database to a result and a database;
      [db.transaction] restores the database when its body throws;
    - the uuid the database draws for a new row is an argument of the
      action that inserts it;
    - a payload holds, under each key, a value of the type the action
      declares for it, or nothing; a decimal column read back is the number
      it holds, where the driver returns the decimal string of that number;
    - timestamps, the surrogate key of formulation_ingredients, cache
      revalidation, console output and the optional columns of formulations
      that the actions only pass through (among them the self-reference
      parentFormulationId) are left out. *)

From Stdlib Require Import List ZArith QArith Qabs Qround String Ascii Bool.
From Stdlib Require Import Lia Lqa Permutation Sorted DecimalString.
Import ListNotations.

Set Implicit Arguments.

(** ** JavaScript numbers *)

Module Js.

Inductive number : Type :=
| Num (q : Q)
| PInf
| NInf
| NaN.

(** Finite results are kept in lowest terms, so that two finite numbers of
    the same value built by the operations below are the same term. *)
Definition fin (q : Q) : number := Num (Qred q).

Definition ofZ (z : Z) : number := Num (inject_Z z).

Definition zero : number := ofZ 0.

Definition neg (a : number) : number :=
  match a with
  | Num q => fin (- q)
  | PInf => NInf
  | NInf => PInf
  | NaN => NaN
  end.

(** [a + b] *)
Definition add (a b : number) : number :=
  match a, b with
  | NaN, _ | _, NaN => NaN
  | PInf, NInf | NInf, PInf => NaN
  | PInf, _ | _, PInf => PInf
  | NInf, _ | _, NInf => NInf
  | Num x, Num y => fin (x + y)
  end.

(** [a - b] *)
Definition sub (a b : number) : number := add a (neg b).

(** [Math.abs(a)] *)
Definition abs (a : number) : number :=
  match a with
  | Num q => fin (Qabs q)
  | PInf | NInf => PInf
  | NaN => NaN
  end.

(** The infinity an infinite operand turns into against a finite one of
    the given sign: none against zero. *)
Definition scaleInf (positive : bool) (q : Q) : number :=
  match q ?= 0 with
  | Eq => NaN
  | Gt => if positive then PInf else NInf
  | Lt => if positive then NInf else PInf
  end.

(** [a * b] *)
Definition mul (a b : number) : number :=
  match a, b with
  | NaN, _ | _, NaN => NaN
  | PInf, PInf | NInf, NInf => PInf
  | PInf, NInf | NInf, PInf => NInf
  | PInf, Num y => scaleInf true y
  | NInf, Num y => scaleInf false y
  | Num x, PInf => scaleInf true x
  | Num x, NInf => scaleInf false x
  | Num x, Num y => fin (x * y)
  end.

(** [a / b]; a zero divisor is the positive zero, the only zero the
    actions can produce as a divisor ([parseFloat] of a printed number). *)
Definition div (a b : number) : number :=
  match a, b with
  | NaN, _ | _, NaN => NaN
  | (PInf | NInf), (PInf | NInf) => NaN
  | Num _, (PInf | NInf) => zero
  | PInf, Num y => match y ?= 0 with Lt => NInf | _ => PInf end
  | NInf, Num y => match y ?= 0 with Lt => PInf | _ => NInf end
  | Num x, Num y =>
      match y ?= 0 with
      | Eq => match x ?= 0 with
              | Eq => NaN
              | Gt => PInf
              | Lt => NInf
              end
      | _ => fin (x / y)
      end
  end.

(** [a > b] *)
Definition gt (a b : number) : bool :=
  match a, b with
  | NaN, _ | _, NaN => false
  | PInf, PInf | NInf, NInf => false
  | PInf, _ | _, NInf => true
  | NInf, _ | _, PInf => false
  | Num x, Num y => match x ?= y with Gt => true | _ => false end
  end.

(** [a >= b] *)
Definition ge (a b : number) : bool :=
  match a, b with
  | NaN, _ | _, NaN => false
  | PInf, _ | _, NInf => true
  | NInf, _ | _, PInf => false
  | Num x, Num y => match x ?= y with Lt => false | _ => true end
  end.

(** [Number.isInteger(a)] *)
Definition isInteger (a : number) : bool :=
  match a with
  | Num q => Qeq_bool q (inject_Z (Qfloor q))
  | _ => false
  end.

(** Value equality of numbers ([NaN] is equal to itself here: this is the
    comparison of stored values, not the [===] of the language). *)
Definition sameb (a b : number) : bool :=
  match a, b with
  | Num x, Num y => Qeq_bool x y
  | PInf, PInf | NInf, NInf | NaN, NaN => true
  | _, _ => false
  end.

Definition same (a b : number) : Prop := sameb a b = true.

Definition finite (a : number) : Prop := exists q, a = Num q.

Definition printN (n : N) : string := NilZero.string_of_uint (N.to_uint n).

(** [a.toFixed(1)]: the integer n with n/10 closest to |a| (the larger one
    on a tie), printed with one digit after the point. The exponent form
    the language switches to from 1e21 on is not represented. *)
Definition toFixed1 (a : number) : string :=
  match a with
  | NaN => "NaN"
  | PInf => "Infinity"
  | NInf => "-Infinity"
  | Num q =>
      let n := Z.to_N (Qfloor (Qabs q * 10 + (1 # 2))%Q) in
      ((match (q ?= 0)%Q with Lt => "-" | _ => "" end)
         ++ printN (n / 10)%N ++ "." ++ printN (n mod 10)%N)%string
  end.

(** [arr.sort(comparefn)]. The language requires the sort to be stable;
    [comparefn(x, y) > 0] puts x after y, and a NaN result counts as zero.
    With a consistent comparator the result of every stable sort is the
    one computed here by insertion. The array is sorted in place and
    returned: the caller rebinds the array variable to the result. *)
Section Sort.
Variable A : Type.
Variable comparefn : A -> A -> number.

Definition sortsAfter (x y : A) : bool := gt (comparefn x y) zero.

Fixpoint insert (x : A) (l : list A) : list A :=
  match l with
  | [] => [x]
  | y :: l' => if sortsAfter x y then y :: insert x l' else x :: l
  end.

Definition sort (arr : list A) : list A := fold_right insert [] arr.
End Sort.

(** [arr.slice(0, n)] *)
Definition slice0 (A : Type) (n : nat) (arr : list A) : list A := firstn n arr.

(** [arr.map((x, index) => f(x, index))] *)
Fixpoint mapFrom (A B : Type) (f : A -> Z -> B) (start : Z) (arr : list A)
  : list B :=
  match arr with
  | [] => []
  | x :: arr' => f x start :: mapFrom f (start + 1) arr'
  end.

Definition mapi (A B : Type) (f : A -> Z -> B) (arr : list A) : list B :=
  mapFrom f 0%Z arr.

End Js.


Local Open Scope string_scope.

(** ** Identifiers, exceptions and action results *)

Definition uuid : Type := N.

(** What a caller can pass where an id is expected: a string in uuid form
    or any other string. *)
Inductive idArg : Type :=
| Uuid (u : uuid)
| Malformed (s : string).

Inductive exn : Type :=
| PgError (code : string)      (* an error of the database, with its SQLSTATE *)
| ZodError                     (* thrown by [schema.parse] *)
| JsError (message : string).  (* [throw new Error(message)] *)

(** [idSchema.parse(id)] *)
Definition idSchema_parse (id : idArg) : exn + uuid :=
  match id with
  | Uuid u => inr u
  | Malformed _ => inl ZodError
  end.

(** [ActionResult<T>] of lib/actions/common.ts; [validationErrors] keeps the
    field paths, the messages are those of the validation library. *)
Record ActionResult (T : Type) : Type := mkActionResult {
  success : bool;
  data : option T;
  error : option string;
  message : option string;
  validationErrors : option (list string)
}.

Arguments mkActionResult {T}.

Definition createSuccessResponse (T : Type) (d : option T) (msg : option string)
  : ActionResult T :=
  mkActionResult true d None msg None.

Definition createErrorResponse (T : Type) (err : string) (msg : option string)
  : ActionResult T :=
  mkActionResult false None (Some err) msg None.

Arguments createErrorResponse {T}.

(** The object the actions return when [validateInput] fails. *)
Definition validationFailed (T : Type) (errors : list string) : ActionResult T :=
  mkActionResult false None (Some "Validation failed") None (Some errors).

Arguments validationFailed {T}.

Definition exnCode (e : exn) : option string :=
  match e with
  | PgError code => Some code
  | ZodError | JsError _ => None
  end.

Definition codeIs (e : exn) (code : string) : bool :=
  match exnCode e with
  | Some c => String.eqb c code
  | None => false
  end.

(** [handleDatabaseError(error)] *)
Definition handleDatabaseError (T : Type) (e : exn) : ActionResult T :=
  if codeIs e "23505" then
    mkActionResult false None (Some "Duplicate entry")
      (Some "This record already exists") None
  else if codeIs e "23503" then
    mkActionResult false None (Some "Foreign key constraint violation")
      (Some "Referenced record does not exist") None
  else if codeIs e "23502" then
    mkActionResult false None (Some "Missing required field")
      (Some "Please fill in all required fields") None
  else
    mkActionResult false None (Some "Database operation failed")
      (Some "An unexpected error occurred. Please try again.") None.

Arguments handleDatabaseError {T}.

(** ** Tables (db/schema) *)

Record Animal : Type := mkAnimal {
  an_id : uuid;
  an_displayName : string;
  an_species : string
}.

Record ProductionStage : Type := mkProductionStage {
  ps_id : uuid;
  ps_name : string
}.

Record Ingredient : Type := mkIngredient {
  ig_id : uuid;
  ig_name : string;
  ig_category : option string;
  ig_costPerUnit : Js.number;
  ig_unit : string
}.

(** An element of the [mainIngredients] summary. [JSON.stringify] of the
    summary is represented by the summary itself. *)
Record MainIngredient : Type := mkMainIngredient {
  mi_ingredientId : uuid;
  mi_percentage : Js.number
}.

Record Formulation : Type := mkFormulation {
  f_id : uuid;
  f_name : string;
  f_description : option string;
  f_formulationType : string;
  f_status : string;
  f_animalId : uuid;
  f_productionStageId : uuid;
  f_formulationQuantity : Js.number;
  f_optimizationObjective : string;
  f_totalCost : Js.number;
  f_costPerUnit : Js.number;
  f_nutritionalAnalysis : string;
  f_meetsRequirements : bool;
  f_ingredientCount : Z;
  f_mainIngredients : option (list MainIngredient);
  f_createdBy : string
}.

Record FormulationIngredient : Type := mkFormulationIngredient {
  fi_formulationId : uuid;
  fi_ingredientId : uuid;
  fi_quantity : Js.number;
  fi_percentage : Js.number;
  fi_proportion : Js.number;
  fi_ingredientCost : Js.number;
  fi_costPercentage : Js.number;
  fi_ingredientRole : string;
  fi_isEssential : bool;
  fi_sequenceOrder : Z;
  fi_displayOrder : Z
}.

Record DB : Type := mkDB {
  animals : list Animal;
  productionStages : list ProductionStage;
  ingredients : list Ingredient;
  formulations : list Formulation;
  formulationIngredients : list FormulationIngredient
}.

(** ** Payloads and schemas *)

(** An element of [data.ingredients] as a caller passes it. *)
Record IngredientInput : Type := mkIngredientInput {
  r_ingredientId : idArg;
  r_quantity : Js.number;
  r_percentage : Js.number;
  r_ingredientRole : string;
  r_isEssential : option bool
}.

(** The same element once parsed. *)
Record IngredientEntry : Type := mkIngredientEntry {
  e_ingredientId : uuid;
  e_quantity : Js.number;
  e_percentage : Js.number;
  e_ingredientRole : string;
  e_isEssential : bool
}.

(** The [data] object of createFormulation and updateFormulation: an absent
    key is [None]. *)
Record Payload : Type := mkPayload {
  p_name : option string;
  p_description : option string;
  p_formulationType : option string;
  p_status : option string;
  p_animalId : option idArg;
  p_productionStageId : option idArg;
  p_formulationQuantity : option Js.number;
  p_optimizationObjective : option string;
  p_totalCost : option Js.number;
  p_costPerUnit : option Js.number;
  p_nutritionalAnalysis : option string;
  p_meetsRequirements : option bool;
  p_ingredientCount : option Js.number;
  p_mainIngredients : option (list MainIngredient);
  p_createdBy : option string;
  p_ingredients : option (list IngredientInput)
}.

(** [formulationData]: the parsed object without its [ingredients] key; also
    the shape of the argument of [.values()] and [.set()] on formulations. *)
Record FormulationData : Type := mkFormulationData {
  d_name : option string;
  d_description : option string;
  d_formulationType : option string;
  d_status : option string;
  d_animalId : option uuid;
  d_productionStageId : option uuid;
  d_formulationQuantity : option Js.number;
  d_optimizationObjective : option string;
  d_totalCost : option Js.number;
  d_costPerUnit : option Js.number;
  d_nutritionalAnalysis : option string;
  d_meetsRequirements : option bool;
  d_ingredientCount : option Z;
  d_mainIngredients : option (list MainIngredient);
  d_createdBy : option string
}.

Definition FORMULATION_TYPES : list string :=
  ["Optimal"; "Least Cost"; "Custom"; "Template"].

Definition FORMULATION_STATUS : list string :=
  ["draft"; "active"; "archived"; "template"].

Definition OPTIMIZATION_OBJECTIVES : list string :=
  ["cost"; "quality"; "balanced"; "custom"].

Module Zod.

(** [z.string().min(lo).max(hi)] *)
Definition stringBetween (lo hi : nat) (s : string) : bool :=
  (lo <=? String.length s)%nat && (String.length s <=? hi)%nat.

Definition anyString (s : string) : bool := true.

(** [z.enum(values)] *)
Definition enum (values : list string) (s : string) : bool :=
  existsb (String.eqb s) values.

(** [z.string().uuid()] *)
Definition isUuid (i : idArg) : bool :=
  match i with
  | Uuid _ => true
  | Malformed _ => false
  end.

(** [z.number().positive()]; [z.number()] alone refuses NaN. *)
Definition positive (a : Js.number) : bool := Js.gt a Js.zero.

(** [z.number().min(lo)] *)
Definition atLeast (lo : Z) (a : Js.number) : bool := Js.ge a (Js.ofZ lo).

(** [z.number().min(lo).max(hi)] *)
Definition between (lo hi : Z) (a : Js.number) : bool :=
  Js.ge a (Js.ofZ lo) && Js.ge (Js.ofZ hi) a.

(** [z.number().int().min(lo)] *)
Definition intAtLeast (lo : Z) (a : Js.number) : bool :=
  Js.isInteger a && Js.ge a (Js.ofZ lo).

Definition anything (A : Type) (x : A) : bool := true.

(** The issues of one key of an object schema: its path when the key is
    absent though required, or present with a value the schema refuses. *)
Definition key (A : Type) (path : string) (required : bool) (ok : A -> bool)
  (v : option A) : list string :=
  match v with
  | None => if required then [path] else []
  | Some x => if ok x then [] else [path]
  end.

End Zod.

(** The two schemas the actions validate against. *)
Inductive Schema : Type :=
| createFormulationSchema
| createFormulationSchema_partial.

Definition isPartial (s : Schema) : bool :=
  match s with
  | createFormulationSchema => false
  | createFormulationSchema_partial => true
  end.

(** Issues of the element at [index] of [ingredients]. *)
Definition entryIssues (r : IngredientInput) (index : Z) : list string :=
  let at_ field := "ingredients." ++ Js.printN (Z.to_N index) ++ "." ++ field in
  (if Zod.isUuid (r_ingredientId r) then [] else [at_ "ingredientId"])
    ++ (if Zod.positive (r_quantity r) then [] else [at_ "quantity"])
    ++ (if Zod.between 0 100 (r_percentage r) then [] else [at_ "percentage"]).

(** [z.array(...).min(1, 'At least one ingredient is required')] *)
Definition ingredientsIssues (required : bool) (v : option (list IngredientInput))
  : list string :=
  match v with
  | None => if required then ["ingredients"] else []
  | Some [] => ["ingredients"]
  | Some l => List.concat (Js.mapi entryIssues l)
  end.

(** All issues of a payload. Keys that insertFormulationSchema declares
    without [.optional()] or [.default()] are required, unless the schema is
    the partial one. *)
Definition schemaIssues (s : Schema) (p : Payload) : list string :=
  let req := negb (isPartial s) in
  Zod.key "name" req (Zod.stringBetween 1 255) (p_name p)
    ++ Zod.key "description" false Zod.anyString (p_description p)
    ++ Zod.key "formulationType" req (Zod.enum FORMULATION_TYPES)
         (p_formulationType p)
    ++ Zod.key "status" false (Zod.enum FORMULATION_STATUS) (p_status p)
    ++ Zod.key "animalId" req Zod.isUuid (p_animalId p)
    ++ Zod.key "productionStageId" req Zod.isUuid (p_productionStageId p)
    ++ Zod.key "formulationQuantity" req Zod.positive (p_formulationQuantity p)
    ++ Zod.key "optimizationObjective" req (Zod.enum OPTIMIZATION_OBJECTIVES)
         (p_optimizationObjective p)
    ++ Zod.key "totalCost" req (Zod.atLeast 0) (p_totalCost p)
    ++ Zod.key "costPerUnit" req (Zod.atLeast 0) (p_costPerUnit p)
    ++ Zod.key "nutritionalAnalysis" req Zod.anyString (p_nutritionalAnalysis p)
    ++ Zod.key "meetsRequirements" req (@Zod.anything bool)
         (p_meetsRequirements p)
    ++ Zod.key "ingredientCount" req (Zod.intAtLeast 0) (p_ingredientCount p)
    ++ Zod.key "mainIngredients" false (@Zod.anything (list MainIngredient))
         (p_mainIngredients p)
    ++ Zod.key "createdBy" req (Zod.stringBetween 1 255) (p_createdBy p)
    ++ ingredientsIssues req (p_ingredients p).

Definition uuidOf (i : idArg) : option uuid :=
  match i with
  | Uuid u => Some u
  | Malformed _ => None
  end.

Definition integerOf (a : Js.number) : option Z :=
  match a with
  | Js.Num q => Some (Qfloor q)
  | _ => None
  end.

Definition bindOpt (A B : Type) (v : option A) (f : A -> option B) : option B :=
  match v with
  | Some x => f x
  | None => None
  end.

(** The parsed element: [isEssential] defaults to false. *)
Definition parseEntry (r : IngredientInput) : option IngredientEntry :=
  match r_ingredientId r with
  | Uuid u =>
      Some (mkIngredientEntry u (r_quantity r) (r_percentage r)
              (r_ingredientRole r)
              (match r_isEssential r with Some b => b | None => false end))
  | Malformed _ => None
  end.

Fixpoint parseEntries (l : list IngredientInput) : option (list IngredientEntry) :=
  match l with
  | [] => Some []
  | r :: l' =>
      match parseEntry r, parseEntries l' with
      | Some e, Some es => Some (e :: es)
      | _, _ => None
      end
  end.

(** The parsed object of a payload without issues. [status] has a default,
    which the partial schema does not apply to an absent key. *)
Definition parseData (s : Schema) (p : Payload) : FormulationData :=
  {| d_name := p_name p;
     d_description := p_description p;
     d_formulationType := p_formulationType p;
     d_status := match p_status p with
                 | Some st => Some st
                 | None => if isPartial s then None else Some "draft"
                 end;
     d_animalId := bindOpt (p_animalId p) uuidOf;
     d_productionStageId := bindOpt (p_productionStageId p) uuidOf;
     d_formulationQuantity := p_formulationQuantity p;
     d_optimizationObjective := p_optimizationObjective p;
     d_totalCost := p_totalCost p;
     d_costPerUnit := p_costPerUnit p;
     d_nutritionalAnalysis := p_nutritionalAnalysis p;
     d_meetsRequirements := p_meetsRequirements p;
     d_ingredientCount := bindOpt (p_ingredientCount p) integerOf;
     d_mainIngredients := p_mainIngredients p;
     d_createdBy := p_createdBy p |}.

(** [validateInput(schema, data)]: the parsed data, split as the actions
    split it into [formulationData] and [ingredientData], or the issues. *)
Definition validateInput (s : Schema) (p : Payload)
  : list string + (FormulationData * option (list IngredientEntry)) :=
  match schemaIssues s p with
  | [] =>
      match p_ingredients p with
      | None => inr (parseData s p, None)
      | Some l =>
          match parseEntries l with
          | Some es => inr (parseData s p, Some es)
          | None => inl ["ingredients"]
          end
      end
  | errors => inl errors
  end.

(** ** Column types of the database *)

Module Pg.

(** [q] rounded to [s] digits after the point, a half away from zero. *)
Definition roundAt (s : nat) (q : Q) : Q :=
  let unit_ := inject_Z (10 ^ Z.of_nat s) in
  let n := Qfloor (Qabs q * unit_ + (1 # 2)) in
  (match q ?= 0 with
   | Lt => inject_Z (- n)
   | _ => inject_Z n
   end / unit_)%Q.

(** A number written to a column [numeric(p, s)]: the column holds it
    rounded to [s] digits after the point and refuses it (numeric field
    overflow) when the rounded number has more than [p - s] digits before
    the point, or is infinite; NaN is a value of the type. *)
Definition numeric (p s : nat) (a : Js.number) : exn + Js.number :=
  match a with
  | Js.Num q =>
      let r := roundAt s q in
      if Qle_bool (inject_Z (10 ^ Z.of_nat (p - s))) (Qabs r)
      then inl (PgError "22003")
      else inr (Js.fin r)
  | Js.NaN => inr Js.NaN
  | Js.PInf | Js.NInf => inl (PgError "22003")
  end.

(** A number written to a column [integer]. *)
Definition int4 (z : Z) : exn + Z :=
  if ((-2147483648 <=? z) && (z <=? 2147483647))%Z then inr z
  else inl (PgError "22003").

(** A string written to a column [varchar(n)]. *)
Definition varchar (n : nat) (s : string) : exn + string :=
  if (String.length s <=? n)%nat then inr s else inl (PgError "22001").

(** The same for a key that may be absent from [.values()] or [.set()]. *)
Definition absentOr (A : Type) (column : A -> exn + A) (v : option A)
  : exn + option A :=
  match v with
  | None => inr None
  | Some a =>
      match column a with
      | inl e => inl e
      | inr b => inr (Some b)
      end
  end.

End Pg.

(** ** Queries, statements and transactions *)

(** A computation inside a transaction: it reads and writes the database
    and may throw. *)
Definition Tx (A : Type) : Type := DB -> exn + (A * DB).

Definition ret (A : Type) (a : A) : Tx A := fun db => inr (a, db).

Definition throw (A : Type) (e : exn) : Tx A := fun _ => inl e.

Arguments throw {A}.

Definition bind (A B : Type) (m : Tx A) (k : A -> Tx B) : Tx B :=
  fun db =>
    match m db with
    | inl e => inl e
    | inr (a, db') => k a db'
    end.

Definition query (A : Type) (q : DB -> A) : Tx A := fun db => inr (q db, db).

Notation "x <- m ;; k" := (bind m (fun x => k))
  (at level 61, m at next level, right associativity).

(** [db.transaction(body)]: commits what the body wrote when it returns,
    restores the database when it throws. *)
Definition transaction (A : Type) (body : Tx A) (db : DB) : (exn + A) * DB :=
  match body db with
  | inl e => (inl e, db)
  | inr (a, db') => (inr a, db')
  end.

Definition withFormulations (db : DB) (l : list Formulation) : DB :=
  mkDB (animals db) (productionStages db) (ingredients db) l
    (formulationIngredients db).

Definition withFormulationIngredients (db : DB) (l : list FormulationIngredient)
  : DB :=
  mkDB (animals db) (productionStages db) (ingredients db) (formulations db) l.

(** [select ... from formulations where id = ... limit 1] *)
Definition selectFormulation (id : uuid) (db : DB) : option Formulation :=
  find (fun f => N.eqb (f_id f) id) (formulations db).

(** Lookups by primary key, also used for the left joins on a primary key. *)
Definition selectIngredient (id : uuid) (db : DB) : option Ingredient :=
  find (fun i => N.eqb (ig_id i) id) (ingredients db).

Definition selectAnimal (id : uuid) (db : DB) : option Animal :=
  find (fun a => N.eqb (an_id a) id) (animals db).

Definition selectProductionStage (id : uuid) (db : DB) : option ProductionStage :=
  find (fun s => N.eqb (ps_id s) id) (productionStages db).

Definition isSome (A : Type) (v : option A) : bool :=
  match v with
  | Some _ => true
  | None => false
  end.

(** [select ... from formulation_ingredients where formulation_id = ...] *)
Definition ingredientsOf (id : uuid) (db : DB) : list FormulationIngredient :=
  filter (fun r => N.eqb (fi_formulationId r) id) (formulationIngredients db).

Definition orElse (A : Type) (v : option A) (d : A) : A :=
  match v with
  | Some x => x
  | None => d
  end.

(** The row an insert builds from its values: the NOT NULL columns without
    default must be there, [status] defaults to draft. *)
Definition rowOfValues (newId : uuid) (v : FormulationData) : option Formulation :=
  bindOpt (d_name v) (fun name =>
  bindOpt (d_formulationType v) (fun formulationType =>
  bindOpt (d_animalId v) (fun animalId =>
  bindOpt (d_productionStageId v) (fun productionStageId =>
  bindOpt (d_formulationQuantity v) (fun formulationQuantity =>
  bindOpt (d_optimizationObjective v) (fun optimizationObjective =>
  bindOpt (d_totalCost v) (fun totalCost =>
  bindOpt (d_costPerUnit v) (fun costPerUnit =>
  bindOpt (d_nutritionalAnalysis v) (fun nutritionalAnalysis =>
  bindOpt (d_meetsRequirements v) (fun meetsRequirements =>
  bindOpt (d_ingredientCount v) (fun ingredientCount =>
  bindOpt (d_createdBy v) (fun createdBy =>
    Some (mkFormulation newId name (d_description v) formulationType
            (orElse (d_status v) "draft") animalId productionStageId
            formulationQuantity optimizationObjective totalCost costPerUnit
            nutritionalAnalysis meetsRequirements ingredientCount
            (d_mainIngredients v) createdBy))))))))))))).

(** The values of [.values(v)] or [.set(v)] as the columns of formulations
    take them: formulation_quantity numeric(10,2), total_cost numeric(12,2),
    cost_per_unit numeric(10,2), ingredient_count integer. The strings come
    within the length of their columns from the schema. *)
Definition storeData (v : FormulationData) : exn + FormulationData :=
  match Pg.absentOr (Pg.numeric 10 2) (d_formulationQuantity v) with
  | inl e => inl e
  | inr formulationQuantity =>
  match Pg.absentOr (Pg.numeric 12 2) (d_totalCost v) with
  | inl e => inl e
  | inr totalCost =>
  match Pg.absentOr (Pg.numeric 10 2) (d_costPerUnit v) with
  | inl e => inl e
  | inr costPerUnit =>
  match Pg.absentOr Pg.int4 (d_ingredientCount v) with
  | inl e => inl e
  | inr ingredientCount =>
      inr {| d_name := d_name v;
             d_description := d_description v;
             d_formulationType := d_formulationType v;
             d_status := d_status v;
             d_animalId := d_animalId v;
             d_productionStageId := d_productionStageId v;
             d_formulationQuantity := formulationQuantity;
             d_optimizationObjective := d_optimizationObjective v;
             d_totalCost := totalCost;
             d_costPerUnit := costPerUnit;
             d_nutritionalAnalysis := d_nutritionalAnalysis v;
             d_meetsRequirements := d_meetsRequirements v;
             d_ingredientCount := ingredientCount;
             d_mainIngredients := d_mainIngredients v;
             d_createdBy := d_createdBy v |}
  end end end end.

(** [insert(formulations).values(v).returning()]; [newId] is the uuid the
    database draws for the row. The values are converted to the types of
    their columns before any constraint is checked. *)
Definition insertFormulation (newId : uuid) (v : FormulationData) : Tx Formulation :=
  fun db =>
    match storeData v with
    | inl e => inl e
    | inr stored =>
        match rowOfValues newId stored with
        | None => inl (PgError "23502")
        | Some row =>
            if isSome (selectFormulation newId db) then inl (PgError "23505")
            else if isSome (selectAnimal (f_animalId row) db)
                    && isSome (selectProductionStage (f_productionStageId row) db)
            then inr (row, withFormulations db (formulations db ++ [row]))
            else inl (PgError "23503")
        end
    end.

(** The row after [set(v)]: the keys present in [v] replace the columns. *)
Definition applySet (v : FormulationData) (f : Formulation) : Formulation :=
  {| f_id := f_id f;
     f_name := orElse (d_name v) (f_name f);
     f_description := match d_description v with
                      | Some s => Some s
                      | None => f_description f
                      end;
     f_formulationType := orElse (d_formulationType v) (f_formulationType f);
     f_status := orElse (d_status v) (f_status f);
     f_animalId := orElse (d_animalId v) (f_animalId f);
     f_productionStageId := orElse (d_productionStageId v) (f_productionStageId f);
     f_formulationQuantity :=
       orElse (d_formulationQuantity v) (f_formulationQuantity f);
     f_optimizationObjective :=
       orElse (d_optimizationObjective v) (f_optimizationObjective f);
     f_totalCost := orElse (d_totalCost v) (f_totalCost f);
     f_costPerUnit := orElse (d_costPerUnit v) (f_costPerUnit f);
     f_nutritionalAnalysis :=
       orElse (d_nutritionalAnalysis v) (f_nutritionalAnalysis f);
     f_meetsRequirements := orElse (d_meetsRequirements v) (f_meetsRequirements f);
     f_ingredientCount := orElse (d_ingredientCount v) (f_ingredientCount f);
     f_mainIngredients := match d_mainIngredients v with
                          | Some l => Some l
                          | None => f_mainIngredients f
                          end;
     f_createdBy := orElse (d_createdBy v) (f_createdBy f) |}.

(** The foreign keys a [set(v)] writes must point to existing rows. *)
Definition referencesExist (v : FormulationData) (db : DB) : bool :=
  match d_animalId v with
  | Some a => isSome (selectAnimal a db)
  | None => true
  end
  && match d_productionStageId v with
     | Some s => isSome (selectProductionStage s db)
     | None => true
     end.

(** [update(formulations).set(v).where(eq(formulations.id, id)).returning()];
    the values are converted to the types of their columns first. *)
Definition updateFormulations (v : FormulationData) (id : uuid)
  : Tx (list Formulation) :=
  fun db =>
    match storeData v with
    | inl e => inl e
    | inr stored =>
        let hit f := N.eqb (f_id f) id in
        let rows :=
          map (fun f => if hit f then applySet stored f else f) (formulations db) in
        if existsb hit (formulations db) && negb (referencesExist stored db)
        then inl (PgError "23503")
        else inr (filter hit rows, withFormulations db rows)
    end.

(** [delete(formulationIngredients).where(eq(formulationId, id))] *)
Definition deleteFormulationIngredients (id : uuid) : Tx unit :=
  fun db =>
    inr (tt, withFormulationIngredients db
               (filter (fun r => negb (N.eqb (fi_formulationId r) id))
                  (formulationIngredients db))).

(** A row of [.values(rows)] as the columns of formulation_ingredients
    take it: quantity numeric(12,4), percentage numeric(5,2), proportion
    numeric(8,6), ingredient_cost numeric(10,2), cost_percentage
    numeric(5,2), ingredient_role varchar(50), sequence_order and
    display_order integer. *)
Definition storeRow (r : FormulationIngredient) : exn + FormulationIngredient :=
  match Pg.numeric 12 4 (fi_quantity r) with
  | inl e => inl e
  | inr quantity =>
  match Pg.numeric 5 2 (fi_percentage r) with
  | inl e => inl e
  | inr percentage =>
  match Pg.numeric 8 6 (fi_proportion r) with
  | inl e => inl e
  | inr proportion =>
  match Pg.numeric 10 2 (fi_ingredientCost r) with
  | inl e => inl e
  | inr ingredientCost =>
  match Pg.numeric 5 2 (fi_costPercentage r) with
  | inl e => inl e
  | inr costPercentage =>
  match Pg.varchar 50 (fi_ingredientRole r) with
  | inl e => inl e
  | inr ingredientRole =>
  match Pg.int4 (fi_sequenceOrder r) with
  | inl e => inl e
  | inr sequenceOrder =>
  match Pg.int4 (fi_displayOrder r) with
  | inl e => inl e
  | inr displayOrder =>
      inr {| fi_formulationId := fi_formulationId r;
             fi_ingredientId := fi_ingredientId r;
             fi_quantity := quantity;
             fi_percentage := percentage;
             fi_proportion := proportion;
             fi_ingredientCost := ingredientCost;
             fi_costPercentage := costPercentage;
             fi_ingredientRole := ingredientRole;
             fi_isEssential := fi_isEssential r;
             fi_sequenceOrder := sequenceOrder;
             fi_displayOrder := displayOrder |}
  end end end end end end end end.

Fixpoint storeRows (rows : list FormulationIngredient)
  : exn + list FormulationIngredient :=
  match rows with
  | [] => inr []
  | r :: rows' =>
      match storeRow r with
      | inl e => inl e
      | inr stored =>
          match storeRows rows' with
          | inl e => inl e
          | inr stored' => inr (stored :: stored')
          end
      end
  end.

(** [insert(formulationIngredients).values(rows)]: the query builder
    refuses an empty list of values; the values of every row are converted
    to the types of their columns; at the end of the statement both foreign
    keys of every row must point to existing rows. *)
Definition insertFormulationIngredients (rows : list FormulationIngredient)
  : Tx unit :=
  fun db =>
    match rows with
    | [] => inl (JsError "values() must be called with at least one value")
    | _ =>
        match storeRows rows with
        | inl e => inl e
        | inr stored =>
            if forallb (fun r => isSome (selectFormulation (fi_formulationId r) db)
                                 && isSome (selectIngredient (fi_ingredientId r) db))
                 stored
            then inr (tt, withFormulationIngredients db
                            (formulationIngredients db ++ stored))
            else inl (PgError "23503")
        end
    end.

(** [delete(formulations).where(eq(formulations.id, id))]: the rows of
    formulation_ingredients that reference the formulation go with it
    (on delete cascade). *)
Definition deleteFormulations (id : uuid) : Tx unit :=
  fun db =>
    inr (tt, mkDB (animals db) (productionStages db) (ingredients db)
               (filter (fun f => negb (N.eqb (f_id f) id)) (formulations db))
               (filter (fun r => negb (N.eqb (fi_formulationId r) id))
                  (formulationIngredients db))).

(** [order by asc(key)], as a stable insertion. *)
Fixpoint insertAsc (A : Type) (key : A -> Z) (x : A) (l : list A) : list A :=
  match l with
  | [] => [x]
  | y :: l' => if (key y <? key x)%Z then y :: insertAsc key x l' else x :: l
  end.

Definition orderByAsc (A : Type) (key : A -> Z) (l : list A) : list A :=
  fold_right (insertAsc key) [] l.

(** ** The formulation actions (lib/actions/formulations) *)

Record IngredientView : Type := mkIngredientView {
  iv_row : FormulationIngredient;
  iv_ingredientName : option string;
  iv_ingredientCategory : option string;
  iv_ingredientCostPerUnit : option Js.number;
  iv_ingredientUnit : option string
}.

Record FormulationView : Type := mkFormulationView {
  v_formulation : Formulation;
  v_animalName : option string;
  v_animalSpecies : option string;
  v_stageName : option string;
  v_ingredients : list IngredientView
}.

(** One row of formulation_ingredients left-joined with its ingredient. *)
Definition joinIngredient (db : DB) (r : FormulationIngredient) : IngredientView :=
  let ingredient := selectIngredient (fi_ingredientId r) db in
  mkIngredientView r
    (option_map ig_name ingredient)
    (bindOpt ingredient ig_category)
    (option_map ig_costPerUnit ingredient)
    (option_map ig_unit ingredient).

Definition getFormulationById (id : idArg) (db : DB)
  : ActionResult FormulationView * DB :=
  match idSchema_parse id with
  | inl e => (handleDatabaseError e, db)
  | inr validatedId =>
      match selectFormulation validatedId db with
      | None => (createErrorResponse "Formulation not found" None, db)
      | Some f =>
          let animal := selectAnimal (f_animalId f) db in
          let stage := selectProductionStage (f_productionStageId f) db in
          let ingredientsData :=
            orderByAsc (fun v => fi_displayOrder (iv_row v))
              (map (joinIngredient db) (ingredientsOf validatedId db)) in
          (createSuccessResponse
             (Some (mkFormulationView f
                      (option_map an_displayName animal)
                      (option_map an_species animal)
                      (option_map ps_name stage)
                      ingredientsData))
             None,
           db)
      end
  end.

(** [ingredientData.reduce((sum, ing) => sum + ing.percentage, 0)] *)
Definition totalPercentage (ingredientData : list IngredientEntry) : Js.number :=
  fold_left (fun sum ing => Js.add sum (e_percentage ing)) ingredientData Js.zero.

(** [Math.abs(totalPercentage - 100) > 0.1] *)
Definition outOfTolerance (total : Js.number) : bool :=
  Js.gt (Js.abs (Js.sub total (Js.ofZ 100))) (Js.Num (1 # 10)).

Definition sumMessage (total : Js.number) : string :=
  "Ingredient percentages must sum to 100%. Current sum: "
    ++ Js.toFixed1 total ++ "%".

(** The comparator [(a, b) => b.percentage - a.percentage]. *)
Definition byPercentageDesc (a b : IngredientEntry) : Js.number :=
  Js.sub (e_percentage b) (e_percentage a).

(** [.slice(0, 5).map(ing => ({ ingredientId, percentage }))] *)
Definition topFive (sorted : list IngredientEntry) : list MainIngredient :=
  map (fun ing => mkMainIngredient (e_ingredientId ing) (e_percentage ing))
    (Js.slice0 5 sorted).

(** The callback of [ingredientData.map]: the row for the entry [ing] at
    position [index], with the cost looked up in the ingredients table;
    [totalCost] is the divisor of the cost percentage. The column
    cost_per_unit is NOT NULL and comes back as a decimal string, which is
    never falsy: the [|| 0] applies when no ingredient is found, and the
    product converts the string to its number. *)
Definition ingredientRow (formulationId : uuid) (totalCost : Js.number) (db : DB)
  (ing : IngredientEntry) (index : Z) : FormulationIngredient :=
  let costPerUnit :=
    match selectIngredient (e_ingredientId ing) db with
    | Some ingredient => ig_costPerUnit ingredient
    | None => Js.zero
    end in
  let ingredientCost := Js.mul costPerUnit (e_quantity ing) in
  let costPercentage := Js.mul (Js.div ingredientCost totalCost) (Js.ofZ 100) in
  {| fi_formulationId := formulationId;
     fi_ingredientId := e_ingredientId ing;
     fi_quantity := e_quantity ing;
     fi_percentage := e_percentage ing;
     fi_proportion := Js.div (e_percentage ing) (Js.ofZ 100);
     fi_ingredientCost := ingredientCost;
     fi_costPercentage := costPercentage;
     fi_ingredientRole := e_ingredientRole ing;
     fi_isEssential := e_isEssential ing;
     fi_sequenceOrder := index;
     fi_displayOrder := index |}.

Definition emptyData : FormulationData :=
  mkFormulationData None None None None None None None None None None None None
    None None None.

(** The body of the transaction of createFormulation. The argument of
    [.values()] is built before the insert runs, and building its
    [mainIngredients] key sorts [ingredientData] itself: the array the later
    [ingredientData.map] walks is the sorted one. The divisor of the cost
    percentage is [parseFloat(formulationData.totalCost.toString())]; a
    number printed and parsed back is the number. *)
Definition createTx (newId : uuid) (formulationData : FormulationData)
  (ingredientData : list IngredientEntry)
  : Tx (Formulation * list FormulationIngredient) :=
  let ingredientCount := Z.of_nat (List.length ingredientData) in
  let ingredientData := Js.sort byPercentageDesc ingredientData in
  let values :=
    {| d_name := d_name formulationData;
       d_description := d_description formulationData;
       d_formulationType := d_formulationType formulationData;
       d_status := d_status formulationData;
       d_animalId := d_animalId formulationData;
       d_productionStageId := d_productionStageId formulationData;
       d_formulationQuantity := d_formulationQuantity formulationData;
       d_optimizationObjective := d_optimizationObjective formulationData;
       d_totalCost := d_totalCost formulationData;
       d_costPerUnit := d_costPerUnit formulationData;
       d_nutritionalAnalysis := Some "{}";
       d_meetsRequirements := Some false;
       d_ingredientCount := Some ingredientCount;
       d_mainIngredients := Some (topFive ingredientData);
       d_createdBy := d_createdBy formulationData |} in
  newFormulation <- insertFormulation newId values ;;
  match d_totalCost formulationData with
  | None => throw (JsError "Cannot read properties of undefined")
  | Some totalCost =>
      formulationIngredientsWithCost <-
        query (fun db =>
                 Js.mapi (ingredientRow (f_id newFormulation) totalCost db)
                   ingredientData) ;;
      _ <- insertFormulationIngredients formulationIngredientsWithCost ;;
      ret (newFormulation, formulationIngredientsWithCost)
  end.

Definition createFormulation (newId : uuid) (data : Payload) (db : DB)
  : ActionResult (Formulation * list FormulationIngredient) * DB :=
  match validateInput createFormulationSchema data with
  | inl errors => (validationFailed errors, db)
  | inr (formulationData, None) =>
      (handleDatabaseError (JsError "Cannot read properties of undefined"), db)
  | inr (formulationData, Some ingredientData) =>
      let total := totalPercentage ingredientData in
      if outOfTolerance total then
        (createErrorResponse "Invalid ingredient percentages"
           (Some (sumMessage total)), db)
      else
        match transaction (createTx newId formulationData ingredientData) db with
        | (inl e, db') => (handleDatabaseError e, db')
        | (inr result, db') =>
            (createSuccessResponse (Some result)
               (Some "Formulation created successfully"), db')
        end
  end.

(** [Object.keys(formulationData).length > 0] *)
Definition hasKeys (v : FormulationData) : bool :=
  isSome (d_name v) || isSome (d_description v) || isSome (d_formulationType v)
  || isSome (d_status v) || isSome (d_animalId v)
  || isSome (d_productionStageId v) || isSome (d_formulationQuantity v)
  || isSome (d_optimizationObjective v) || isSome (d_totalCost v)
  || isSome (d_costPerUnit v) || isSome (d_nutritionalAnalysis v)
  || isSome (d_meetsRequirements v) || isSome (d_ingredientCount v)
  || isSome (d_mainIngredients v) || isSome (d_createdBy v).

(** [{ ingredientCount, mainIngredients, updatedAt }] *)
Definition summaryData (ingredientCount : Z) (mainIngredients : list MainIngredient)
  : FormulationData :=
  mkFormulationData None None None None None None None None None None None None
    (Some ingredientCount) (Some mainIngredients) None.

(** The body of the transaction of updateFormulation. The divisor of the
    cost percentage is [parseFloat(formulationData.totalCost?.toString() ||
    '0')]; a number printed and parsed back is the number. *)
Definition updateTx (validatedId : uuid) (formulationData : FormulationData)
  (ingredientData : option (list IngredientEntry)) : Tx unit :=
  _ <- (if hasKeys formulationData
        then (_ <- updateFormulations formulationData validatedId ;; ret tt)
        else ret tt) ;;
  match ingredientData with
  | Some ingredientData =>
      let total := totalPercentage ingredientData in
      if outOfTolerance total then throw (JsError (sumMessage total))
      else
        _ <- deleteFormulationIngredients validatedId ;;
        newIngredients <-
          query (fun db =>
                   Js.mapi
                     (ingredientRow validatedId
                        (orElse (d_totalCost formulationData) Js.zero) db)
                     ingredientData) ;;
        _ <- insertFormulationIngredients newIngredients ;;
        _ <- updateFormulations
               (summaryData (Z.of_nat (List.length ingredientData))
                  (topFive (Js.sort byPercentageDesc ingredientData)))
               validatedId ;;
        ret tt
  | None => ret tt
  end.

Definition updateFormulation (id : idArg) (data : Payload) (db : DB)
  : ActionResult FormulationView * DB :=
  match idSchema_parse id with
  | inl e => (handleDatabaseError e, db)
  | inr validatedId =>
      match validateInput createFormulationSchema_partial data with
      | inl errors => (validationFailed errors, db)
      | inr (formulationData, ingredientData) =>
          match selectFormulation validatedId db with
          | None => (createErrorResponse "Formulation not found" None, db)
          | Some existingFormulation =>
              if String.eqb (f_status existingFormulation) "active" then
                (createErrorResponse "Cannot edit active formulation"
                   (Some "Deactivate the formulation first before making changes"),
                 db)
              else
                match transaction
                        (updateTx validatedId formulationData ingredientData) db
                with
                | (inl e, db') => (handleDatabaseError e, db')
                | (inr _, db') => getFormulationById (Uuid validatedId) db'
                end
          end
      end
  end.

Definition quote : string := String (ascii_of_nat 34) EmptyString.

Definition deleteFormulation (id : idArg) (db : DB) : ActionResult unit * DB :=
  match idSchema_parse id with
  | inl e => (handleDatabaseError e, db)
  | inr validatedId =>
      match selectFormulation validatedId db with
      | None => (createErrorResponse "Formulation not found" None, db)
      | Some formulationInfo =>
          if String.eqb (f_status formulationInfo) "active" then
            (createErrorResponse "Cannot delete active formulation"
               (Some "Deactivate the formulation first before deleting"), db)
          else
            match deleteFormulations validatedId db with
            | inl e => (handleDatabaseError e, db)
            | inr (_, db') =>
                (createSuccessResponse None
                   (Some ("Formulation " ++ quote ++ f_name formulationInfo
                            ++ quote ++ " deleted successfully")), db')
            end
      end
  end.

(** [{ status: activate ? 'active' : 'draft', updatedAt }] *)
Definition statusData (status : string) : FormulationData :=
  mkFormulationData None None None (Some status) None None None None None None
    None None None None None.

Definition toggleFormulationStatus (id : idArg) (activate : bool) (db : DB)
  : ActionResult Formulation * DB :=
  match idSchema_parse id with
  | inl e => (handleDatabaseError e, db)
  | inr validatedId =>
      match updateFormulations
              (statusData (if activate then "active" else "draft")) validatedId db
      with
      | inl e => (handleDatabaseError e, db)
      | inr ([], db') => (createErrorResponse "Formulation not found" None, db')
      | inr (updatedFormulation :: _, db') =>
          (createSuccessResponse (Some updatedFormulation)
             (Some ("Formulation "
                      ++ (if activate then "activated" else "deactivated")
                      ++ " successfully")), db')
      end
  end.

(** [newFormulationData] and [ingredientsData] of duplicateFormulation, as
    the one object passed to createFormulation. An empty description is
    falsy. The decimals of the row read (formulationQuantity, totalCost,
    costPerUnit, and quantity and percentage of each ingredient row) are
    copied as the driver returned them, as decimal strings, which the schema
    refuses where it declares a number: the typed payload here holds their
    numbers, so that the issues of this payload are among the issues of the
    object the action builds. *)
Definition duplicatePayload (original : FormulationView) (newName : string)
  : Payload :=
  let f := v_formulation original in
  {| p_name := Some newName;
     p_description :=
       Some (match f_description f with
             | Some (String c s) => "Copy of: " ++ String c s
             | _ => "Copy of " ++ f_name f
             end);
     p_formulationType := Some (f_formulationType f);
     p_status := Some "draft";
     p_animalId := Some (Uuid (f_animalId f));
     p_productionStageId := Some (Uuid (f_productionStageId f));
     p_formulationQuantity := Some (f_formulationQuantity f);
     p_optimizationObjective := Some (f_optimizationObjective f);
     p_totalCost := Some (f_totalCost f);
     p_costPerUnit := Some (f_costPerUnit f);
     p_nutritionalAnalysis := None;
     p_meetsRequirements := None;
     p_ingredientCount := None;
     p_mainIngredients := None;
     p_createdBy := Some (f_createdBy f);
     p_ingredients :=
       Some (map (fun ing =>
                    let r := iv_row ing in
                    mkIngredientInput (Uuid (fi_ingredientId r)) (fi_quantity r)
                      (fi_percentage r) (fi_ingredientRole r)
                      (Some (fi_isEssential r)))
               (v_ingredients original)) |}.

Definition duplicateFormulation (newId : uuid) (id : idArg) (newName : string)
  (db : DB) : ActionResult (Formulation * list FormulationIngredient) * DB :=
  match idSchema_parse id with
  | inl e => (handleDatabaseError e, db)
  | inr validatedId =>
      let (originalResult, db1) := getFormulationById (Uuid validatedId) db in
      match success originalResult, data originalResult with
      | true, Some original =>
          createFormulation newId (duplicatePayload original newName) db1
      | _, _ => (createErrorResponse "Original formulation not found" None, db1)
      end
  end.

(** ** Sample data *)

Module Sample.

Definition cornId : uuid := 10%N.
Definition soyId : uuid := 11%N.
Definition waterId : uuid := 12%N.
Definition unknownId : uuid := 99%N.

Definition corn : Ingredient :=
  mkIngredient cornId "Corn" (Some "Energy Source") (Js.ofZ 1) "kg".

Definition soy : Ingredient :=
  mkIngredient soyId "Soybean meal" (Some "Protein Source") (Js.Num (3 # 2)) "kg".

Definition water : Ingredient :=
  mkIngredient waterId "Water" None Js.zero "kg".

Definition db0 : DB :=
  mkDB [mkAnimal 1%N "Broiler" "Chicken"] [mkProductionStage 2%N "Starter"]
    [corn; soy; water] [] [].

Definition entry (id : uuid) (quantity percentage : Z) : IngredientInput :=
  mkIngredientInput (Uuid id) (Js.ofZ quantity) (Js.ofZ percentage) "Primary"
    None.

(** A complete payload for createFormulation with the given declared
    total cost and mix. *)
Definition payload (totalCost : Z) (mix : list IngredientInput) : Payload :=
  {| p_name := Some "Broiler Starter";
     p_description := None;
     p_formulationType := Some "Custom";
     p_status := None;
     p_animalId := Some (Uuid 1%N);
     p_productionStageId := Some (Uuid 2%N);
     p_formulationQuantity := Some (Js.ofZ 100);
     p_optimizationObjective := Some "cost";
     p_totalCost := Some (Js.ofZ totalCost);
     p_costPerUnit := Some (Js.ofZ 1);
     p_nutritionalAnalysis := Some "{}";
     p_meetsRequirements := Some false;
     p_ingredientCount := Some (Js.ofZ 0);
     p_mainIngredients := None;
     p_createdBy := Some "user-1";
     p_ingredients := Some mix |}.

(** A payload for updateFormulation that carries a mix and nothing else. *)
Definition mixOnly (mix : list IngredientInput) : Payload :=
  mkPayload None None None None None None None None None None None None None
    None None (Some mix).

(** The mix of scenario A, and the same mix with soy first. *)
Definition cornSoy : list IngredientInput := [entry cornId 60 60; entry soyId 40 40].
Definition soyCorn : list IngredientInput := [entry soyId 40 40; entry cornId 60 60].

(** The entries of these mixes once parsed. *)
Definition parsed (id : uuid) (quantity percentage : Z) : IngredientEntry :=
  mkIngredientEntry id (Js.ofZ quantity) (Js.ofZ percentage) "Primary" false.

(** The mix of scenario B: the percentages sum to 99. *)
Definition short : list IngredientInput := [entry cornId 50 50; entry soyId 49 49].

(** A mix with an ingredient that costs nothing. *)
Definition cornWater : list IngredientInput :=
  [entry cornId 60 60; entry waterId 40 40].

(** A mix of an ingredient that costs nothing. *)
Definition waterOnly : list IngredientInput := [entry waterId 100 100].

(** A payload for updateFormulation that carries a declared total cost and
    a mix. *)
Definition costedMix (totalCost : Z) (mix : list IngredientInput) : Payload :=
  mkPayload None None None None None None None None (Some (Js.ofZ totalCost))
    None None None None None None (Some mix).

(** A mix that names an ingredient the table does not have. *)
Definition cornUnknown : list IngredientInput :=
  [entry cornId 60 60; entry unknownId 40 40].

(** The database after scenario A: formulation 100 in draft. *)
Definition db1 : DB := snd (createFormulation 100%N (payload 100 cornSoy) db0).

(** The same with the formulation activated. *)
Definition db2 : DB := snd (toggleFormulationStatus (Uuid 100%N) true db1).

End Sample.

(** ** Vocabulary of the specification *)

(** The error kinds of the specification, as the results that carry them. *)
Definition InvalidIngredientMix (T : Type) (r : ActionResult T) (total : Js.number)
  : Prop :=
  success r = false
  /\ error r = Some "Invalid ingredient percentages"
  /\ message r = Some (sumMessage total).

Definition NotFound (T : Type) (r : ActionResult T) : Prop :=
  success r = false /\ error r = Some "Formulation not found".

Definition InvalidState (T : Type) (r : ActionResult T) : Prop :=
  success r = false
  /\ (error r = Some "Cannot edit active formulation"
      \/ error r = Some "Cannot delete active formulation").

Definition ValidationFailed (T : Type) (r : ActionResult T) : Prop :=
  success r = false /\ error r = Some "Validation failed".

(** An entry whose percentage is a number between 0 and 100. *)
Definition validPercentage (e : IngredientEntry) : Prop :=
  exists q, e_percentage e = Js.Num q /\ (0 <= q <= 100)%Q.

(** [a] may come before [b] in a list sorted by percentage descending. *)
Definition descending (a b : IngredientEntry) : Prop :=
  Js.ge (e_percentage a) (e_percentage b) = true.

(** The entries of percentage [p]. *)
Definition ofPercentage (p : Js.number) (e : IngredientEntry) : bool :=
  Js.sameb (e_percentage e) p.

(** The summary builder in the words of the specification: [sorted] is the
    supplied list stably sorted by percentage descending. It has the same
    entries, no entry is followed by one of a larger percentage, and the
    entries of any one percentage come in their input order. *)
Definition StableSortByPercentageDesc (input sorted : list IngredientEntry) : Prop :=
  Permutation input sorted
  /\ StronglySorted descending sorted
  /\ forall p : Js.number,
       filter (ofPercentage p) sorted = filter (ofPercentage p) input.

(** The projection to [{ingredientId, percentage}] of the first five. *)
Definition topFiveProjection (sorted : list IngredientEntry) : list MainIngredient :=
  map (fun e => mkMainIngredient (e_ingredientId e) (e_percentage e))
    (firstn 5 sorted).

(** The annotation the reader adds to a row: name, category, unit cost and
    unit of the ingredient the row references. *)
Definition annotatedFrom (db : DB) (v : IngredientView) : Prop :=
  let ingredient := selectIngredient (fi_ingredientId (iv_row v)) db in
  iv_ingredientName v = option_map ig_name ingredient
  /\ iv_ingredientCategory v = bindOpt ingredient ig_category
  /\ iv_ingredientCostPerUnit v = option_map ig_costPerUnit ingredient
  /\ iv_ingredientUnit v = option_map ig_unit ingredient.

(** The row [r] is the row of the entry [e], and its cost contribution is
    the unit cost of the ingredient [e] references, as stored in [db],
    times the quantity of [e]. *)
Definition costedRow (db : DB) (e : IngredientEntry) (r : FormulationIngredient)
  : Prop :=
  fi_ingredientId r = e_ingredientId e
  /\ fi_quantity r = e_quantity e
  /\ exists ingredient,
      selectIngredient (e_ingredientId e) db = Some ingredient
      /\ fi_ingredientCost r
         = Js.mul (ig_costPerUnit ingredient) (e_quantity e).

(** The number a column numeric(p, s) holds for the number handed to it: a
    multiple of 10^-s with at most p - s digits before the point, less than
    one unit of its last digit away from the number handed; NaN for NaN.
    The column rounds to the nearest multiple; the bound of one unit leaves
    room for the rounding of the arithmetic that produced the number handed,
    which the embedding does not represent. *)
Definition heldAs (p s : nat) (handed held : Js.number) : Prop :=
  match handed, held with
  | Js.Num q, Js.Num r =>
      (exists n : Z, r == inject_Z n / inject_Z (10 ^ Z.of_nat s))%Q
      /\ (Qabs (r - q) < 1 / inject_Z (10 ^ Z.of_nat s))%Q
      /\ (Qabs r < inject_Z (10 ^ Z.of_nat (p - s)))%Q
  | Js.NaN, Js.NaN => True
  | _, _ => False
  end.

Definition absentOrHeldAs (p s : nat) (handed held : option Js.number) : Prop :=
  match handed, held with
  | None, None => True
  | Some a, Some b => heldAs p s a b
  | _, _ => False
  end.

(** The row of formulation_ingredients the table holds for the row handed
    to the insert: the same references, role, flag and positions, and each
    decimal as its column holds it. *)
Definition storedRowOf (handed stored : FormulationIngredient) : Prop :=
  fi_formulationId stored = fi_formulationId handed
  /\ fi_ingredientId stored = fi_ingredientId handed
  /\ heldAs 12 4 (fi_quantity handed) (fi_quantity stored)
  /\ heldAs 5 2 (fi_percentage handed) (fi_percentage stored)
  /\ heldAs 8 6 (fi_proportion handed) (fi_proportion stored)
  /\ heldAs 10 2 (fi_ingredientCost handed) (fi_ingredientCost stored)
  /\ heldAs 5 2 (fi_costPercentage handed) (fi_costPercentage stored)
  /\ fi_ingredientRole stored = fi_ingredientRole handed
  /\ fi_isEssential stored = fi_isEssential handed
  /\ fi_sequenceOrder stored = fi_sequenceOrder handed
  /\ fi_displayOrder stored = fi_displayOrder handed.

(** The stored row [stored] carries the cost contribution of the handed
    row: the same references, and the quantity and the contribution as
    their columns hold them. *)
Definition storedCostOf (handed stored : FormulationIngredient) : Prop :=
  fi_formulationId stored = fi_formulationId handed
  /\ fi_ingredientId stored = fi_ingredientId handed
  /\ heldAs 12 4 (fi_quantity handed) (fi_quantity stored)
  /\ heldAs 10 2 (fi_ingredientCost handed) (fi_ingredientCost stored).

(** The stored row [r] is the row of the formulation [id] for the entry
    [e] supplied at position [i]. *)
Definition storedEntry (id : uuid) (i : Z) (e : IngredientEntry)
  (r : FormulationIngredient) : Prop :=
  fi_formulationId r = id
  /\ fi_ingredientId r = e_ingredientId e
  /\ heldAs 12 4 (e_quantity e) (fi_quantity r)
  /\ heldAs 5 2 (e_percentage e) (fi_percentage r)
  /\ fi_ingredientRole r = e_ingredientRole e
  /\ fi_isEssential r = e_isEssential e
  /\ fi_sequenceOrder r = i
  /\ fi_displayOrder r = i.

(** The values the columns of formulations hold for the values [v] of an
    insert or update: the decimals as their columns hold them, every other
    value as it is. *)
Definition dataHeldAs (v held : FormulationData) : Prop :=
  d_name held = d_name v
  /\ d_description held = d_description v
  /\ d_formulationType held = d_formulationType v
  /\ d_status held = d_status v
  /\ d_animalId held = d_animalId v
  /\ d_productionStageId held = d_productionStageId v
  /\ absentOrHeldAs 10 2 (d_formulationQuantity v) (d_formulationQuantity held)
  /\ d_optimizationObjective held = d_optimizationObjective v
  /\ absentOrHeldAs 12 2 (d_totalCost v) (d_totalCost held)
  /\ absentOrHeldAs 10 2 (d_costPerUnit v) (d_costPerUnit held)
  /\ d_nutritionalAnalysis held = d_nutritionalAnalysis v
  /\ d_meetsRequirements held = d_meetsRequirements v
  /\ d_ingredientCount held = d_ingredientCount v
  /\ d_mainIngredients held = d_mainIngredients v
  /\ d_createdBy held = d_createdBy v.


(** The formulation [u] and its ingredient rows are in [db'] what they are
    in [db]. *)
Definition unchanged (u : uuid) (db db' : DB) : Prop :=
  selectFormulation u db' = selectFormulation u db
  /\ ingredientsOf u db' = ingredientsOf u db.

(** The calls that write the formulation tables or read them for a caller.
    The actions of the other modules write other tables only, and the
    foreign keys from formulations to those tables are declared
    [onDelete: "restrict"]. *)
Inductive Action : Type :=
| Read (id : idArg)
| Create (newId : uuid) (data : Payload)
| Update (id : idArg) (data : Payload)
| Delete (id : idArg)
| ToggleStatus (id : idArg) (activate : bool)
| Duplicate (newId : uuid) (id : idArg) (newName : string).

(** The database after a call. *)
Definition run (a : Action) (db : DB) : DB :=
  match a with
  | Read id => snd (getFormulationById id db)
  | Create newId data => snd (createFormulation newId data db)
  | Update id data => snd (updateFormulation id data db)
  | Delete id => snd (deleteFormulation id db)
  | ToggleStatus id activate => snd (toggleFormulationStatus id activate db)
  | Duplicate newId id newName => snd (duplicateFormulation newId id newName db)
  end.




(** ** Further vocabulary *)

(** The supplied element [r] and the parsed entry [e] say the same. *)
Definition suppliedAs (r : IngredientInput) (e : IngredientEntry) : Prop :=
  r_ingredientId r = Uuid (e_ingredientId e)
  /\ e_quantity e = r_quantity r
  /\ e_percentage e = r_percentage r
  /\ e_ingredientRole e = r_ingredientRole r
  /\ e_isEssential e = orElse (r_isEssential r) false.

(** Every entry of the mix references a row of ingredients. *)
Definition ingredientsExist (l : list IngredientEntry) (db : DB) : bool :=
  forallb (fun e => isSome (selectIngredient (e_ingredientId e) db)) l.

(** The constraints the tables declare, as a property of the database: the
    primary key of formulations, its foreign keys to animals and
    production_stages, and the foreign keys of formulation_ingredients to
    formulations and ingredients. *)
Definition wellFormed (db : DB) : Prop :=
  NoDup (map f_id (formulations db))
  /\ Forall (fun f =>
               isSome (selectAnimal (f_animalId f) db) = true
               /\ isSome (selectProductionStage (f_productionStageId f) db) = true)
       (formulations db)
  /\ Forall (fun r =>
               isSome (selectFormulation (fi_formulationId r) db) = true
               /\ isSome (selectIngredient (fi_ingredientId r) db) = true)
       (formulationIngredients db).

(** A computation that keeps these constraints when it returns. *)
Definition keepsWellFormed (A : Type) (m : Tx A) : Prop :=
  forall db a db', wellFormed db -> m db = inr (a, db') -> wellFormed db'.

(** The payload [{}]. *)
Definition emptyPayload : Payload :=
  mkPayload None None None None None None None None None None None None None
    None None None.

(** ** Pagination (lib/actions/common) and the list of formulation types *)

Module Math.
(** [Math.ceil(a)] *)
Definition ceil (a : Js.number) : Js.number :=
  match a with
  | Js.Num q => Js.ofZ (Qceiling q)
  | _ => a
  end.
End Math.

(** The [pagination] argument of the list actions: an absent key is [None]. *)
Record PageRequest : Type := mkPageRequest {
  q_page : option Js.number;
  q_limit : option Js.number
}.

Record Pagination : Type := mkPagination {
  pg_page : Js.number;
  pg_limit : Js.number;
  pg_total : Js.number;
  pg_totalPages : Js.number;
  pg_hasNext : bool;
  pg_hasPrev : bool
}.

(** [paginationSchema.parse(pagination)] for keys that hold numbers:
    [z.coerce.number()] leaves a number as it is and refuses NaN, and an
    absent key takes its default. *)
Definition paginationSchema_parse (pagination : PageRequest)
  : exn + (Js.number * Js.number) :=
  let page := orElse (q_page pagination) (Js.ofZ 1) in
  let limit := orElse (q_limit pagination) (Js.ofZ 20) in
  if Zod.atLeast 1 page && Zod.between 1 100 limit then inr (page, limit)
  else inl ZodError.

(** [calculatePagination(page, limit, total)]; [page < totalPages] is
    [totalPages > page]. *)
Definition calculatePagination (page limit total : Js.number) : Pagination :=
  let totalPages := Math.ceil (Js.div total limit) in
  mkPagination page limit total totalPages
    (Js.gt totalPages page) (Js.gt page (Js.ofZ 1)).

(** [(page - 1) * limit], the offset of getFormulations and getNutrients. *)
Definition offsetOf (page limit : Js.number) : Js.number :=
  Js.mul (Js.sub page (Js.ofZ 1)) limit.

(** A parameter of LIMIT or OFFSET: the database takes an integer that is
    not negative and refuses every other number. *)
Definition rowCount (a : Js.number) : option nat :=
  if Js.isInteger a && Js.ge a Js.zero then option_map Z.to_nat (integerOf a)
  else None.

(** [.limit(limit).offset(offset)] on a select that gives [rows]. *)
Definition limitOffset (A : Type) (limit offset : Js.number) (rows : list A)
  : exn + list A :=
  match rowCount limit, rowCount offset with
  | Some l, Some o => inr (firstn l (skipn o rows))
  | _, _ => inl (PgError "22P02")
  end.

(** [order by asc(column)] on a text column, as a stable insertion; the
    collation is taken to compare strings character by character. *)
Fixpoint insertText (x : string) (l : list string) : list string :=
  match l with
  | [] => [x]
  | y :: l' => if String.ltb y x then y :: insertText x l' else x :: l
  end.

Definition orderByText (l : list string) : list string :=
  fold_right insertText [] l.

(** getFormulationTypes: [selectDistinct] of the column, ordered, and the
    empty strings dropped by [filter(Boolean)]. *)
Definition getFormulationTypes (db : DB) : ActionResult (list string) * DB :=
  let types :=
    orderByText (nodup string_dec (map f_formulationType (formulations db))) in
  let result := filter (fun t => negb (String.eqb t "")) types in
  (createSuccessResponse (Some result) None, db).

(** ** Nutrients (db/schema/nutrients and the nutrient actions) *)

Record Nutrient : Type := mkNutrient {
  n_id : uuid;
  n_name : string;
  n_displayName : string;
  n_description : option string;
  n_category : string;
  n_subcategory : option string;
  n_unit : string;
  n_unitType : string;
  n_decimalPlaces : Z;
  n_isAnalyzable : bool;
  n_analysisMethod : option string;
  n_isRequired : bool;
  n_displayOrder : Z;
  n_isVisible : bool;
  n_highlightInReports : bool;
  n_minimumValue : option Js.number;
  n_maximumValue : option Js.number;
  n_parentNutrientId : option uuid;
  n_standardReference : option string
}.

(** The rows of ingredient_nutrients and of animal_requirements, by their
    key and the columns that reference nutrients: the nutrient actions
    reach these tables through the foreign keys only. *)
Record IngredientNutrient : Type := mkIngredientNutrient {
  in_id : uuid;
  in_ingredientId : uuid;
  in_nutrientId : uuid
}.

Record AnimalRequirement : Type := mkAnimalRequirement {
  ar_id : uuid;
  ar_nutrientId : uuid;
  ar_referenceNutrientId : option uuid
}.

Record NutrientDB : Type := mkNutrientDB {
  nutrients : list Nutrient;
  ingredientNutrients : list IngredientNutrient;
  animalRequirements : list AnimalRequirement
}.

(** The [data] object of createNutrient and updateNutrient: an absent key
    is [None]. *)
Record NutrientPayload : Type := mkNutrientPayload {
  np_name : option string;
  np_displayName : option string;
  np_description : option string;
  np_category : option string;
  np_subcategory : option string;
  np_unit : option string;
  np_unitType : option string;
  np_decimalPlaces : option Js.number;
  np_isAnalyzable : option bool;
  np_analysisMethod : option string;
  np_isRequired : option bool;
  np_displayOrder : option Js.number;
  np_isVisible : option bool;
  np_highlightInReports : option bool;
  np_minimumValue : option Js.number;
  np_maximumValue : option Js.number;
  np_parentNutrientId : option idArg;
  np_standardReference : option string
}.

(** The parsed object; also the shape of the argument of [.values()] and
    [.set()] on nutrients. *)
Record NutrientData : Type := mkNutrientData {
  nd_name : option string;
  nd_displayName : option string;
  nd_description : option string;
  nd_category : option string;
  nd_subcategory : option string;
  nd_unit : option string;
  nd_unitType : option string;
  nd_decimalPlaces : option Z;
  nd_isAnalyzable : option bool;
  nd_analysisMethod : option string;
  nd_isRequired : option bool;
  nd_displayOrder : option Z;
  nd_isVisible : option bool;
  nd_highlightInReports : option bool;
  nd_minimumValue : option Js.number;
  nd_maximumValue : option Js.number;
  nd_parentNutrientId : option uuid;
  nd_standardReference : option string
}.

Inductive NutrientSchema : Type :=
| insertNutrientSchema
| insertNutrientSchema_partial.

Definition isPartialNutrient (s : NutrientSchema) : bool :=
  match s with
  | insertNutrientSchema => false
  | insertNutrientSchema_partial => true
  end.

Definition NUTRIENT_UNIT_TYPES : list string :=
  ["percentage"; "energy"; "weight"; "ratio"].

(** [z.number()]: every number but NaN. *)
Definition zodNumber (a : Js.number) : bool :=
  match a with
  | Js.NaN => false
  | _ => true
  end.

(** [z.number().int().min(lo).max(hi)] *)
Definition zodIntBetween (lo hi : Z) (a : Js.number) : bool :=
  Js.isInteger a && Zod.between lo hi a.

(** The issues of a payload against insertNutrientSchema: the keys without
    [.optional()] or [.default()] are required, unless the schema is the
    partial one. *)
Definition nutrientIssues (s : NutrientSchema) (p : NutrientPayload)
  : list string :=
  let req := negb (isPartialNutrient s) in
  Zod.key "name" req (Zod.stringBetween 1 100) (np_name p)
    ++ Zod.key "displayName" req (Zod.stringBetween 1 255) (np_displayName p)
    ++ Zod.key "description" false Zod.anyString (np_description p)
    ++ Zod.key "category" req (Zod.stringBetween 1 50) (np_category p)
    ++ Zod.key "subcategory" false (Zod.stringBetween 0 50) (np_subcategory p)
    ++ Zod.key "unit" req (Zod.stringBetween 1 20) (np_unit p)
    ++ Zod.key "unitType" req (Zod.enum NUTRIENT_UNIT_TYPES) (np_unitType p)
    ++ Zod.key "decimalPlaces" false (zodIntBetween 0 6) (np_decimalPlaces p)
    ++ Zod.key "isAnalyzable" false (@Zod.anything bool) (np_isAnalyzable p)
    ++ Zod.key "analysisMethod" false (Zod.stringBetween 0 255)
         (np_analysisMethod p)
    ++ Zod.key "isRequired" false (@Zod.anything bool) (np_isRequired p)
    ++ Zod.key "displayOrder" false Js.isInteger (np_displayOrder p)
    ++ Zod.key "isVisible" false (@Zod.anything bool) (np_isVisible p)
    ++ Zod.key "highlightInReports" false (@Zod.anything bool)
         (np_highlightInReports p)
    ++ Zod.key "minimumValue" false zodNumber (np_minimumValue p)
    ++ Zod.key "maximumValue" false zodNumber (np_maximumValue p)
    ++ Zod.key "parentNutrientId" false Zod.isUuid (np_parentNutrientId p)
    ++ Zod.key "standardReference" false (Zod.stringBetween 0 100)
         (np_standardReference p).

(** A key with [.default(d)]: the partial schema does not apply the default
    to an absent key. *)
Definition withDefault (A : Type) (s : NutrientSchema) (v : option A) (d : A)
  : option A :=
  match v with
  | Some x => Some x
  | None => if isPartialNutrient s then None else Some d
  end.

(** The parsed object of a payload without issues. *)
Definition parseNutrient (s : NutrientSchema) (p : NutrientPayload)
  : NutrientData :=
  {| nd_name := np_name p;
     nd_displayName := np_displayName p;
     nd_description := np_description p;
     nd_category := np_category p;
     nd_subcategory := np_subcategory p;
     nd_unit := np_unit p;
     nd_unitType := np_unitType p;
     nd_decimalPlaces := withDefault s (bindOpt (np_decimalPlaces p) integerOf) 2%Z;
     nd_isAnalyzable := withDefault s (np_isAnalyzable p) true;
     nd_analysisMethod := np_analysisMethod p;
     nd_isRequired := withDefault s (np_isRequired p) false;
     nd_displayOrder := withDefault s (bindOpt (np_displayOrder p) integerOf) 0%Z;
     nd_isVisible := withDefault s (np_isVisible p) true;
     nd_highlightInReports := withDefault s (np_highlightInReports p) false;
     nd_minimumValue := np_minimumValue p;
     nd_maximumValue := np_maximumValue p;
     nd_parentNutrientId := bindOpt (np_parentNutrientId p) uuidOf;
     nd_standardReference := np_standardReference p |}.

(** [validateInput(schema, data)] on the nutrient schemas. *)
Definition validateNutrient (s : NutrientSchema) (p : NutrientPayload)
  : list string + NutrientData :=
  match nutrientIssues s p with
  | [] => inr (parseNutrient s p)
  | errors => inl errors
  end.

Definition withNutrients (db : NutrientDB) (l : list Nutrient) : NutrientDB :=
  mkNutrientDB l (ingredientNutrients db) (animalRequirements db).

(** [select ... from nutrients where id = ... limit 1] *)
Definition selectNutrient (id : uuid) (db : NutrientDB) : option Nutrient :=
  find (fun n => N.eqb (n_id n) id) (nutrients db).

(** [select ... from nutrients where name = ... limit 1] *)
Definition selectNutrientNamed (name : string) (db : NutrientDB)
  : option Nutrient :=
  find (fun n => String.eqb (n_name n) name) (nutrients db).

(** [select ... from nutrients where name = ... and id != ... limit 1] *)
Definition selectOtherNutrientNamed (name : string) (id : uuid)
  (db : NutrientDB) : option Nutrient :=
  find (fun n => String.eqb (n_name n) name && negb (N.eqb (n_id n) id))
    (nutrients db).

(** The row an insert builds from its values: the NOT NULL columns without
    default must be there, the others take the default of their column. *)
Definition nutrientOfValues (newId : uuid) (v : NutrientData) : option Nutrient :=
  bindOpt (nd_name v) (fun name =>
  bindOpt (nd_displayName v) (fun displayName =>
  bindOpt (nd_category v) (fun category =>
  bindOpt (nd_unit v) (fun unit_ =>
  bindOpt (nd_unitType v) (fun unitType =>
    Some (mkNutrient newId name displayName (nd_description v) category
            (nd_subcategory v) unit_ unitType
            (orElse (nd_decimalPlaces v) 2%Z)
            (orElse (nd_isAnalyzable v) true)
            (nd_analysisMethod v)
            (orElse (nd_isRequired v) false)
            (orElse (nd_displayOrder v) 0%Z)
            (orElse (nd_isVisible v) true)
            (orElse (nd_highlightInReports v) false)
            (nd_minimumValue v) (nd_maximumValue v)
            (nd_parentNutrientId v) (nd_standardReference v))))))).

(** A parent_nutrient_id must point to a row of the table. *)
Definition parentExists (parent : option uuid) (l : list Nutrient) : bool :=
  match parent with
  | Some u => existsb (fun n => N.eqb (n_id n) u) l
  | None => true
  end.

(** [insert(nutrients).values(v).returning()]; [newId] is the uuid the
    database draws for the row. The primary key and the name are unique. *)
Definition insertNutrient (newId : uuid) (v : NutrientData) (db : NutrientDB)
  : exn + (Nutrient * NutrientDB) :=
  match nutrientOfValues newId v with
  | None => inl (PgError "23502")
  | Some row =>
      if isSome (selectNutrient newId db)
         || isSome (selectNutrientNamed (n_name row) db)
      then inl (PgError "23505")
      else if parentExists (n_parentNutrientId row) (nutrients db ++ [row])
      then inr (row, withNutrients db (nutrients db ++ [row]))
      else inl (PgError "23503")
  end.

Definition orKeep (A : Type) (v : option A) (old : option A) : option A :=
  match v with
  | Some x => Some x
  | None => old
  end.

(** The row after [set(v)]: the keys present in [v] replace the columns. *)
Definition applyNutrientSet (v : NutrientData) (n : Nutrient) : Nutrient :=
  {| n_id := n_id n;
     n_name := orElse (nd_name v) (n_name n);
     n_displayName := orElse (nd_displayName v) (n_displayName n);
     n_description := orKeep (nd_description v) (n_description n);
     n_category := orElse (nd_category v) (n_category n);
     n_subcategory := orKeep (nd_subcategory v) (n_subcategory n);
     n_unit := orElse (nd_unit v) (n_unit n);
     n_unitType := orElse (nd_unitType v) (n_unitType n);
     n_decimalPlaces := orElse (nd_decimalPlaces v) (n_decimalPlaces n);
     n_isAnalyzable := orElse (nd_isAnalyzable v) (n_isAnalyzable n);
     n_analysisMethod := orKeep (nd_analysisMethod v) (n_analysisMethod n);
     n_isRequired := orElse (nd_isRequired v) (n_isRequired n);
     n_displayOrder := orElse (nd_displayOrder v) (n_displayOrder n);
     n_isVisible := orElse (nd_isVisible v) (n_isVisible n);
     n_highlightInReports :=
       orElse (nd_highlightInReports v) (n_highlightInReports n);
     n_minimumValue := orKeep (nd_minimumValue v) (n_minimumValue n);
     n_maximumValue := orKeep (nd_maximumValue v) (n_maximumValue n);
     n_parentNutrientId := orKeep (nd_parentNutrientId v) (n_parentNutrientId n);
     n_standardReference :=
       orKeep (nd_standardReference v) (n_standardReference n) |}.

(** [update(nutrients).set(v).where(eq(nutrients.id, id)).returning()]: the
    name written must not be the name of another row, and the parent
    written must exist. *)
Definition updateNutrients (v : NutrientData) (id : uuid) (db : NutrientDB)
  : exn + (list Nutrient * NutrientDB) :=
  let hit n := N.eqb (n_id n) id in
  let rows := map (fun n => if hit n then applyNutrientSet v n else n)
                (nutrients db) in
  if negb (existsb hit (nutrients db)) then inr ([], db)
  else if match nd_name v with
          | Some name => isSome (selectOtherNutrientNamed name id db)
          | None => false
          end
  then inl (PgError "23505")
  else if parentExists (nd_parentNutrientId v) (nutrients db)
  then inr (filter hit rows, withNutrients db rows)
  else inl (PgError "23503").

(** [delete(nutrients).where(eq(nutrients.id, id))]. The rows of
    ingredient_nutrients and animal_requirements whose nutrient_id is the
    nutrient go with it (on delete cascade); the statement is refused when
    a row that stays still references the nutrient, as the parent of
    another nutrient or as the reference nutrient of a requirement (these
    two foreign keys are declared without an action). *)
Definition deleteNutrients (id : uuid) (db : NutrientDB)
  : exn + (unit * NutrientDB) :=
  let keptNutrients :=
    filter (fun n => negb (N.eqb (n_id n) id)) (nutrients db) in
  let keptValues :=
    filter (fun r => negb (N.eqb (in_nutrientId r) id)) (ingredientNutrients db) in
  let keptRequirements :=
    filter (fun r => negb (N.eqb (ar_nutrientId r) id)) (animalRequirements db) in
  let references (parent : option uuid) :=
    match parent with
    | Some u => N.eqb u id
    | None => false
    end in
  if isSome (selectNutrient id db)
     && (existsb (fun n => references (n_parentNutrientId n)) keptNutrients
         || existsb (fun r => references (ar_referenceNutrientId r))
              keptRequirements)
  then inl (PgError "23503")
  else inr (tt, mkNutrientDB keptNutrients keptValues keptRequirements).

(** getVisibleNutrients *)
Definition getVisibleNutrients (db : NutrientDB)
  : ActionResult (list Nutrient) * NutrientDB :=
  (createSuccessResponse
     (Some (orderByAsc n_displayOrder (filter n_isVisible (nutrients db))))
     None, db).

(** getNutrientsByCategory *)
Definition getNutrientsByCategory (category : string) (db : NutrientDB)
  : ActionResult (list Nutrient) * NutrientDB :=
  (createSuccessResponse
     (Some (orderByAsc n_displayOrder
              (filter (fun n => String.eqb (n_category n) category
                                && n_isVisible n) (nutrients db))))
     None, db).

(** getEssentialNutrients *)
Definition getEssentialNutrients (db : NutrientDB)
  : ActionResult (list Nutrient) * NutrientDB :=
  (createSuccessResponse
     (Some (orderByAsc n_displayOrder
              (filter (fun n => n_isRequired n && n_isVisible n) (nutrients db))))
     None, db).

(** getNutrientById *)
Definition getNutrientById (id : idArg) (db : NutrientDB)
  : ActionResult Nutrient * NutrientDB :=
  match idSchema_parse id with
  | inl e => (handleDatabaseError e, db)
  | inr validatedId =>
      match selectNutrient validatedId db with
      | None => (createErrorResponse "Nutrient not found" None, db)
      | Some nutrient => (createSuccessResponse (Some nutrient) None, db)
      end
  end.

(** createNutrient; [newId] is the uuid the database draws for the row.
    The schema requires [name], so that the second case of the duplicate
    check, a comparison with undefined, is never reached. *)
Definition createNutrient (newId : uuid) (data : NutrientPayload)
  (db : NutrientDB) : ActionResult Nutrient * NutrientDB :=
  match validateNutrient insertNutrientSchema data with
  | inl errors => (validationFailed errors, db)
  | inr validatedData =>
      match nd_name validatedData with
      | None => (handleDatabaseError (JsError "undefined parameter"), db)
      | Some name =>
          if isSome (selectNutrientNamed name db) then
            (createErrorResponse "Duplicate nutrient name"
               (Some "A nutrient with this name already exists"), db)
          else
            match insertNutrient newId validatedData db with
            | inl e => (handleDatabaseError e, db)
            | inr (newNutrient, db') =>
                (createSuccessResponse (Some newNutrient)
                   (Some "Nutrient created successfully"), db')
            end
      end
  end.

(** The duplicate check of updateNutrient, made when the payload carries a
    name that is not the empty string. Its condition is built with the
    [sql] tag, which the module of the nutrient actions does not import
    (the line is under a ts-ignore): evaluating the condition throws a
    ReferenceError before the query is sent. *)
Definition duplicateCheck (v : NutrientData) (validatedId : uuid)
  (db : NutrientDB) : exn + bool :=
  match nd_name v with
  | Some name =>
      if String.eqb name EmptyString then inr false
      else inl (JsError "sql is not defined")
  | None => inr false
  end.

(** updateNutrient *)
Definition updateNutrient (id : idArg) (data : NutrientPayload)
  (db : NutrientDB) : ActionResult Nutrient * NutrientDB :=
  match idSchema_parse id with
  | inl e => (handleDatabaseError e, db)
  | inr validatedId =>
      match validateNutrient insertNutrientSchema_partial data with
      | inl errors => (validationFailed errors, db)
      | inr validatedData =>
          match selectNutrient validatedId db with
          | None => (createErrorResponse "Nutrient not found" None, db)
          | Some _ =>
              match duplicateCheck validatedData validatedId db with
              | inl e => (handleDatabaseError e, db)
              | inr true =>
                  (createErrorResponse "Duplicate nutrient name"
                     (Some "A nutrient with this name already exists"), db)
              | inr false =>
                  match updateNutrients validatedData validatedId db with
                  | inl e => (handleDatabaseError e, db)
                  | inr (rows, db') =>
                      (createSuccessResponse (hd_error rows)
                         (Some "Nutrient updated successfully"), db')
                  end
              end
          end
      end
  end.

(** The catch block of deleteNutrient. *)
Definition deleteNutrientError (e : exn) : ActionResult unit :=
  if codeIs e "23503" then
    createErrorResponse "Cannot delete nutrient"
      (Some "This nutrient is being used by ingredients or animal requirements. Remove those references first.")
  else handleDatabaseError e.

(** deleteNutrient *)
Definition deleteNutrient (id : idArg) (db : NutrientDB)
  : ActionResult unit * NutrientDB :=
  match idSchema_parse id with
  | inl e => (deleteNutrientError e, db)
  | inr validatedId =>
      match selectNutrient validatedId db with
      | None => (createErrorResponse "Nutrient not found" None, db)
      | Some nutrientInfo =>
          match deleteNutrients validatedId db with
          | inl e => (deleteNutrientError e, db)
          | inr (_, db') =>
              (createSuccessResponse None
                 (Some ("Nutrient " ++ quote ++ n_name nutrientInfo ++ quote
                          ++ " deleted successfully")), db')
          end
      end
  end.

(** getNutrientCategories *)
Definition getNutrientCategories (db : NutrientDB)
  : ActionResult (list string) * NutrientDB :=
  let categories :=
    orderByText
      (nodup string_dec (map n_category (filter n_isVisible (nutrients db)))) in
  (createSuccessResponse
     (Some (filter (fun c => negb (String.eqb c "")) categories)) None, db).

(** [order by asc(category), asc(displayOrder)], as a stable insertion. *)
Definition sortsBefore (y x : Nutrient) : bool :=
  match String.compare (n_category y) (n_category x) with
  | Lt => true
  | Eq => (n_displayOrder y <? n_displayOrder x)%Z
  | Gt => false
  end.

Fixpoint insertByCategory (x : Nutrient) (l : list Nutrient) : list Nutrient :=
  match l with
  | [] => [x]
  | y :: l' => if sortsBefore y x then y :: insertByCategory x l' else x :: l
  end.

Definition orderByCategory (l : list Nutrient) : list Nutrient :=
  fold_right insertByCategory [] l.

(** The property names every object inherits from Object.prototype: on an
    object that has no such property of its own, reading one of them gives
    a function (the prototype itself for __proto__), not undefined. *)
Definition objectPrototypeKeys : list string :=
  ["constructor"; "__defineGetter__"; "__defineSetter__"; "hasOwnProperty";
   "__lookupGetter__"; "__lookupSetter__"; "isPrototypeOf";
   "propertyIsEnumerable"; "toString"; "valueOf"; "__proto__";
   "toLocaleString"].

Definition inherits (key : string) : bool :=
  existsb (String.eqb key) objectPrototypeKeys.

(** An object as the list of its own properties; the order in which the
    language enumerates them is not represented. *)
Definition ownProperty (A : Type) (key : string) (obj : list (string * A))
  : option A :=
  option_map snd (find (fun kv => String.eqb (fst kv) key) obj).

(** One step of the reduce of getKeyNutrientsByCategory. [acc[category]] is
    the array of the own property, truthy even when empty, or what the
    object inherits under that name, truthy as well but without [push]:
    the call then throws a TypeError. *)
Definition groupStep (acc : list (string * list Nutrient)) (nutrient : Nutrient)
  : exn + list (string * list Nutrient) :=
  let category := n_category nutrient in
  match ownProperty category acc with
  | Some _ =>
      inr (map (fun kv => if String.eqb (fst kv) category
                          then (fst kv, (snd kv ++ [nutrient])%list) else kv) acc)
  | None =>
      if inherits category
      then inl (JsError "acc[nutrient.category].push is not a function")
      else inr (acc ++ [(category, [nutrient])])%list
  end.

(** [allNutrients.reduce(step, acc)] *)
Fixpoint reduceGroups (acc : list (string * list Nutrient))
  (allNutrients : list Nutrient) : exn + list (string * list Nutrient) :=
  match allNutrients with
  | [] => inr acc
  | nutrient :: rest =>
      match groupStep acc nutrient with
      | inl e => inl e
      | inr acc' => reduceGroups acc' rest
      end
  end.

(** getKeyNutrientsByCategory *)
Definition getKeyNutrientsByCategory (db : NutrientDB)
  : ActionResult (list (string * list Nutrient)) * NutrientDB :=
  let allNutrients := orderByCategory (filter n_isVisible (nutrients db)) in
  match reduceGroups [] allNutrients with
  | inl e => (handleDatabaseError e, db)
  | inr groupedNutrients =>
      (createSuccessResponse (Some groupedNutrients) None, db)
  end.

(** The constraints the tables of the nutrient actions declare: primary
    key and unique name of nutrients, and the foreign keys to nutrients. *)
Definition nutrientExists (id : uuid) (db : NutrientDB) : Prop :=
  isSome (selectNutrient id db) = true.

Definition wellFormedNutrients (db : NutrientDB) : Prop :=
  NoDup (map n_id (nutrients db))
  /\ NoDup (map n_name (nutrients db))
  /\ Forall (fun n => forall u, n_parentNutrientId n = Some u -> nutrientExists u db)
       (nutrients db)
  /\ Forall (fun r => nutrientExists (in_nutrientId r) db) (ingredientNutrients db)
  /\ Forall (fun r => nutrientExists (ar_nutrientId r) db
                      /\ forall u, ar_referenceNutrientId r = Some u ->
                                   nutrientExists u db)
       (animalRequirements db).

(** A nutrient is in use when a row that a delete would leave references
    it: another nutrient as its parent, or a requirement of another
    nutrient as its reference nutrient. *)
Definition inUse (id : uuid) (db : NutrientDB) : Prop :=
  (exists n, In n (nutrients db) /\ n_id n <> id
             /\ n_parentNutrientId n = Some id)
  \/ (exists r, In r (animalRequirements db) /\ ar_nutrientId r <> id
                /\ ar_referenceNutrientId r = Some id).

Inductive NutrientAction : Type :=
| CreateNutrient (newId : uuid) (data : NutrientPayload)
| UpdateNutrient (id : idArg) (data : NutrientPayload)
| DeleteNutrient (id : idArg).

Definition runNutrient (a : NutrientAction) (db : NutrientDB) : NutrientDB :=
  match a with
  | CreateNutrient newId data => snd (createNutrient newId data db)
  | UpdateNutrient id data => snd (updateNutrient id data db)
  | DeleteNutrient id => snd (deleteNutrient id db)
  end.

(** ** Sample nutrient data *)

Module NutrientSample.

Definition energyId : uuid := 20%N.
Definition proteinId : uuid := 21%N.
Definition lysineId : uuid := 22%N.
Definition calciumId : uuid := 23%N.

Definition energy : Nutrient :=
  mkNutrient energyId "metabolizable_energy" "Metabolizable Energy" None
    "Energy" None "MJ/kg" "energy" 2 true None true 1 true false None None
    None None.

Definition protein : Nutrient :=
  mkNutrient proteinId "crude_protein" "Crude Protein" None
    "Protein" None "%" "percentage" 2 true None true 2 true false None None
    None None.

(** Lysine is a child of crude protein. *)
Definition lysine : Nutrient :=
  mkNutrient lysineId "lysine" "Lysine" None
    "Protein" (Some "Amino Acid") "%" "percentage" 2 true None false 3 true
    false None None (Some proteinId) None.

(** Corn has an energy value; one requirement is on lysine, as a ratio to
    crude protein. *)
Definition db0 : NutrientDB :=
  mkNutrientDB [energy; protein; lysine]
    [mkIngredientNutrient 30%N 10%N energyId]
    [mkAnimalRequirement 40%N lysineId (Some proteinId)].

(** A payload with the required keys only. *)
Definition payload (name category : string) : NutrientPayload :=
  mkNutrientPayload (Some name) (Some name) None (Some category) None
    (Some "%") (Some "percentage") None None None None None None None None
    None None None.

Definition emptyNutrientPayload : NutrientPayload :=
  mkNutrientPayload None None None None None None None None None None None
    None None None None None None None.

End NutrientSample.

(** * Properties *)


(** ** Numbers *)

Lemma gt_Num (x y : Q) : Js.gt (Js.Num x) (Js.Num y) = true <-> (y < x)%Q.
Proof.
  simpl. rewrite (Qgt_alt x y).
  destruct (x ?= y)%Q; split; congruence.
Qed.

Lemma ge_Num (x y : Q) : Js.ge (Js.Num x) (Js.Num y) = true <-> (y <= x)%Q.
Proof.
  simpl. rewrite (Qge_alt x y).
  destruct (x ?= y)%Q; split; congruence.
Qed.

Lemma sameb_Num (x y : Q) : Js.sameb (Js.Num x) (Js.Num y) = true <-> (x == y)%Q.
Proof. simpl. apply Qeq_bool_iff. Qed.

Lemma sameb_refl (a : Js.number) : Js.sameb a a = true.
Proof. destruct a; simpl; trivial. apply Qeq_bool_iff. reflexivity. Qed.

Lemma sameb_finite (a p : Js.number) (x : Q) :
  a = Js.Num x -> Js.sameb a p = true -> exists y, p = Js.Num y /\ (x == y)%Q.
Proof.
  intros -> H. destruct p; simpl in H; try discriminate.
  exists q. split; [reflexivity | now apply Qeq_bool_iff].
Qed.

(** The comparator of the summary orders two finite percentages by value. *)
Lemma sortsAfter_byPercentageDesc (a b : IngredientEntry) (x y : Q) :
  e_percentage a = Js.Num x -> e_percentage b = Js.Num y ->
  (Js.sortsAfter byPercentageDesc a b = true <-> (x < y)%Q).
Proof.
  intros Ha Hb. unfold Js.sortsAfter, byPercentageDesc.
  rewrite Ha, Hb. unfold Js.sub, Js.neg, Js.add, Js.fin, Js.zero, Js.ofZ.
  rewrite gt_Num, !Qred_correct. change (inject_Z 0) with 0%Q.
  split; intro H; lra.
Qed.


(** ** Schemas *)

Lemma between_finite (lo hi : Z) (a : Js.number) :
  Zod.between lo hi a = true ->
  exists q, a = Js.Num q /\ (inject_Z lo <= q <= inject_Z hi)%Q.
Proof.
  unfold Zod.between. intros H. apply andb_prop in H. destruct H as [H1 H2].
  destruct a as [q | | |]; try discriminate.
  exists q. split; [reflexivity |].
  unfold Js.ofZ in *. apply ge_Num in H1. apply ge_Num in H2. now split.
Qed.

Lemma parseEntries_valid (l : list IngredientInput) :
  forall (start : Z) (es : list IngredientEntry),
    List.concat (Js.mapFrom entryIssues start l) = [] ->
    parseEntries l = Some es ->
    Forall validPercentage es /\ List.length es = List.length l.
Proof.
  induction l as [| r l IH]; intros start es Hnil Hparse; simpl in *.
  - inversion Hparse. split; [constructor | reflexivity].
  - apply app_eq_nil in Hnil. destruct Hnil as [Hr Hl].
    destruct (parseEntry r) as [e |] eqn:He; [| discriminate].
    destruct (parseEntries l) as [es' |] eqn:Hes; [| discriminate].
    inversion Hparse; subst es. clear Hparse.
    destruct (IH _ _ Hl eq_refl) as [IHv IHn].
    split; [| simpl; congruence].
    constructor; [| exact IHv].
    unfold entryIssues in Hr.
    apply app_eq_nil in Hr. destruct Hr as [_ Hr].
    apply app_eq_nil in Hr. destruct Hr as [_ Hr].
    destruct (Zod.between 0 100 (r_percentage r)) eqn:Hb; [| discriminate].
    apply between_finite in Hb. destruct Hb as [q [Hq Hrange]].
    unfold parseEntry in He. destruct (r_ingredientId r); [| discriminate].
    inversion He; subst e. exists q. simpl. split; [exact Hq | exact Hrange].
Qed.

(** What a successful validation of a payload with a mix gives: the parsed
    metadata, and entries that are as many as supplied (at least one), each
    with a percentage between 0 and 100. *)
Lemma validateInput_mix (s : Schema) (p : Payload) (fd : FormulationData)
  (es : list IngredientEntry) :
  validateInput s p = inr (fd, Some es) ->
  fd = parseData s p
  /\ Forall validPercentage es
  /\ es <> []
  /\ exists l, p_ingredients p = Some l /\ parseEntries l = Some es.
Proof.
  unfold validateInput. intros H.
  destruct (schemaIssues s p) eqn:Hs; [| discriminate].
  destruct (p_ingredients p) as [l |] eqn:Hl; [| discriminate].
  destruct (parseEntries l) as [es' |] eqn:Hes; [| discriminate].
  inversion H; subst. clear H.
  unfold schemaIssues in Hs.
  repeat (apply app_eq_nil in Hs; destruct Hs as [_ Hs]).
  rewrite Hl in Hs. simpl in Hs.
  destruct l as [| r l]; [discriminate |].
  destruct (parseEntries_valid _ _ Hs Hes) as [Hv Hn].
  repeat split; trivial.
  - intros ->. discriminate.
  - exists (r :: l). split; [reflexivity | exact Hes].
Qed.

Lemma sum_finite (es : list IngredientEntry) :
  forall acc : Js.number,
    Forall validPercentage es -> Js.finite acc ->
    Js.finite (fold_left (fun sum ing => Js.add sum (e_percentage ing)) es acc).
Proof.
  induction es as [| e es IH]; intros acc H [q0 ->]; simpl.
  - now exists q0.
  - inversion H as [| ? ? [q [Hq _]] Hes]; subst.
    apply IH; [exact Hes |]. rewrite Hq. simpl. now eexists.
Qed.

Lemma totalPercentage_finite (es : list IngredientEntry) :
  Forall validPercentage es -> Js.finite (totalPercentage es).
Proof.
  intros H. apply sum_finite; [exact H |]. now eexists.
Qed.

(** A total within tolerance is within a tenth of 100. *)
Lemma within_tolerance (total : Js.number) :
  Js.finite total -> outOfTolerance total = false ->
  exists q, total = Js.Num q /\ (Qabs (q - 100) <= 1 # 10)%Q.
Proof.
  intros [q ->] H. exists q. split; [reflexivity |].
  unfold outOfTolerance, Js.sub, Js.neg, Js.add, Js.abs, Js.fin, Js.ofZ in H.
  apply not_true_iff_false in H. rewrite gt_Num in H.
  rewrite !Qred_correct in H.
  assert (Heq : (q + - inject_Z 100 == q - 100)%Q) by (unfold Qminus; reflexivity).
  rewrite Heq in H. apply Qnot_lt_le. exact H.
Qed.

Lemma out_of_tolerance (q : Q) :
  outOfTolerance (Js.Num q) = true <-> (1 # 10 < Qabs (q - 100))%Q.
Proof.
  unfold outOfTolerance, Js.sub, Js.neg, Js.add, Js.abs, Js.fin, Js.ofZ.
  rewrite gt_Num, !Qred_correct.
  assert (Heq : (q + - inject_Z 100 == q - 100)%Q) by (unfold Qminus; reflexivity).
  rewrite Heq. reflexivity.
Qed.

(** ** The sort of the summary *)

Section SortFacts.

Variable A : Type.
Variable comparefn : A -> A -> Js.number.

Lemma insert_perm (x : A) (l : list A) :
  Permutation (x :: l) (Js.insert comparefn x l).
Proof.
  induction l as [| y l IH]; simpl; [reflexivity |].
  destruct (Js.sortsAfter comparefn x y); [| reflexivity].
  rewrite perm_swap. now apply perm_skip.
Qed.

Lemma sort_perm (l : list A) : Permutation l (Js.sort comparefn l).
Proof.
  induction l as [| x l IH]; simpl; [constructor |].
  rewrite <- insert_perm. now apply perm_skip.
Qed.

Lemma sort_length (l : list A) : List.length (Js.sort comparefn l) = List.length l.
Proof. symmetry. apply Permutation_length, sort_perm. Qed.

End SortFacts.

Lemma insert_keeps_groups (p : Js.number) (x : IngredientEntry)
  (l : list IngredientEntry) :
  validPercentage x -> Forall validPercentage l ->
  filter (ofPercentage p) (Js.insert byPercentageDesc x l)
  = filter (ofPercentage p) (x :: l).
Proof.
  intros Hx. induction l as [| a l IH]; intros Hl; [reflexivity |].
  inversion Hl as [| ? ? Ha Hl']; subst.
  cbn [Js.insert].
  destruct (Js.sortsAfter byPercentageDesc x a) eqn:E; [| reflexivity].
  cbn [filter]. rewrite (IH Hl'). cbn [filter].
  destruct (ofPercentage p a) eqn:Ea, (ofPercentage p x) eqn:Ex; try reflexivity.
  exfalso.
  destruct Hx as [qx [Hqx _]]. destruct Ha as [qa [Hqa _]].
  apply (sortsAfter_byPercentageDesc _ _ Hqx Hqa) in E.
  destruct (sameb_finite _ Hqx Ex) as [y [-> Hy]].
  destruct (sameb_finite _ Hqa Ea) as [y' [Heq Hy']].
  inversion Heq; subst y'. lra.
Qed.

Lemma sort_keeps_groups (p : Js.number) (l : list IngredientEntry) :
  Forall validPercentage l ->
  filter (ofPercentage p) (Js.sort byPercentageDesc l) = filter (ofPercentage p) l.
Proof.
  induction l as [| x l IH]; intros Hl; [reflexivity |].
  inversion Hl as [| ? ? Hx Hl']; subst.
  cbn [Js.sort fold_right]. fold (Js.sort byPercentageDesc l).
  rewrite insert_keeps_groups.
  - cbn [filter]. now rewrite (IH Hl').
  - exact Hx.
  - eapply Permutation_Forall; [apply sort_perm | exact Hl'].
Qed.

Lemma insert_descending (x : IngredientEntry) (l : list IngredientEntry) :
  validPercentage x -> Forall validPercentage l ->
  StronglySorted descending l ->
  StronglySorted descending (Js.insert byPercentageDesc x l).
Proof.
  intros Hx. induction l as [| a l IH]; intros Hl Hs.
  - repeat constructor.
  - inversion Hl as [| ? ? Ha Hl']; subst.
    inversion Hs as [| ? ? Hs' Hal]; subst.
    destruct Hx as [qx [Hqx Hrx]]. destruct Ha as [qa [Hqa Hra]].
    cbn [Js.insert].
    destruct (Js.sortsAfter byPercentageDesc x a) eqn:E.
    + apply (sortsAfter_byPercentageDesc _ _ Hqx Hqa) in E.
      constructor.
      * apply IH; assumption.
      * eapply Permutation_Forall; [apply insert_perm |].
        constructor; [| exact Hal].
        unfold descending. rewrite Hqx, Hqa. apply ge_Num. lra.
    + assert (Hle : (qa <= qx)%Q).
      { apply Qnot_lt_le. intros Hlt.
        apply (sortsAfter_byPercentageDesc _ _ Hqx Hqa) in Hlt. congruence. }
      constructor; [exact Hs |].
      constructor.
      * unfold descending. rewrite Hqx, Hqa. apply ge_Num. exact Hle.
      * rewrite Forall_forall in Hal, Hl' |- *. intros b Hb.
        destruct (Hl' b Hb) as [qb [Hqb _]].
        specialize (Hal b Hb). unfold descending in *.
        rewrite Hqa, Hqb in Hal. apply ge_Num in Hal.
        rewrite Hqx, Hqb. apply ge_Num. lra.
Qed.

Lemma sort_descending (l : list IngredientEntry) :
  Forall validPercentage l ->
  StronglySorted descending (Js.sort byPercentageDesc l).
Proof.
  induction l as [| x l IH]; intros Hl; [constructor |].
  inversion Hl as [| ? ? Hx Hl']; subst.
  cbn [Js.sort fold_right]. fold (Js.sort byPercentageDesc l).
  apply insert_descending; [exact Hx | | now apply IH].
  eapply Permutation_Forall; [apply sort_perm | exact Hl'].
Qed.

(** The sort the actions call is the stable sort by percentage descending
    of the specification. *)
Lemma sort_is_stable_sort (l : list IngredientEntry) :
  Forall validPercentage l ->
  StableSortByPercentageDesc l (Js.sort byPercentageDesc l).
Proof.
  intros Hl. split; [apply sort_perm |].
  split; [exact (sort_descending Hl) |].
  intros p. exact (sort_keeps_groups p Hl).
Qed.

Lemma in_group (p : Js.number) (y : IngredientEntry) (l : list IngredientEntry) :
  In y (filter (ofPercentage p) l) -> In y l.
Proof. intros H. apply filter_In in H. now destruct H. Qed.

(** Two lists sorted by percentage descending in which the entries of each
    percentage come in the same order are the same list. *)
Lemma sorted_groups_unique (s1 : list IngredientEntry) :
  forall s2,
    Forall validPercentage s1 -> Forall validPercentage s2 ->
    StronglySorted descending s1 -> StronglySorted descending s2 ->
    (forall p, filter (ofPercentage p) s1 = filter (ofPercentage p) s2) ->
    s1 = s2.
Proof.
  induction s1 as [| x s1 IH]; intros [| y s2] Hv1 Hv2 Hs1 Hs2 Hgroups.
  - reflexivity.
  - specialize (Hgroups (e_percentage y)). simpl in Hgroups.
    unfold ofPercentage at 1 in Hgroups. rewrite sameb_refl in Hgroups.
    discriminate.
  - specialize (Hgroups (e_percentage x)). simpl in Hgroups.
    unfold ofPercentage at 1 in Hgroups. rewrite sameb_refl in Hgroups.
    discriminate.
  - inversion Hv1 as [| ? ? [qx [Hqx _]] Hv1']; subst.
    inversion Hv2 as [| ? ? [qy [Hqy _]] Hv2']; subst.
    inversion Hs1 as [| ? ? Hs1' Hx]; subst.
    inversion Hs2 as [| ? ? Hs2' Hy]; subst.
    assert (Hxy : x = y).
    { destruct (Q_dec qx qy) as [[Hlt | Hgt] | Heq].
      - exfalso. pose proof (Hgroups (e_percentage y)) as Hg. simpl in Hg.
        assert (Hyy : ofPercentage (e_percentage y) y = true)
          by apply sameb_refl.
        assert (Hxn : ofPercentage (e_percentage y) x = false).
        { unfold ofPercentage. rewrite Hqx, Hqy.
          apply not_true_iff_false. rewrite sameb_Num. lra. }
        rewrite Hyy, Hxn in Hg.
        assert (Hin : In y s1).
        { apply (in_group (e_percentage y)). rewrite Hg. now left. }
        rewrite Forall_forall in Hx. specialize (Hx y Hin).
        unfold descending in Hx. rewrite Hqx, Hqy in Hx.
        apply ge_Num in Hx. lra.
      - exfalso. pose proof (Hgroups (e_percentage x)) as Hg. simpl in Hg.
        assert (Hxx : ofPercentage (e_percentage x) x = true)
          by apply sameb_refl.
        assert (Hyn : ofPercentage (e_percentage x) y = false).
        { unfold ofPercentage. rewrite Hqx, Hqy.
          apply not_true_iff_false. rewrite sameb_Num. lra. }
        rewrite Hxx, Hyn in Hg.
        assert (Hin : In x s2).
        { apply (in_group (e_percentage x)). rewrite <- Hg. now left. }
        rewrite Forall_forall in Hy. specialize (Hy x Hin).
        unfold descending in Hy. rewrite Hqx, Hqy in Hy.
        apply ge_Num in Hy. lra.
      - pose proof (Hgroups (e_percentage x)) as Hg. simpl in Hg.
        assert (Hxx : ofPercentage (e_percentage x) x = true)
          by apply sameb_refl.
        assert (Hyx : ofPercentage (e_percentage x) y = true).
        { unfold ofPercentage. rewrite Hqx, Hqy. apply sameb_Num.
          now symmetry. }
        rewrite Hxx, Hyx in Hg. now inversion Hg. }
    subst y. f_equal. apply IH; trivial.
    intros p. specialize (Hgroups p). simpl in Hgroups.
    destruct (ofPercentage p x); [now inversion Hgroups | exact Hgroups].
Qed.

(** The wording of the specification determines the sorted list. *)
Lemma stable_sort_unique (input s1 s2 : list IngredientEntry) :
  Forall validPercentage input ->
  StableSortByPercentageDesc input s1 ->
  StableSortByPercentageDesc input s2 ->
  s1 = s2.
Proof.
  intros Hv [Hp1 [Hs1 Hg1]] [Hp2 [Hs2 Hg2]].
  apply sorted_groups_unique; trivial.
  - eapply Permutation_Forall; [exact Hp1 | exact Hv].
  - eapply Permutation_Forall; [exact Hp2 | exact Hv].
  - intros p. now rewrite Hg1, Hg2.
Qed.

(** The parsed mix has the entries of the supplied one, position by
    position. *)
Lemma parseEntries_nth (l : list IngredientInput) :
  forall (es : list IngredientEntry) (n : nat) (r : IngredientInput),
    parseEntries l = Some es ->
    nth_error l n = Some r ->
    exists e,
      nth_error es n = Some e
      /\ r_ingredientId r = Uuid (e_ingredientId e)
      /\ e_quantity e = r_quantity r
      /\ e_percentage e = r_percentage r
      /\ e_ingredientRole e = r_ingredientRole r.
Proof.
  induction l as [| r0 l IH]; intros es n r Hparse Hn.
  - destruct n; discriminate.
  - simpl in Hparse.
    destruct (parseEntry r0) as [e0 |] eqn:He0; [| discriminate].
    destruct (parseEntries l) as [es' |] eqn:Hes; [| discriminate].
    inversion Hparse; subst es. clear Hparse.
    destruct n as [| n]; simpl in Hn |- *.
    + inversion Hn; subst r0. exists e0. split; [reflexivity |].
      unfold parseEntry in He0.
      destruct (r_ingredientId r) as [v | s]; [| discriminate].
      inversion He0; subst e0. simpl. repeat split.
    + exact (IH _ _ _ eq_refl Hn).
Qed.

(** ** Statements *)

Lemma handleDatabaseError_fails (T : Type) (e : exn) :
  success (@handleDatabaseError T e) = false.
Proof.
  unfold handleDatabaseError.
  destruct (codeIs e "23505"), (codeIs e "23503"), (codeIs e "23502"); reflexivity.
Qed.

Lemma find_id_map (g : Formulation -> Formulation) (u : uuid)
  (l : list Formulation) :
  (forall f, f_id (g f) = f_id f) ->
  find (fun f => N.eqb (f_id f) u) (map g l)
  = option_map g (find (fun f => N.eqb (f_id f) u) l).
Proof.
  intros Hg. induction l as [| f l IH]; simpl; [reflexivity |].
  rewrite Hg. destruct (N.eqb (f_id f) u); [reflexivity | exact IH].
Qed.

Lemma find_some_app (A : Type) (p : A -> bool) (l l' : list A) (x : A) :
  find p l = Some x -> find p (l ++ l') = Some x.
Proof.
  induction l as [| y l IH]; simpl; [discriminate |].
  destruct (p y); [trivial | exact IH].
Qed.

Lemma find_none_app (A : Type) (p : A -> bool) (l l' : list A) :
  find p l = None -> find p (l ++ l') = find p l'.
Proof.
  induction l as [| y l IH]; simpl; [trivial |].
  destruct (p y); [discriminate | exact IH].
Qed.

Lemma selectFormulation_id (u : uuid) (db : DB) (f : Formulation) :
  selectFormulation u db = Some f -> f_id f = u.
Proof.
  unfold selectFormulation. intros H. apply find_some in H.
  now apply N.eqb_eq.
Qed.

Lemma mapFrom_ext (A B : Type) (f g : A -> Z -> B) (l : list A) :
  forall start, (forall x i, f x i = g x i) ->
                Js.mapFrom f start l = Js.mapFrom g start l.
Proof.
  induction l as [| x l IH]; intros start H; simpl; [reflexivity |].
  now rewrite H, (IH _ H).
Qed.

Lemma ingredientRow_ext (id : uuid) (t : Js.number) (db1 db2 : DB)
  (ing : IngredientEntry) (index : Z) :
  ingredients db1 = ingredients db2 ->
  ingredientRow id t db1 ing index = ingredientRow id t db2 ing index.
Proof.
  intros H. unfold ingredientRow, selectIngredient. now rewrite H.
Qed.

Lemma mapFrom_In (A B : Type) (f : A -> Z -> B) (l : list A) :
  forall start y, In y (Js.mapFrom f start l) -> exists x i, In x l /\ y = f x i.
Proof.
  induction l as [| x l IH]; intros start y H; simpl in H; [contradiction |].
  destruct H as [<- | H].
  - exists x, start. split; [now left | reflexivity].
  - destruct (IH _ _ H) as [x' [i [Hin ->]]]. exists x', i.
    split; [now right | reflexivity].
Qed.

Lemma mapFrom_length (A B : Type) (f : A -> Z -> B) (l : list A) :
  forall start, List.length (Js.mapFrom f start l) = List.length l.
Proof.
  induction l as [| x l IH]; intros start; simpl; [reflexivity |].
  now rewrite IH.
Qed.

(** The row of the entry at position [n] carries [start + n] as its
    sequence and display order. *)
Lemma mapFrom_nth (id : uuid) (t : Js.number) (db : DB) (l : list IngredientEntry) :
  forall (start : Z) (n : nat) (e : IngredientEntry),
    nth_error l n = Some e ->
    nth_error (Js.mapFrom (ingredientRow id t db) start l) n
    = Some (ingredientRow id t db e (start + Z.of_nat n)).
Proof.
  induction l as [| x l IH]; intros start n e H.
  - destruct n; discriminate.
  - destruct n as [| n]; simpl in H |- *.
    + inversion H; subst. now rewrite Z.add_0_r.
    + rewrite (IH _ _ _ H). do 2 f_equal. lia.
Qed.

(** ** Column types *)

Lemma pow10_pos (s : nat) : (0 < inject_Z (10 ^ Z.of_nat s))%Q.
Proof.
  change 0%Q with (inject_Z 0). rewrite <- Zlt_Qlt.
  apply Z.pow_pos_nonneg; lia.
Qed.

(** The rounded number is a multiple of the unit of the scale, at most half
    a unit away from the number. *)
Lemma roundAt_close (s : nat) (q : Q) :
  (exists n : Z, Pg.roundAt s q == inject_Z n / inject_Z (10 ^ Z.of_nat s))%Q
  /\ (Qabs (Pg.roundAt s q - q) * inject_Z (10 ^ Z.of_nat s) <= 1 # 2)%Q.
Proof.
  unfold Pg.roundAt. cbv zeta.
  pose proof (pow10_pos s) as Hu.
  set (u := inject_Z (10 ^ Z.of_nat s)) in *.
  pose proof (Qfloor_le (Qabs q * u + (1 # 2))) as Hlo.
  pose proof (Qlt_floor (Qabs q * u + (1 # 2))) as Hhi.
  set (n := Qfloor (Qabs q * u + (1 # 2))) in *.
  rewrite inject_Z_plus in Hhi. change (inject_Z 1) with 1%Q in Hhi.
  assert (Hne : ~ u == 0) by lra.
  split.
  - destruct (q ?= 0)%Q eqn:Hq; eexists; reflexivity.
  - assert (Hmul : forall x, Qabs x * u == Qabs (x * u)).
    { intros x. rewrite Qabs_Qmult. rewrite (Qabs_pos u) by lra. reflexivity. }
    rewrite Hmul. apply Qabs_Qle_condition.
    destruct (q ?= 0)%Q eqn:Hq.
    + apply Qeq_alt in Hq.
      assert (Habs : Qabs q == 0) by (rewrite Hq; reflexivity).
      assert (E : (inject_Z n / u - q) * u == inject_Z n - q * u) by (field; exact Hne).
      rewrite E. rewrite Hq in *. rewrite Habs in Hlo, Hhi. lra.
    + apply Qlt_alt in Hq.
      assert (Habs : Qabs q == - q) by (apply Qabs_neg; lra).
      assert (E : (inject_Z (- n) / u - q) * u == - inject_Z n - q * u).
      { rewrite inject_Z_opp. field. exact Hne. }
      rewrite E. rewrite Habs in Hlo, Hhi.
      set (x := q * u) in *.
      assert (Hx : - q * u == - x) by (unfold x; ring).
      rewrite Hx in Hlo, Hhi. lra.
    + apply Qgt_alt in Hq.
      assert (Habs : Qabs q == q) by (apply Qabs_pos; lra).
      assert (E : (inject_Z n / u - q) * u == inject_Z n - q * u) by (field; exact Hne).
      rewrite E. rewrite Habs in Hlo, Hhi.
      set (x := q * u) in *. lra.
Qed.

(** What a column numeric(p, s) takes, it holds as [heldAs] says. *)
Lemma numeric_heldAs (p s : nat) (a b : Js.number) :
  Pg.numeric p s a = inr b -> heldAs p s a b.
Proof.
  unfold Pg.numeric. destruct a as [q | | |]; try discriminate.
  - destruct (Qle_bool _ _) eqn:Hfit; [discriminate |].
    intros H. inversion H; subst b. clear H. unfold Js.fin, heldAs.
    destruct (roundAt_close s q) as [[n Hn] Hclose].
    pose proof (pow10_pos s) as Hu.
    set (u := inject_Z (10 ^ Z.of_nat s)) in *.
    split; [| split].
    + exists n. now rewrite Qred_correct.
    + rewrite Qred_correct.
      apply Qmult_lt_r with (z := u); [exact Hu |].
      assert (E : 1 / u * u == 1) by (field; lra).
      rewrite E. lra.
    + rewrite Qred_correct.
      apply Qnot_le_lt. intros Hle. apply Qle_bool_iff in Hle. congruence.
  - intros H. inversion H. exact I.
Qed.

Lemma absentOr_heldAs (p s : nat) (a b : option Js.number) :
  Pg.absentOr (Pg.numeric p s) a = inr b -> absentOrHeldAs p s a b.
Proof.
  destruct a as [a |]; simpl.
  - destruct (Pg.numeric p s a) as [e | c] eqn:Hc; [discriminate |].
    intros H. inversion H; subst b. now apply numeric_heldAs.
  - intros H. inversion H. exact I.
Qed.

Lemma int4_inv (z z' : Z) : Pg.int4 z = inr z' -> z' = z.
Proof.
  unfold Pg.int4. destruct (_ && _); [| discriminate]. now intros [= ->].
Qed.

Lemma varchar_inv (n : nat) (s s' : string) : Pg.varchar n s = inr s' -> s' = s.
Proof.
  unfold Pg.varchar. destruct (_ <=? _)%nat; [| discriminate]. now intros [= ->].
Qed.

Lemma absentOr_int4 (a b : option Z) : Pg.absentOr Pg.int4 a = inr b -> b = a.
Proof.
  destruct a as [a |]; simpl.
  - destruct (Pg.int4 a) as [e | c] eqn:Hc; [discriminate |].
    apply int4_inv in Hc. now intros [= <-]; subst.
  - now intros [= <-].
Qed.

(** The values the columns of formulations take, they hold as [dataHeldAs]
    says. *)
Lemma storeData_heldAs (v stored : FormulationData) :
  storeData v = inr stored -> dataHeldAs v stored.
Proof.
  unfold storeData.
  destruct (Pg.absentOr (Pg.numeric 10 2) (d_formulationQuantity v))
    as [e | fq] eqn:Hfq; [discriminate |].
  destruct (Pg.absentOr (Pg.numeric 12 2) (d_totalCost v))
    as [e | tc] eqn:Htc; [discriminate |].
  destruct (Pg.absentOr (Pg.numeric 10 2) (d_costPerUnit v))
    as [e | cu] eqn:Hcu; [discriminate |].
  destruct (Pg.absentOr Pg.int4 (d_ingredientCount v))
    as [e | ic] eqn:Hic; [discriminate |].
  intros H. inversion H; subst stored. clear H.
  apply absentOr_heldAs in Hfq, Htc, Hcu. apply absentOr_int4 in Hic.
  unfold dataHeldAs. simpl. repeat split; trivial.
Qed.

Lemma dataHeldAs_referencesExist (v stored : FormulationData) (db : DB) :
  dataHeldAs v stored -> referencesExist stored db = referencesExist v db.
Proof.
  intros [_ [_ [_ [_ [H5 [H6 _]]]]]]. unfold referencesExist. now rewrite H5, H6.
Qed.

(** The row the columns of formulation_ingredients take, they hold as
    [storedRowOf] says. *)
Lemma storeRow_storedRowOf (r stored : FormulationIngredient) :
  storeRow r = inr stored -> storedRowOf r stored.
Proof.
  unfold storeRow.
  destruct (Pg.numeric 12 4 (fi_quantity r)) as [e | c1] eqn:H1; [discriminate |].
  destruct (Pg.numeric 5 2 (fi_percentage r)) as [e | c2] eqn:H2; [discriminate |].
  destruct (Pg.numeric 8 6 (fi_proportion r)) as [e | c3] eqn:H3; [discriminate |].
  destruct (Pg.numeric 10 2 (fi_ingredientCost r)) as [e | c4] eqn:H4;
    [discriminate |].
  destruct (Pg.numeric 5 2 (fi_costPercentage r)) as [e | c5] eqn:H5;
    [discriminate |].
  destruct (Pg.varchar 50 (fi_ingredientRole r)) as [e | c6] eqn:H6;
    [discriminate |].
  destruct (Pg.int4 (fi_sequenceOrder r)) as [e | c7] eqn:H7; [discriminate |].
  destruct (Pg.int4 (fi_displayOrder r)) as [e | c8] eqn:H8; [discriminate |].
  intros H. inversion H; subst stored. clear H.
  apply numeric_heldAs in H1, H2, H3, H4, H5.
  apply varchar_inv in H6. apply int4_inv in H7, H8. subst.
  unfold storedRowOf. simpl. repeat split; trivial.
Qed.

Lemma storeRows_Forall2 (rows : list FormulationIngredient) :
  forall stored,
    storeRows rows = inr stored -> Forall2 storedRowOf rows stored.
Proof.
  induction rows as [| r rows IH]; simpl; intros stored H.
  - inversion H. constructor.
  - destruct (storeRow r) as [e | s] eqn:Hs; [discriminate |].
    destruct (storeRows rows) as [e | ss]; [discriminate |].
    inversion H; subst stored. constructor.
    + now apply storeRow_storedRowOf.
    + now apply IH.
Qed.

Lemma storeData_summaryData (n : Z) (m : list MainIngredient)
  (stored : FormulationData) :
  storeData (summaryData n m) = inr stored -> stored = summaryData n m.
Proof.
  unfold storeData, summaryData. simpl.
  destruct (Pg.int4 n) as [e | z] eqn:Hz; [discriminate |].
  apply int4_inv in Hz. subst z. now intros [= <-].
Qed.

Lemma storedRowOf_formulationId (id : uuid)
  (rows stored : list FormulationIngredient) :
  Forall2 storedRowOf rows stored ->
  Forall (fun r => fi_formulationId r = id) rows ->
  Forall (fun r => fi_formulationId r = id) stored.
Proof.
  induction 1 as [| r s rows stored Hrs _ IH]; intros Hall; constructor;
    inversion Hall; subst.
  - destruct Hrs as [Hid _]. congruence.
  - now apply IH.
Qed.

Lemma mapFrom_formulationId (id : uuid) (t : Js.number) (db : DB)
  (l : list IngredientEntry) :
  forall start,
    Forall (fun r => fi_formulationId r = id)
      (Js.mapFrom (ingredientRow id t db) start l).
Proof.
  induction l as [| x l IH]; intros start; simpl; constructor;
    [reflexivity | apply IH].
Qed.

Lemma filter_formulationId (id u : uuid) (l : list FormulationIngredient) :
  Forall (fun r => fi_formulationId r = id) l ->
  filter (fun r => N.eqb (fi_formulationId r) u) l
  = if N.eqb id u then l else [].
Proof.
  induction 1 as [| r l Hr _ IH]; simpl.
  - now destruct (N.eqb id u).
  - rewrite IH, Hr. now destruct (N.eqb id u).
Qed.

(** The rows the table holds for the rows built for the formulation [id]
    are rows of [id] and of no other formulation. *)
Lemma stored_rows_of_formulation (id u : uuid) (t : Js.number) (db : DB)
  (l : list IngredientEntry) (start : Z) (stored : list FormulationIngredient) :
  storeRows (Js.mapFrom (ingredientRow id t db) start l) = inr stored ->
  filter (fun r => N.eqb (fi_formulationId r) u) stored
  = if N.eqb id u then stored else [].
Proof.
  intros H. apply filter_formulationId.
  eapply storedRowOf_formulationId; [apply storeRows_Forall2; exact H |].
  apply mapFrom_formulationId.
Qed.

Lemma insertFormulation_inv (newId : uuid) (v : FormulationData) (db db' : DB)
  (f : Formulation) :
  insertFormulation newId v db = inr (f, db') ->
  exists stored,
    storeData v = inr stored
    /\ rowOfValues newId stored = Some f
    /\ selectFormulation newId db = None
    /\ db' = withFormulations db (formulations db ++ [f]).
Proof.
  unfold insertFormulation. intros H.
  destruct (storeData v) as [e | stored]; [discriminate |].
  exists stored. split; [reflexivity |].
  destruct (rowOfValues newId stored) as [row |]; [| discriminate].
  destruct (selectFormulation newId db) eqn:Hsel; simpl in H; [discriminate |].
  destruct (isSome (selectAnimal (f_animalId row) db)
            && isSome (selectProductionStage (f_productionStageId row) db));
    [| discriminate].
  inversion H; subst. repeat split.
Qed.

Lemma rowOfValues_inv (newId : uuid) (v : FormulationData) (f : Formulation) :
  rowOfValues newId v = Some f ->
  f_id f = newId
  /\ f_mainIngredients f = d_mainIngredients v
  /\ f_status f = orElse (d_status v) "draft"
  /\ d_totalCost v = Some (f_totalCost f).
Proof.
  unfold rowOfValues, bindOpt. intros H.
  repeat match type of H with
         | match ?x with _ => _ end = _ => destruct x; [| discriminate]
         end.
  inversion H; subst. simpl. repeat split.
Qed.

Lemma updateFormulations_inv (v : FormulationData) (id : uuid) (db db' : DB)
  (updated : list Formulation) :
  updateFormulations v id db = inr (updated, db') ->
  exists stored,
    storeData v = inr stored
    /\ db' = withFormulations db
            (map (fun f => if N.eqb (f_id f) id then applySet stored f else f)
               (formulations db))
    /\ forall u,
        selectFormulation u db'
        = option_map
            (fun f => if N.eqb (f_id f) id then applySet stored f else f)
            (selectFormulation u db).
Proof.
  unfold updateFormulations. intros H.
  destruct (storeData v) as [e | stored]; [discriminate |].
  exists stored. split; [reflexivity |].
  destruct (existsb _ _ && negb _); [discriminate |].
  inversion H; subst. split; [reflexivity |].
  intros u. unfold selectFormulation. simpl. apply find_id_map.
  intros f. now destruct (N.eqb (f_id f) id).
Qed.

Lemma handed_references (db : DB) (rows stored : list FormulationIngredient) :
  Forall2 storedRowOf rows stored ->
  (forall r, In r stored ->
             isSome (selectFormulation (fi_formulationId r) db)
             && isSome (selectIngredient (fi_ingredientId r) db) = true) ->
  Forall (fun r => exists ingredient,
            selectIngredient (fi_ingredientId r) db = Some ingredient) rows.
Proof.
  induction 1 as [| x y xs ys Hxy _ IH]; intros Hfk; constructor.
  - assert (Hy : In y (y :: ys)) by now left.
    specialize (Hfk y Hy). apply andb_prop in Hfk. destruct Hfk as [_ Hfk].
    destruct Hxy as [_ [Hid _]]. rewrite Hid in Hfk.
    destruct (selectIngredient (fi_ingredientId x) db) as [i |]; [| discriminate].
    now exists i.
  - apply IH. intros z Hz. apply Hfk. now right.
Qed.

Lemma insertFormulationIngredients_inv (rows : list FormulationIngredient)
  (db db' : DB) :
  insertFormulationIngredients rows db = inr (tt, db') ->
  exists stored,
    rows <> []
    /\ storeRows rows = inr stored
    /\ db' = withFormulationIngredients db (formulationIngredients db ++ stored)
    /\ Forall (fun r => exists ingredient,
                  selectIngredient (fi_ingredientId r) db = Some ingredient)
         rows.
Proof.
  unfold insertFormulationIngredients. intros H.
  destruct rows as [| r rows]; [discriminate |].
  destruct (storeRows (r :: rows)) as [e | stored] eqn:Hstored; [discriminate |].
  destruct (forallb _ stored) eqn:Hfk; [| discriminate].
  inversion H; subst. exists stored.
  split; [discriminate |]. split; [reflexivity |]. split; [reflexivity |].
  rewrite forallb_forall in Hfk. apply storeRows_Forall2 in Hstored.
  now apply handed_references with (stored := stored).
Qed.

Lemma select_other (g : Formulation -> Formulation) (u id : uuid) (db : DB) :
  u <> id ->
  option_map (fun f => if N.eqb (f_id f) id then g f else f)
    (selectFormulation u db)
  = selectFormulation u db.
Proof.
  intros Hne. destruct (selectFormulation u db) as [f |] eqn:Hf; [| reflexivity].
  apply selectFormulation_id in Hf. simpl.
  destruct (N.eqb_spec (f_id f) id); [congruence | reflexivity].
Qed.


Lemma filter_removed (id : uuid) (l : list FormulationIngredient) :
  filter (fun r => N.eqb (fi_formulationId r) id)
    (filter (fun r => negb (N.eqb (fi_formulationId r) id)) l) = [].
Proof.
  induction l as [| r l IH]; simpl; [reflexivity |].
  destruct (N.eqb (fi_formulationId r) id) eqn:E; simpl; [exact IH |].
  now rewrite E.
Qed.

Lemma filter_kept (u id : uuid) (l : list FormulationIngredient) :
  u <> id ->
  filter (fun r => N.eqb (fi_formulationId r) u)
    (filter (fun r => negb (N.eqb (fi_formulationId r) id)) l)
  = filter (fun r => N.eqb (fi_formulationId r) u) l.
Proof.
  intros Hne. induction l as [| r l IH]; simpl; [reflexivity |].
  destruct (N.eqb_spec (fi_formulationId r) id) as [Hid | Hid]; simpl.
  - destruct (N.eqb_spec (fi_formulationId r) u); [congruence | exact IH].
  - destruct (N.eqb (fi_formulationId r) u); [now rewrite IH | exact IH].
Qed.

(** ** The transaction of createFormulation *)

Lemma createTx_inv (newId : uuid) (fd : FormulationData)
  (l : list IngredientEntry) (db db' : DB) (f : Formulation)
  (rows : list FormulationIngredient) :
  createTx newId fd l db = inr ((f, rows), db') ->
  exists t stored,
    selectFormulation newId db = None
    /\ f_id f = newId
    /\ f_mainIngredients f = Some (topFive (Js.sort byPercentageDesc l))
    /\ f_status f = orElse (d_status fd) "draft"
    /\ d_totalCost fd = Some t
    /\ heldAs 12 2 t (f_totalCost f)
    /\ rows = Js.mapi (ingredientRow newId t db) (Js.sort byPercentageDesc l)
    /\ storeRows rows = inr stored
    /\ db' = mkDB (animals db) (productionStages db) (ingredients db)
               (formulations db ++ [f]) (formulationIngredients db ++ stored)
    /\ Forall (fun r => exists ingredient,
                  selectIngredient (fi_ingredientId r) db = Some ingredient)
         rows.
Proof.
  unfold createTx, bind. intros H.
  destruct (insertFormulation newId _ db) as [e | [f0 db1]] eqn:Hins;
    [discriminate |].
  apply insertFormulation_inv in Hins.
  destruct Hins as [values [Hvalues [Hrow [Hfresh Hdb1]]]].
  apply storeData_heldAs in Hvalues.
  destruct Hvalues
    as [_ [_ [_ [Hst [_ [_ [_ [_ [Htc [_ [_ [_ [_ [Hmi _]]]]]]]]]]]]]].
  simpl in Hst, Htc, Hmi.
  apply rowOfValues_inv in Hrow.
  destruct Hrow as [Hid [Hmain [Hstatus Htotal]]].
  rewrite Hmi in Hmain. rewrite Hst in Hstatus. rewrite Htotal in Htc.
  destruct (d_totalCost fd) as [t |]; [| contradiction].
  simpl in Htc. unfold query in H.
  destruct (insertFormulationIngredients _ db1) as [e | [[] db2]] eqn:Hrows;
    [discriminate |].
  unfold ret in H. inversion H; subst f0 rows db'. clear H.
  apply insertFormulationIngredients_inv in Hrows.
  destruct Hrows as [stored [_ [Hstored [Hdb2 Hfk]]]].
  assert (Hsame : forall ing i,
             ingredientRow (f_id f) t db1 ing i
             = ingredientRow newId t db ing i).
  { intros ing i. rewrite Hid. apply ingredientRow_ext. now subst db1. }
  unfold Js.mapi in *.
  rewrite (mapFrom_ext _ _ _ _ Hsame) in Hstored, Hfk |- *.
  exists t, stored. repeat split; trivial.
  - subst db2 db1. reflexivity.
  - subst db1. exact Hfk.
Qed.

Lemma createFormulation_failure (newId : uuid) (p : Payload) (db : DB) :
  success (fst (createFormulation newId p db)) = false ->
  snd (createFormulation newId p db) = db.
Proof.
  unfold createFormulation, transaction.
  destruct (validateInput createFormulationSchema p) as [errors | [fd [l |]]];
    try reflexivity.
  destruct (outOfTolerance (totalPercentage l)); [reflexivity |].
  destruct (createTx newId fd l db) as [e | [result db']]; simpl;
    [reflexivity | discriminate].
Qed.

(** A successful createFormulation, spelled out. *)
Lemma createFormulation_success (newId : uuid) (p : Payload) (db : DB) :
  success (fst (createFormulation newId p db)) = true ->
  exists fd l f rows,
    validateInput createFormulationSchema p = inr (fd, Some l)
    /\ outOfTolerance (totalPercentage l) = false
    /\ createTx newId fd l db
       = inr ((f, rows), snd (createFormulation newId p db))
    /\ data (fst (createFormulation newId p db)) = Some (f, rows).
Proof.
  unfold createFormulation, transaction.
  destruct (validateInput createFormulationSchema p) as [errors | [fd [l |]]];
    simpl; try discriminate.
  destruct (outOfTolerance (totalPercentage l)) eqn:Htol; [discriminate |].
  destruct (createTx newId fd l db) as [e | [[f rows] db']] eqn:Htx; simpl.
  - now rewrite handleDatabaseError_fails.
  - intros _. exists fd, l, f, rows. repeat split; trivial.
Qed.

(** ** The transaction of updateFormulation *)

Lemma metadata_step_inv (id : uuid) (fd : FormulationData) (db db1 : DB) :
  (if hasKeys fd
   then (_ <- updateFormulations fd id ;; ret tt)
   else ret tt) db = inr (tt, db1) ->
  exists g : Formulation -> Formulation,
    (if hasKeys fd
     then exists stored, storeData fd = inr stored /\ g = applySet stored
     else g = fun f => f)
    /\ animals db1 = animals db
    /\ productionStages db1 = productionStages db
    /\ ingredients db1 = ingredients db
    /\ formulationIngredients db1 = formulationIngredients db
    /\ forall u,
        selectFormulation u db1
        = option_map (fun f => if N.eqb (f_id f) id then g f else f)
            (selectFormulation u db).
Proof.
  destruct (hasKeys fd); unfold bind, ret; intros H.
  - destruct (updateFormulations fd id db) as [e | [updated db2]] eqn:Hupd;
      [discriminate |].
    inversion H; subst db2. clear H.
    apply updateFormulations_inv in Hupd.
    destruct Hupd as [stored [Hstored [Hdb Hsel]]].
    exists (applySet stored). subst db1.
    split; [now exists stored |]. repeat split; trivial.
  - inversion H; subst db1. exists (fun f => f). repeat split; trivial.
    intros u. destruct (selectFormulation u db) as [f |]; [| reflexivity].
    simpl. now destruct (N.eqb (f_id f) id).
Qed.

Lemma updateTx_inv (id : uuid) (fd : FormulationData)
  (ing : option (list IngredientEntry)) (db db' : DB) :
  updateTx id fd ing db = inr (tt, db') ->
  exists g : Formulation -> Formulation,
    (if hasKeys fd
     then exists stored, storeData fd = inr stored /\ g = applySet stored
     else g = fun f => f)
    /\ ingredients db' = ingredients db
    /\ (forall u, u <> id -> unchanged u db db')
    /\ (forall f, selectFormulation id db = Some f ->
                  selectFormulation id db'
                  = Some match ing with
                         | Some l =>
                             applySet
                               (summaryData (Z.of_nat (List.length l))
                                  (topFive (Js.sort byPercentageDesc l)))
                               (g f)
                         | None => g f
                         end)
    /\ match ing with
       | Some l =>
           outOfTolerance (totalPercentage l) = false
           /\ (exists stored,
                  storeRows
                    (Js.mapi
                       (ingredientRow id (orElse (d_totalCost fd) Js.zero) db) l)
                  = inr stored
                  /\ ingredientsOf id db' = stored)
           /\ Forall (fun r => exists ingredient,
                         selectIngredient (fi_ingredientId r) db
                         = Some ingredient)
                (Js.mapi
                   (ingredientRow id (orElse (d_totalCost fd) Js.zero) db) l)
       | None => formulationIngredients db' = formulationIngredients db
       end.
Proof.
  unfold updateTx. unfold bind at 1. intros H.
  destruct ((if hasKeys fd
             then (_ <- updateFormulations fd id ;; ret tt)
             else ret tt) db) as [e | [[] db1]] eqn:Hmeta; [discriminate |].
  apply metadata_step_inv in Hmeta.
  destruct Hmeta as [g [Hg [Han [Hps [Hig [Hfi Hsel1]]]]]].
  exists g. split; [exact Hg |].
  destruct ing as [l |].
  - destruct (outOfTolerance (totalPercentage l)) eqn:Htol; [discriminate |].
    unfold bind, deleteFormulationIngredients, query in H.
    match type of H with
    | context [insertFormulationIngredients ?rows ?d] =>
        destruct (insertFormulationIngredients rows d) as [e | [[] db3]] eqn:Hrows;
        [discriminate |]
    end.
    apply insertFormulationIngredients_inv in Hrows.
    destruct Hrows as [stored [_ [Hstored [Hdb3 Hfk]]]].
    destruct (updateFormulations _ id db3) as [e | [updated db4]] eqn:Hupd;
      [discriminate |].
    unfold ret in H. inversion H; subst db4. clear H.
    apply updateFormulations_inv in Hupd.
    destruct Hupd as [summary [Hsummary [Hdb' Hsel']]].
    apply storeData_summaryData in Hsummary. subst summary.
    assert (Hrowsame : forall x i,
               ingredientRow id (orElse (d_totalCost fd) Js.zero)
                 (withFormulationIngredients db1
                    (filter (fun r => negb (N.eqb (fi_formulationId r) id))
                       (formulationIngredients db1))) x i
               = ingredientRow id (orElse (d_totalCost fd) Js.zero) db x i).
    { intros x i. apply ingredientRow_ext. exact Hig. }
    unfold Js.mapi in *.
    rewrite (mapFrom_ext _ _ _ _ Hrowsame) in Hstored, Hfk.
    assert (Hrows' : forall u,
               ingredientsOf u db'
               = (filter (fun r => N.eqb (fi_formulationId r) u)
                    (filter (fun r => negb (N.eqb (fi_formulationId r) id))
                       (formulationIngredients db))
                    ++ (if N.eqb id u then stored else []))%list).
    { intros u. subst db' db3. unfold ingredientsOf. simpl.
      rewrite filter_app, (@stored_rows_of_formulation _ u _ _ _ _ _ Hstored), Hfi.
      reflexivity. }
    assert (Hsel3 : forall u, selectFormulation u db3 = selectFormulation u db1).
    { intros u. subst db3. reflexivity. }
    assert (Hmine : ingredientsOf id db' = stored).
    { rewrite Hrows', filter_removed, N.eqb_refl. reflexivity. }
    split; [subst db' db3; simpl; exact Hig |].
    split; [| split; [| split; [reflexivity | split]]].
    + intros u Hne. split.
      * rewrite Hsel', Hsel3, Hsel1, !select_other by exact Hne. reflexivity.
      * rewrite Hrows', (filter_kept _ Hne).
        destruct (N.eqb_spec id u); [congruence |]. now rewrite app_nil_r.
    + intros f Hf. rewrite Hsel', Hsel3, Hsel1, Hf. simpl.
      apply selectFormulation_id in Hf. rewrite Hf, N.eqb_refl.
      assert (Hgid : f_id (g f) = id).
      { destruct (hasKeys fd).
        - destruct Hg as [stored' [_ ->]]. exact Hf.
        - subst g. exact Hf. }
      now rewrite Hgid, N.eqb_refl.
    + exists stored. split; [exact Hstored | exact Hmine].
    + rewrite Forall_forall in Hfk |- *. intros r Hr.
      destruct (Hfk r Hr) as [i Hi]. exists i. rewrite <- Hi.
      unfold selectIngredient. simpl. now rewrite Hig.
  - unfold ret in H. inversion H; subst db1. clear H.
    split; [exact Hig |].
    split; [| split; [| exact Hfi]].
    + intros u Hne. split.
      * rewrite Hsel1. now apply select_other.
      * unfold ingredientsOf. now rewrite Hfi.
    + intros f Hf. rewrite Hsel1, Hf. simpl.
      apply selectFormulation_id in Hf. now rewrite Hf, N.eqb_refl.
Qed.

(** ** The actions *)

Lemma getFormulationById_pure (id : idArg) (db : DB) :
  snd (getFormulationById id db) = db.
Proof.
  unfold getFormulationById.
  destruct (idSchema_parse id) as [e | u]; [reflexivity |].
  destruct (selectFormulation u db); reflexivity.
Qed.

Lemma getFormulationById_found (u : uuid) (db : DB) (f : Formulation) :
  selectFormulation u db = Some f ->
  success (fst (getFormulationById (Uuid u) db)) = true.
Proof. unfold getFormulationById. simpl. now intros ->. Qed.

Lemma unchanged_refl (u : uuid) (db : DB) : unchanged u db db.
Proof. split; reflexivity. Qed.

(** An updateFormulation that reports a failure has written nothing: once
    its transaction commits, the closing read finds the formulation. *)
Lemma updateFormulation_failure (id : idArg) (p : Payload) (db : DB) :
  success (fst (updateFormulation id p db)) = false ->
  snd (updateFormulation id p db) = db.
Proof.
  unfold updateFormulation, transaction.
  destruct (idSchema_parse id) as [e | u]; [reflexivity |].
  destruct (validateInput createFormulationSchema_partial p)
    as [errors | [fd ing]]; [reflexivity |].
  destruct (selectFormulation u db) as [f |] eqn:Hf; [| reflexivity].
  destruct (String.eqb (f_status f) "active"); [reflexivity |].
  destruct (updateTx u fd ing db) as [e | [[] db']] eqn:Htx; [reflexivity |].
  intros Hfail. exfalso.
  apply updateTx_inv in Htx. destruct Htx as [g [_ [_ [_ [Hkept _]]]]].
  specialize (Hkept f Hf). apply getFormulationById_found in Hkept. congruence.
Qed.

Lemma updateFormulation_success (id : idArg) (p : Payload) (db : DB) :
  success (fst (updateFormulation id p db)) = true ->
  exists u fd ing f,
    id = Uuid u
    /\ validateInput createFormulationSchema_partial p = inr (fd, ing)
    /\ selectFormulation u db = Some f
    /\ f_status f <> "active"
    /\ updateTx u fd ing db = inr (tt, snd (updateFormulation id p db)).
Proof.
  unfold updateFormulation, transaction.
  destruct id as [u | s]; simpl; [| discriminate].
  destruct (validateInput createFormulationSchema_partial p)
    as [errors | [fd ing]]; [discriminate |].
  destruct (selectFormulation u db) as [f |] eqn:Hf; [| discriminate].
  destruct (String.eqb_spec (f_status f) "active") as [Hact | Hact];
    [discriminate |].
  destruct (updateTx u fd ing db) as [e | [[] db']] eqn:Htx.
  - simpl. now rewrite handleDatabaseError_fails.
  - intros _. exists u, fd, ing, f.
    rewrite getFormulationById_pure. repeat split; trivial.
Qed.

Lemma createFormulation_unchanged (u newId : uuid) (p : Payload) (db : DB)
  (f : Formulation) :
  selectFormulation u db = Some f ->
  unchanged u db (snd (createFormulation newId p db)).
Proof.
  intros Hf.
  destruct (success (fst (createFormulation newId p db))) eqn:Hs.
  - apply createFormulation_success in Hs.
    destruct Hs as [fd [l [g [rows [_ [_ [Htx _]]]]]]].
    apply createTx_inv in Htx.
    destruct Htx
      as [t [stored [Hfresh [_ [_ [_ [_ [_ [Hrows [Hstored [Hdb _]]]]]]]]]]].
    rewrite Hdb. assert (Hne : newId <> u) by congruence.
    split.
    + unfold selectFormulation in *. simpl. rewrite Hf.
      now apply find_some_app.
    + unfold ingredientsOf. simpl. rewrite Hrows in Hstored.
      rewrite filter_app,
        (@stored_rows_of_formulation _ u _ _ _ _ _ Hstored).
      destruct (N.eqb_spec newId u); [congruence |]. apply app_nil_r.
  - rewrite (createFormulation_failure _ _ _ Hs). apply unchanged_refl.
Qed.

Lemma updateFormulation_unchanged (u : uuid) (id : idArg) (p : Payload)
  (db : DB) :
  id <> Uuid u -> unchanged u db (snd (updateFormulation id p db)).
Proof.
  intros Hne.
  destruct (success (fst (updateFormulation id p db))) eqn:Hs.
  - apply updateFormulation_success in Hs.
    destruct Hs as [v [fd [ing [g [Hid [_ [_ [_ Htx]]]]]]]].
    apply updateTx_inv in Htx. destruct Htx as [h [_ [_ [Hother _]]]].
    apply Hother. congruence.
  - rewrite (updateFormulation_failure _ _ _ Hs). apply unchanged_refl.
Qed.

Lemma deleteFormulation_unchanged (u : uuid) (id : idArg) (db : DB) :
  id <> Uuid u -> unchanged u db (snd (deleteFormulation id db)).
Proof.
  intros Hne. unfold deleteFormulation.
  destruct id as [v | s]; simpl; [| apply unchanged_refl].
  destruct (selectFormulation v db) as [g |]; [| apply unchanged_refl].
  destruct (String.eqb (f_status g) "active"); [apply unchanged_refl |].
  simpl. assert (Huv : u <> v) by congruence.
  split.
  - unfold selectFormulation. simpl.
    induction (formulations db) as [| h t IH]; simpl; [reflexivity |].
    destruct (N.eqb_spec (f_id h) v) as [Hv | Hv]; simpl.
    + destruct (N.eqb_spec (f_id h) u); [congruence | exact IH].
    + destruct (N.eqb (f_id h) u); [reflexivity | exact IH].
  - unfold ingredientsOf. simpl. now apply filter_kept.
Qed.

Lemma toggleFormulationStatus_unchanged (u : uuid) (id : idArg) (activate : bool)
  (db : DB) :
  id <> Uuid u -> unchanged u db (snd (toggleFormulationStatus id activate db)).
Proof.
  intros Hne. unfold toggleFormulationStatus.
  destruct id as [v | s]; simpl; [| apply unchanged_refl].
  destruct (updateFormulations _ v db) as [e | [updated db']] eqn:Hupd;
    [apply unchanged_refl |].
  apply updateFormulations_inv in Hupd.
  destruct Hupd as [stored [_ [Hdb Hsel]]].
  assert (Hkeep : unchanged u db db').
  { split.
    - rewrite Hsel. apply select_other. congruence.
    - subst db'. reflexivity. }
  destruct updated; exact Hkeep.
Qed.

Lemma duplicateFormulation_unchanged (u newId : uuid) (id : idArg)
  (newName : string) (db : DB) (f : Formulation) :
  selectFormulation u db = Some f ->
  unchanged u db (snd (duplicateFormulation newId id newName db)).
Proof.
  intros Hf. unfold duplicateFormulation.
  destruct (idSchema_parse id) as [e | v]; [apply unchanged_refl |].
  pose proof (getFormulationById_pure (Uuid v) db) as Hpure.
  destruct (getFormulationById (Uuid v) db) as [r db1]. simpl in Hpure.
  subst db1.
  destruct (success r); [| apply unchanged_refl].
  destruct (data r) as [original |]; [| apply unchanged_refl].
  now apply createFormulation_unchanged with (f := f).
Qed.

(** ** Atomicity *)

(** C4. A createFormulation or updateFormulation call that fails (on
    validation, on the percentage sum or on an error inside its transaction)
    leaves the database as it was: after a failed create, reading the id the
    formulation would have had, when no formulation had it before, gives
    NotFound; after a failed update, every formulation and its ingredient
    rows are in their state before the call. *)
Theorem failed_call_leaves_no_trace (newId : uuid) (id : idArg) (p : Payload)
  (db : DB) :
  (success (fst (createFormulation newId p db)) = false ->
   snd (createFormulation newId p db) = db
   /\ (selectFormulation newId db = None ->
       NotFound (fst (getFormulationById (Uuid newId)
                        (snd (createFormulation newId p db))))))
  /\ (success (fst (updateFormulation id p db)) = false ->
      snd (updateFormulation id p db) = db
      /\ forall u, unchanged u db (snd (updateFormulation id p db))).
Proof.
  split; intros Hfail.
  - rewrite (createFormulation_failure _ _ _ Hfail).
    split; [reflexivity |]. intros Hfresh.
    unfold getFormulationById. simpl. rewrite Hfresh. split; reflexivity.
  - rewrite (updateFormulation_failure _ _ _ Hfail).
    split; [reflexivity |]. intros u. apply unchanged_refl.
Qed.

(** A create refused for its percentage sum, and an update that fails in its
    transaction after the metadata of the formulation were written. *)
Lemma failed_call_leaves_no_trace_witness :
  (snd (createFormulation 100%N
          (Sample.payload 100 Sample.short)
          Sample.db0) = Sample.db0
   /\ NotFound (fst (getFormulationById (Uuid 100%N)
                       (snd (createFormulation 100%N
                               (Sample.payload 100
                                  Sample.short)
                               Sample.db0)))))
  /\ snd (updateFormulation (Uuid 100%N)
            (Sample.payload 100 Sample.cornUnknown)
            Sample.db1) = Sample.db1.
Proof.
  pose proof (failed_call_leaves_no_trace 100%N (Uuid 100%N)
                (Sample.payload 100 Sample.short)
                Sample.db0) as [Hcreate _].
  pose proof (failed_call_leaves_no_trace 100%N (Uuid 100%N)
                (Sample.payload 100 Sample.cornUnknown)
                Sample.db1) as [_ Hupdate].
  split.
  - destruct (Hcreate eq_refl) as [Hdb Hread].
    split; [exact Hdb | exact (Hread eq_refl)].
  - exact (proj1 (Hupdate eq_refl)).
Defined.

(** ** Active formulations *)

(** C5, as stated, fails: the schema check of updateFormulation comes before
    the status check, so an update of an active formulation with a payload
    the schema refuses (here an empty mix) is answered with the validation
    failure, not with the InvalidState error. *)
Lemma active_update_invalid_payload_not_InvalidState :
  option_map f_status (selectFormulation 100%N Sample.db2) = Some "active"
  /\ ~ InvalidState (fst (updateFormulation (Uuid 100%N) (Sample.mixOnly [])
                            Sample.db2)).
Proof.
  split; [reflexivity |].
  intros [_ [H | H]]; vm_compute in H; discriminate.
Qed.

(** C5, amended. For a formulation whose status is active: deleteFormulation
    fails with InvalidState; updateFormulation fails with InvalidState when
    its payload passes the schema and with the validation failure when it
    does not; both leave the database as it was; and no call other than
    toggleFormulationStatus on that formulation changes the formulation or
    its ingredient rows. *)
Theorem active_formulation_is_immutable (u : uuid) (db : DB) (f : Formulation) :
  selectFormulation u db = Some f ->
  f_status f = "active" ->
  (InvalidState (fst (deleteFormulation (Uuid u) db))
   /\ snd (deleteFormulation (Uuid u) db) = db)
  /\ (forall p,
         snd (updateFormulation (Uuid u) p db) = db
         /\ match validateInput createFormulationSchema_partial p with
            | inr _ => InvalidState (fst (updateFormulation (Uuid u) p db))
            | inl _ => ValidationFailed (fst (updateFormulation (Uuid u) p db))
            end)
  /\ (forall a,
         (forall activate, a <> ToggleStatus (Uuid u) activate) ->
         unchanged u db (run a db)).
Proof.
  intros Hf Hactive.
  assert (Hdel : deleteFormulation (Uuid u) db
                 = (createErrorResponse "Cannot delete active formulation"
                      (Some "Deactivate the formulation first before deleting"),
                    db)).
  { unfold deleteFormulation. simpl. now rewrite Hf, Hactive. }
  assert (Hupd : forall p,
             updateFormulation (Uuid u) p db
             = match validateInput createFormulationSchema_partial p with
               | inl errors => (validationFailed errors, db)
               | inr _ =>
                   (createErrorResponse "Cannot edit active formulation"
                      (Some "Deactivate the formulation first before making changes"),
                    db)
               end).
  { intros p. unfold updateFormulation. simpl.
    destruct (validateInput createFormulationSchema_partial p)
      as [errors | [fd ing]]; [reflexivity |].
    now rewrite Hf, Hactive. }
  split; [| split].
  - rewrite Hdel. split; [| reflexivity]. split; [reflexivity | now right].
  - intros p. rewrite Hupd.
    destruct (validateInput createFormulationSchema_partial p) as [errors | ok];
      (split; [reflexivity |]).
    + split; reflexivity.
    + split; [reflexivity | now left].
  - intros a Hnot. destruct a as [id | newId p | id p | id | id b | newId id n];
      simpl.
    + rewrite getFormulationById_pure. apply unchanged_refl.
    + now apply createFormulation_unchanged with (f := f).
    + destruct id as [v | s].
      * destruct (N.eq_dec v u) as [-> | Hne].
        -- rewrite Hupd.
           destruct (validateInput createFormulationSchema_partial p);
             apply unchanged_refl.
        -- apply updateFormulation_unchanged. congruence.
      * apply updateFormulation_unchanged. discriminate.
    + destruct id as [v | s].
      * destruct (N.eq_dec v u) as [-> | Hne].
        -- rewrite Hdel. apply unchanged_refl.
        -- apply deleteFormulation_unchanged. congruence.
      * apply deleteFormulation_unchanged. discriminate.
    + apply toggleFormulationStatus_unchanged. intros ->. now apply (Hnot b).
    + now apply duplicateFormulation_unchanged with (f := f).
Qed.

(** The activated formulation of the sample: a delete, an update with a
    valid payload and the creation of another formulation. *)
Lemma active_formulation_is_immutable_witness :
  InvalidState (fst (deleteFormulation (Uuid 100%N) Sample.db2))
  /\ InvalidState (fst (updateFormulation (Uuid 100%N)
                          (Sample.mixOnly Sample.soyCorn) Sample.db2))
  /\ unchanged 100%N Sample.db2
       (run (Create 101%N (Sample.payload 100 Sample.cornSoy)) Sample.db2).
Proof.
  destruct (@active_formulation_is_immutable 100%N Sample.db2 _ eq_refl eq_refl)
    as [[Hdel _] [Hupd Hother]].
  split; [exact Hdel |]. split.
  - exact (proj2 (Hupd (Sample.mixOnly Sample.soyCorn))).
  - apply Hother. intros activate. discriminate.
Defined.

(** ** The summary of main ingredients *)

(** C6. After a successful createFormulation, and after a successful
    updateFormulation whose payload carries a mix, the stored mainIngredients
    of the formulation is the projection to ingredientId and percentage of
    the first five entries (all of them when there are fewer) of the
    supplied mix stably sorted by percentage descending. *)
Theorem mainIngredients_is_top_five (newId u : uuid) (p : Payload) (db : DB)
  (fd : FormulationData) (l : list IngredientEntry) :
  (validateInput createFormulationSchema p = inr (fd, Some l) ->
   success (fst (createFormulation newId p db)) = true ->
   exists f sorted,
     selectFormulation newId (snd (createFormulation newId p db)) = Some f
     /\ StableSortByPercentageDesc l sorted
     /\ f_mainIngredients f = Some (topFiveProjection sorted))
  /\ (validateInput createFormulationSchema_partial p = inr (fd, Some l) ->
      success (fst (updateFormulation (Uuid u) p db)) = true ->
      exists f sorted,
        selectFormulation u (snd (updateFormulation (Uuid u) p db)) = Some f
        /\ StableSortByPercentageDesc l sorted
        /\ f_mainIngredients f = Some (topFiveProjection sorted)).
Proof.
  split; intros Hvalid Hok.
  - apply createFormulation_success in Hok.
    destruct Hok as [fd' [l' [f [rows [Hvalid' [_ [Htx _]]]]]]].
    rewrite Hvalid in Hvalid'. inversion Hvalid'; subst fd' l'. clear Hvalid'.
    apply createTx_inv in Htx.
    destruct Htx
      as [t [stored [Hfresh [Hid [Hmain [_ [_ [_ [_ [_ [Hdb _]]]]]]]]]]].
    exists f, (Js.sort byPercentageDesc l). split; [| split].
    + rewrite Hdb. unfold selectFormulation in *. simpl.
      rewrite (find_none_app _ _ _ Hfresh). simpl.
      now rewrite Hid, N.eqb_refl.
    + apply sort_is_stable_sort.
      now destruct (validateInput_mix _ _ Hvalid) as [_ [Hv _]].
    + exact Hmain.
  - apply updateFormulation_success in Hok.
    destruct Hok as [v [fd' [ing [f [Hid [Hvalid' [Hf [_ Htx]]]]]]]].
    inversion Hid; subst v. clear Hid.
    rewrite Hvalid in Hvalid'. inversion Hvalid'; subst fd' ing. clear Hvalid'.
    apply updateTx_inv in Htx. destruct Htx as [g [_ [_ [_ [Hkept _]]]]].
    eexists; exists (Js.sort byPercentageDesc l).
    split; [exact (Hkept f Hf) | split].
    + apply sort_is_stable_sort.
      now destruct (validateInput_mix _ _ Hvalid) as [_ [Hv _]].
    + reflexivity.
Qed.

(** Scenario A with soy written first, as a create and as an update. *)
Lemma mainIngredients_is_top_five_witness :
  (exists f sorted,
      selectFormulation 100%N
        (snd (createFormulation 100%N (Sample.payload 100 Sample.soyCorn)
                Sample.db0)) = Some f
      /\ StableSortByPercentageDesc
           [mkIngredientEntry Sample.soyId (Js.ofZ 40) (Js.ofZ 40) "Primary" false;
            mkIngredientEntry Sample.cornId (Js.ofZ 60) (Js.ofZ 60) "Primary" false]
           sorted
      /\ f_mainIngredients f = Some (topFiveProjection sorted))
  /\ (exists f sorted,
         selectFormulation 100%N
           (snd (updateFormulation (Uuid 100%N)
                   (Sample.costedMix 200 Sample.soyCorn) Sample.db1)) = Some f
         /\ StableSortByPercentageDesc
              [mkIngredientEntry Sample.soyId (Js.ofZ 40) (Js.ofZ 40) "Primary" false;
               mkIngredientEntry Sample.cornId (Js.ofZ 60) (Js.ofZ 60) "Primary" false]
              sorted
         /\ f_mainIngredients f = Some (topFiveProjection sorted)).
Proof.
  split.
  - exact (proj1 (@mainIngredients_is_top_five 100%N 100%N
                    (Sample.payload 100 Sample.soyCorn) Sample.db0 _ _)
             eq_refl eq_refl).
  - exact (proj2 (@mainIngredients_is_top_five 100%N 100%N
                    (Sample.costedMix 200 Sample.soyCorn) Sample.db1 _ _)
             eq_refl eq_refl).
Defined.

(** ** Cost contributions *)

Lemma mapFrom_In_row (A B : Type) (f : A -> Z -> B) (l : list A) (x : A) :
  forall start, In x l -> exists i, In (f x i) (Js.mapFrom f start l).
Proof.
  induction l as [| y l IH]; intros start H; [contradiction |].
  destruct H as [-> | H].
  - exists start. now left.
  - destruct (IH (start + 1)%Z H) as [i Hi]. exists i. now right.
Qed.

Lemma costedRow_of_ingredientRow (id : uuid) (t : Js.number) (db : DB)
  (e : IngredientEntry) (i : Z) :
  (exists ingredient,
      selectIngredient (fi_ingredientId (ingredientRow id t db e i)) db
      = Some ingredient) ->
  costedRow db e (ingredientRow id t db e i).
Proof.
  intros [ingredient Hsel]. simpl in Hsel.
  split; [reflexivity |]. split; [reflexivity |].
  exists ingredient. split; [exact Hsel |].
  unfold ingredientRow. rewrite Hsel. reflexivity.
Qed.

Lemma storedRowOf_storedCostOf (handed stored : FormulationIngredient) :
  storedRowOf handed stored -> storedCostOf handed stored.
Proof.
  intros [H1 [H2 [H3 [_ [_ [H6 _]]]]]]. repeat split; assumption.
Qed.

Lemma Forall2_In_left (A B : Type) (R : A -> B -> Prop) (l : list A)
  (l' : list B) (x : A) :
  Forall2 R l l' -> In x l -> exists y, In y l' /\ R x y.
Proof.
  induction 1 as [| a b l l' Hab _ IH]; intros Hx; [contradiction |].
  destruct Hx as [-> | Hx].
  - exists b. split; [now left | exact Hab].
  - destruct (IH Hx) as [y [Hy Hxy]]. exists y. split; [now right | exact Hxy].
Qed.

(** The row the table holds for a row built for an entry of a mix. *)
Lemma stored_row_of_entry (id : uuid) (t : Js.number) (db : DB)
  (l : list IngredientEntry) (stored : list FormulationIngredient)
  (e : IngredientEntry) :
  storeRows (Js.mapi (ingredientRow id t db) l) = inr stored ->
  In e l ->
  exists i s,
    In (ingredientRow id t db e i) (Js.mapi (ingredientRow id t db) l)
    /\ In s stored
    /\ storedRowOf (ingredientRow id t db e i) s.
Proof.
  intros Hstored He.
  destruct (mapFrom_In_row (ingredientRow id t db) _ _ 0%Z He) as [i Hi].
  fold (Js.mapi (ingredientRow id t db) l) in Hi.
  apply storeRows_Forall2 in Hstored.
  destruct (@Forall2_In_left _ _ _ _ _ _ Hstored Hi) as [s [Hs Hrel]].
  now exists i, s.
Qed.

(** C7, as stated, fails: formulation_ingredients.ingredient_id references
    ingredients.id, so when the lookup of the unit cost finds no ingredient
    the contribution is computed as 0 but the insert of the row is refused:
    the call fails and nothing is written. *)
Lemma create_with_unknown_ingredient_fails :
  selectIngredient Sample.unknownId Sample.db0 = None
  /\ validateInput createFormulationSchema
       (Sample.payload 100 Sample.cornUnknown)
     = inr (parseData createFormulationSchema
              (Sample.payload 100 Sample.cornUnknown),
            Some [Sample.parsed Sample.cornId 60 60;
                  Sample.parsed Sample.unknownId 40 40])
  /\ success (fst (createFormulation 101%N
                     (Sample.payload 100 Sample.cornUnknown)
                     Sample.db0)) = false
  /\ snd (createFormulation 101%N (Sample.payload 100 Sample.cornUnknown)
            Sample.db0) = Sample.db0.
Proof.
  repeat split.
Qed.

(** C7, amended. After a successful createFormulation or updateFormulation
    with a mix, every entry of the mix has its row: the row handed to the
    insert (createFormulation answers these rows) carries as ingredientCost
    the stored unit cost of the referenced ingredient times the quantity of
    the entry, the referenced ingredient exists, and the table holds that
    row with the quantity and the contribution as their decimal columns
    hold them. When the lookup finds no ingredient for an entry, the
    contribution is computed with unit cost 0, and the call fails and
    writes nothing. *)
Theorem ingredientCost_is_unit_cost_times_quantity (newId u : uuid) (p : Payload)
  (db : DB) (fd : FormulationData) (l : list IngredientEntry)
  (e : IngredientEntry) :
  In e l ->
  (validateInput createFormulationSchema p = inr (fd, Some l) ->
   (success (fst (createFormulation newId p db)) = true ->
    exists f rows handed stored,
      data (fst (createFormulation newId p db)) = Some (f, rows)
      /\ In handed rows
      /\ costedRow db e handed
      /\ In stored (ingredientsOf newId (snd (createFormulation newId p db)))
      /\ storedCostOf handed stored)
   /\ (selectIngredient (e_ingredientId e) db = None ->
       success (fst (createFormulation newId p db)) = false
       /\ snd (createFormulation newId p db) = db))
  /\ (validateInput createFormulationSchema_partial p = inr (fd, Some l) ->
      (success (fst (updateFormulation (Uuid u) p db)) = true ->
       exists handed stored,
         costedRow db e handed
         /\ In stored (ingredientsOf u (snd (updateFormulation (Uuid u) p db)))
         /\ storedCostOf handed stored)
      /\ (selectIngredient (e_ingredientId e) db = None ->
          success (fst (updateFormulation (Uuid u) p db)) = false
          /\ snd (updateFormulation (Uuid u) p db) = db))
  /\ (selectIngredient (e_ingredientId e) db = None ->
      forall id t i,
        fi_ingredientCost (ingredientRow id t db e i)
        = Js.mul Js.zero (e_quantity e)).
Proof.
  intros He.
  assert (Hcreate :
            validateInput createFormulationSchema p = inr (fd, Some l) ->
            success (fst (createFormulation newId p db)) = true ->
            exists f rows handed stored,
              data (fst (createFormulation newId p db)) = Some (f, rows)
              /\ In handed rows
              /\ costedRow db e handed
              /\ In stored
                   (ingredientsOf newId (snd (createFormulation newId p db)))
              /\ storedCostOf handed stored).
  { intros Hvalid Hok. apply createFormulation_success in Hok.
    destruct Hok as [fd' [l' [f [rows [Hvalid' [_ [Htx Hdata]]]]]]].
    rewrite Hvalid in Hvalid'. inversion Hvalid'; subst fd' l'. clear Hvalid'.
    apply createTx_inv in Htx.
    destruct Htx
      as [t [stored [_ [_ [_ [_ [_ [_ [Hrows [Hstored [Hdb Hfk]]]]]]]]]]].
    assert (Hin : In e (Js.sort byPercentageDesc l)).
    { eapply Permutation_in; [apply sort_perm | exact He]. }
    rewrite Hrows in Hstored.
    destruct (@stored_row_of_entry _ _ _ _ _ _ Hstored Hin) as [i [s [Hi [Hs Hrel]]]].
    rewrite <- Hrows in Hi.
    exists f, rows, (ingredientRow newId t db e i), s.
    split; [exact Hdata |]. split; [exact Hi |]. split; [| split].
    - apply costedRow_of_ingredientRow.
      rewrite Forall_forall in Hfk. exact (Hfk _ Hi).
    - rewrite Hdb. unfold ingredientsOf. simpl. apply filter_In. split.
      + apply in_or_app. now right.
      + destruct Hrel as [Hid _]. rewrite Hid. simpl. apply N.eqb_refl.
    - now apply storedRowOf_storedCostOf. }
  assert (Hupdate :
            validateInput createFormulationSchema_partial p = inr (fd, Some l) ->
            success (fst (updateFormulation (Uuid u) p db)) = true ->
            exists handed stored,
              costedRow db e handed
              /\ In stored
                   (ingredientsOf u (snd (updateFormulation (Uuid u) p db)))
              /\ storedCostOf handed stored).
  { intros Hvalid Hok. apply updateFormulation_success in Hok.
    destruct Hok as [v [fd' [ing [f [Hid [Hvalid' [_ [_ Htx]]]]]]]].
    inversion Hid; subst v. clear Hid.
    rewrite Hvalid in Hvalid'. inversion Hvalid'; subst fd' ing. clear Hvalid'.
    apply updateTx_inv in Htx.
    destruct Htx as [g [_ [_ [_ [_ [_ [[stored [Hstored Hrows]] Hfk]]]]]]].
    destruct (@stored_row_of_entry _ _ _ _ _ _ Hstored He) as [i [s [Hi [Hs Hrel]]]].
    exists (ingredientRow u (orElse (d_totalCost fd) Js.zero) db e i), s.
    split; [| split].
    - apply costedRow_of_ingredientRow.
      rewrite Forall_forall in Hfk. exact (Hfk _ Hi).
    - now rewrite Hrows.
    - now apply storedRowOf_storedCostOf. }
  split; [| split].
  - intros Hvalid. split; [exact (Hcreate Hvalid) |].
    intros Hnone.
    destruct (success (fst (createFormulation newId p db))) eqn:Hs.
    + destruct (Hcreate Hvalid eq_refl)
        as [f [rows [r [s [_ [_ [[_ [_ [g [Hg _]]]] _]]]]]]].
      congruence.
    + split; [reflexivity | now apply createFormulation_failure].
  - intros Hvalid. split; [exact (Hupdate Hvalid) |].
    intros Hnone.
    destruct (success (fst (updateFormulation (Uuid u) p db))) eqn:Hs.
    + destruct (Hupdate Hvalid eq_refl) as [r [s [[_ [_ [g [Hg _]]]] _]]].
      congruence.
    + split; [reflexivity | now apply updateFormulation_failure].
  - intros Hnone id t i. unfold ingredientRow. now rewrite Hnone.
Qed.

(** The corn entry of scenario A in a create, the same entry in an update
    that declares a total cost of 200, and a mix with an ingredient that is
    not in the table. *)
Lemma ingredientCost_is_unit_cost_times_quantity_witness :
  (exists f rows handed stored,
      data (fst (createFormulation 100%N (Sample.payload 100 Sample.cornSoy)
                   Sample.db0)) = Some (f, rows)
      /\ In handed rows
      /\ costedRow Sample.db0 (Sample.parsed Sample.cornId 60 60) handed
      /\ In stored
           (ingredientsOf 100%N
              (snd (createFormulation 100%N (Sample.payload 100 Sample.cornSoy)
                      Sample.db0)))
      /\ storedCostOf handed stored)
  /\ (exists handed stored,
         costedRow Sample.db1 (Sample.parsed Sample.cornId 60 60) handed
         /\ In stored
              (ingredientsOf 100%N
                 (snd (updateFormulation (Uuid 100%N)
                         (Sample.costedMix 200 Sample.soyCorn) Sample.db1)))
         /\ storedCostOf handed stored)
  /\ snd (createFormulation 101%N (Sample.payload 100 Sample.cornUnknown)
            Sample.db0) = Sample.db0.
Proof.
  split; [| split].
  - refine (proj1 (proj1 (@ingredientCost_is_unit_cost_times_quantity
                            100%N 100%N (Sample.payload 100 Sample.cornSoy)
                            Sample.db0
                            (parseData createFormulationSchema
                               (Sample.payload 100 Sample.cornSoy))
                            [Sample.parsed Sample.cornId 60 60;
                             Sample.parsed Sample.soyId 40 40]
                            (Sample.parsed Sample.cornId 60 60)
                            (or_introl eq_refl))
                     eq_refl) eq_refl).
  - refine (proj1 (proj1 (proj2 (@ingredientCost_is_unit_cost_times_quantity
                                   100%N 100%N
                                   (Sample.costedMix 200 Sample.soyCorn)
                                   Sample.db1
                                   (parseData createFormulationSchema_partial
                                      (Sample.costedMix 200 Sample.soyCorn))
                                   [Sample.parsed Sample.soyId 40 40;
                                    Sample.parsed Sample.cornId 60 60]
                                   (Sample.parsed Sample.cornId 60 60)
                                   (or_intror (or_introl eq_refl))))
                     eq_refl) eq_refl).
  - refine (proj2 (proj2 (proj1 (@ingredientCost_is_unit_cost_times_quantity
                                   101%N 101%N
                                   (Sample.payload 100 Sample.cornUnknown)
                                   Sample.db0
                                   (parseData createFormulationSchema
                                      (Sample.payload 100 Sample.cornUnknown))
                                   [Sample.parsed Sample.cornId 60 60;
                                    Sample.parsed Sample.unknownId 40 40]
                                   (Sample.parsed Sample.unknownId 40 40)
                                   (or_intror (or_introl eq_refl)))
                            eq_refl) eq_refl)).
Defined.

(** ** The reader *)

Section OrderBy.

Variable A : Type.
Variable key : A -> Z.

Lemma insertAsc_perm (x : A) (l : list A) :
  Permutation (x :: l) (insertAsc key x l).
Proof.
  induction l as [| y l IH]; simpl; [reflexivity |].
  destruct (key y <? key x)%Z; [| reflexivity].
  rewrite perm_swap. now apply perm_skip.
Qed.

Lemma orderByAsc_perm (l : list A) : Permutation l (orderByAsc key l).
Proof.
  induction l as [| x l IH]; simpl; [constructor |].
  rewrite <- insertAsc_perm. now apply perm_skip.
Qed.

Lemma insertAsc_sorted (x : A) (l : list A) :
  StronglySorted (fun a b => (key a <= key b)%Z) l ->
  StronglySorted (fun a b => (key a <= key b)%Z) (insertAsc key x l).
Proof.
  induction l as [| y l IH]; intros Hs; simpl.
  - repeat constructor.
  - inversion Hs as [| ? ? Hs' Hy]; subst.
    destruct (Z.ltb_spec (key y) (key x)) as [Hlt | Hge].
    + constructor; [now apply IH |].
      eapply Permutation_Forall; [apply insertAsc_perm |].
      constructor; [lia | exact Hy].
    + constructor; [exact Hs |].
      constructor; [exact Hge |].
      eapply Forall_impl; [| exact Hy]. simpl. intros b Hb. lia.
Qed.

Lemma orderByAsc_sorted (l : list A) :
  StronglySorted (fun a b => (key a <= key b)%Z) (orderByAsc key l).
Proof.
  induction l as [| x l IH]; simpl; [constructor |].
  now apply insertAsc_sorted.
Qed.

End OrderBy.

(** C10, as stated, fails for an id that is not in uuid form: no
    formulation has it, yet the reader does not answer NotFound. The id is
    checked against idSchema before the table is read, and the error the
    check throws is answered with the generic database failure. *)
Lemma malformed_id_is_not_NotFound :
  (forall u, selectFormulation u Sample.db0 = None)
  /\ fst (getFormulationById (Malformed "42") Sample.db0)
     = mkActionResult false None (Some "Database operation failed")
         (Some "An unexpected error occurred. Please try again.") None
  /\ ~ NotFound (fst (getFormulationById (Malformed "42") Sample.db0)).
Proof.
  split; [reflexivity |]. split; [reflexivity |].
  intros [_ H]. vm_compute in H. discriminate.
Qed.

(** C10, amended. For the id of an existing formulation, getFormulationById
    returns the formulation with its formulation_ingredients rows, ordered
    by displayOrder ascending, each with the name, category, unit cost and
    unit of the ingredient it references; for an id in uuid form that no
    formulation has, it fails with NotFound; for an id that is not in uuid
    form, it fails with the generic database failure; in every case the
    database is left as it is. *)
Theorem getFormulationById_reads (id : idArg) (db : DB) :
  snd (getFormulationById id db) = db
  /\ match id with
     | Uuid u =>
         match selectFormulation u db with
         | Some f =>
             exists view,
               success (fst (getFormulationById (Uuid u) db)) = true
               /\ data (fst (getFormulationById (Uuid u) db)) = Some view
               /\ v_formulation view = f
               /\ Permutation (map iv_row (v_ingredients view))
                    (ingredientsOf u db)
               /\ StronglySorted
                    (fun a b => (fi_displayOrder (iv_row a)
                                 <= fi_displayOrder (iv_row b))%Z)
                    (v_ingredients view)
               /\ Forall (annotatedFrom db) (v_ingredients view)
         | None => NotFound (fst (getFormulationById (Uuid u) db))
         end
     | Malformed _ =>
         fst (getFormulationById id db)
         = mkActionResult false None (Some "Database operation failed")
             (Some "An unexpected error occurred. Please try again.") None
     end.
Proof.
  split; [apply getFormulationById_pure |].
  destruct id as [u | malformed]; [| reflexivity].
  unfold getFormulationById. simpl.
  destruct (selectFormulation u db) as [f |]; [| split; reflexivity].
  eexists. simpl. split; [reflexivity |]. split; [reflexivity |]. simpl.
  split; [reflexivity |].
  assert (Hperm : Permutation (map (joinIngredient db) (ingredientsOf u db))
                    (orderByAsc (fun v => fi_displayOrder (iv_row v))
                       (map (joinIngredient db) (ingredientsOf u db))))
    by apply orderByAsc_perm.
  split; [| split].
  - rewrite <- Hperm, map_map. simpl. now rewrite map_id.
  - apply orderByAsc_sorted.
  - eapply Permutation_Forall; [exact Hperm |].
    apply Forall_forall. intros v Hv. apply in_map_iff in Hv.
    destruct Hv as [r [<- _]]. repeat split.
Qed.

(** ** The percentage sum *)

(** createFormulation refuses a mix whose percentages are out of tolerance
    with the error that carries the sum, before anything is written, and
    accepts a mix only within a tenth of 100. *)
Lemma createFormulation_checks_sum (newId : uuid) (p : Payload) (db : DB)
  (fd : FormulationData) (l : list IngredientEntry) :
  validateInput createFormulationSchema p = inr (fd, Some l) ->
  (outOfTolerance (totalPercentage l) = true ->
   InvalidIngredientMix (fst (createFormulation newId p db)) (totalPercentage l)
   /\ snd (createFormulation newId p db) = db)
  /\ (success (fst (createFormulation newId p db)) = true ->
      exists q, totalPercentage l = Js.Num q /\ (Qabs (q - 100) <= 1 # 10)%Q).
Proof.
  intros Hvalid. split.
  - intros Hout. unfold createFormulation. rewrite Hvalid, Hout.
    repeat split.
  - intros Hok. apply createFormulation_success in Hok.
    destruct Hok as [fd' [l' [f [rows [Hvalid' [Htol _]]]]]].
    rewrite Hvalid in Hvalid'. inversion Hvalid'; subst fd' l'.
    apply within_tolerance; [| exact Htol].
    apply totalPercentage_finite.
    now destruct (validateInput_mix _ _ Hvalid) as [_ [Hv _]].
Qed.

(** updateFormulation refuses such a mix too and writes nothing, and accepts
    a mix only within a tenth of 100. *)
Lemma updateFormulation_checks_sum (id : idArg) (p : Payload) (db : DB)
  (fd : FormulationData) (l : list IngredientEntry) :
  validateInput createFormulationSchema_partial p = inr (fd, Some l) ->
  (outOfTolerance (totalPercentage l) = true ->
   success (fst (updateFormulation id p db)) = false
   /\ snd (updateFormulation id p db) = db)
  /\ (success (fst (updateFormulation id p db)) = true ->
      exists q, totalPercentage l = Js.Num q /\ (Qabs (q - 100) <= 1 # 10)%Q).
Proof.
  intros Hvalid.
  assert (Hin : success (fst (updateFormulation id p db)) = true ->
                outOfTolerance (totalPercentage l) = false).
  { intros Hok. apply updateFormulation_success in Hok.
    destruct Hok as [v [fd' [ing [f [_ [Hvalid' [_ [_ Htx]]]]]]]].
    rewrite Hvalid in Hvalid'. inversion Hvalid'; subst fd' ing.
    apply updateTx_inv in Htx.
    now destruct Htx as [g [_ [_ [_ [_ [Htol _]]]]]]. }
  split.
  - intros Hout.
    destruct (success (fst (updateFormulation id p db))) eqn:Hs.
    + specialize (Hin eq_refl). congruence.
    + split; [reflexivity | now apply updateFormulation_failure].
  - intros Hok. apply within_tolerance; [| now apply Hin].
    apply totalPercentage_finite.
    now destruct (validateInput_mix _ _ Hvalid) as [_ [Hv _]].
Qed.

(** C1, where the code departs from it. An update of the draft formulation
    of the sample with the mix of scenario B (sum 99) is refused and writes
    nothing, but the error thrown inside the transaction, whose message
    carries the sum, reaches handleDatabaseError, which answers with the
    generic database failure; createFormulation answers the same mix with
    the error that carries the sum 99.0. *)
Theorem update_reports_invalid_mix_as_database_failure :
  fst (updateFormulation (Uuid 100%N) (Sample.mixOnly Sample.short) Sample.db1)
  = mkActionResult false None (Some "Database operation failed")
      (Some "An unexpected error occurred. Please try again.") None
  /\ ~ InvalidIngredientMix
        (fst (updateFormulation (Uuid 100%N) (Sample.mixOnly Sample.short)
                Sample.db1))
        (Js.ofZ 99)
  /\ snd (updateFormulation (Uuid 100%N) (Sample.mixOnly Sample.short) Sample.db1)
     = Sample.db1
  /\ fst (createFormulation 101%N (Sample.payload 100 Sample.short) Sample.db1)
     = mkActionResult false None (Some "Invalid ingredient percentages")
         (Some "Ingredient percentages must sum to 100%. Current sum: 99.0%")
         None.
Proof.
  split; [reflexivity |]. split; [| split; reflexivity].
  intros [_ [H _]]. vm_compute in H. discriminate.
Qed.

(** ** The cost percentage *)


(** C2, where the code departs from it. A create that declares a total
    cost of 0, and an update whose payload has no totalCost, divide each
    contribution by zero. The row handed to the insert for an ingredient
    with a cost has an infinite cost percentage, which the column refuses,
    so that the whole call fails; the row of a free ingredient has the cost
    percentage NaN, which is stored. *)
Theorem zero_totalCost_divides_by_zero :
  map fi_costPercentage
    (Js.mapi (ingredientRow 100%N Js.zero Sample.db0)
       [Sample.parsed Sample.cornId 60 60; Sample.parsed Sample.waterId 40 40])
  = [Js.PInf; Js.NaN]
  /\ createFormulation 100%N (Sample.payload 0 Sample.cornWater) Sample.db0
     = (mkActionResult false None (Some "Database operation failed")
          (Some "An unexpected error occurred. Please try again.") None,
        Sample.db0)
  /\ success (fst (createFormulation 100%N (Sample.payload 0 Sample.waterOnly)
                     Sample.db0)) = true
  /\ map fi_costPercentage
       (ingredientsOf 100%N
          (snd (createFormulation 100%N (Sample.payload 0 Sample.waterOnly)
                  Sample.db0)))
     = [Js.NaN]
  /\ success (fst (updateFormulation (Uuid 100%N)
                     (Sample.mixOnly Sample.waterOnly) Sample.db1)) = true
  /\ map fi_costPercentage
       (ingredientsOf 100%N
          (snd (updateFormulation (Uuid 100%N)
                  (Sample.mixOnly Sample.waterOnly) Sample.db1)))
     = [Js.NaN].
Proof. repeat split. Qed.

(** ** The order of the rows *)

Lemma Forall2_nth_error_left (A B : Type) (R : A -> B -> Prop) (l : list A)
  (l' : list B) :
  Forall2 R l l' ->
  forall n x, nth_error l n = Some x ->
              exists y, nth_error l' n = Some y /\ R x y.
Proof.
  induction 1 as [| a b l l' Hab _ IH]; intros [| n] x Hx; try discriminate.
  - inversion Hx; subst. now exists b.
  - now apply IH.
Qed.

Lemma storedRowOf_storedEntry (id : uuid) (t : Js.number) (db : DB)
  (e : IngredientEntry) (i : Z) (s : FormulationIngredient) :
  storedRowOf (ingredientRow id t db e i) s -> storedEntry id i e s.
Proof.
  intros [H1 [H2 [H3 [H4 [_ [_ [_ [H8 [H9 [H10 H11]]]]]]]]]].
  repeat split; assumption.
Qed.

(** The rows updateFormulation inserts carry the position of their entry in
    the supplied mix. *)
Lemma update_rows_keep_input_position (u : uuid) (p : Payload) (db : DB)
  (fd : FormulationData) (l : list IngredientEntry) (n : nat)
  (e : IngredientEntry) :
  validateInput createFormulationSchema_partial p = inr (fd, Some l) ->
  success (fst (updateFormulation (Uuid u) p db)) = true ->
  nth_error l n = Some e ->
  exists r,
    nth_error (ingredientsOf u (snd (updateFormulation (Uuid u) p db))) n = Some r
    /\ storedEntry u (Z.of_nat n) e r.
Proof.
  intros Hvalid Hok Hn. apply updateFormulation_success in Hok.
  destruct Hok as [v [fd' [ing [f [Hid [Hvalid' [_ [_ Htx]]]]]]]].
  inversion Hid; subst v. clear Hid.
  rewrite Hvalid in Hvalid'. inversion Hvalid'; subst fd' ing. clear Hvalid'.
  apply updateTx_inv in Htx.
  destruct Htx as [g [_ [_ [_ [_ [_ [[stored [Hstored Hrows]] _]]]]]]].
  apply storeRows_Forall2 in Hstored.
  pose proof (mapFrom_nth u (orElse (d_totalCost fd) Js.zero) db _ 0%Z _ Hn)
    as Hrow.
  destruct (Forall2_nth_error_left Hstored _ Hrow) as [s [Hs Hrel]].
  exists s. rewrite Hrows. split; [exact Hs |].
  now apply storedRowOf_storedEntry in Hrel.
Qed.

(** The rows createFormulation inserts carry the position of their entry in
    the mix sorted by percentage descending. *)
Lemma create_rows_follow_sorted_position (newId : uuid) (p : Payload) (db : DB)
  (fd : FormulationData) (l : list IngredientEntry) (n : nat)
  (e : IngredientEntry) :
  validateInput createFormulationSchema p = inr (fd, Some l) ->
  success (fst (createFormulation newId p db)) = true ->
  nth_error (Js.sort byPercentageDesc l) n = Some e ->
  exists r,
    In r (ingredientsOf newId (snd (createFormulation newId p db)))
    /\ storedEntry newId (Z.of_nat n) e r.
Proof.
  intros Hvalid Hok Hn. apply createFormulation_success in Hok.
  destruct Hok as [fd' [l' [f [rows [Hvalid' [_ [Htx _]]]]]]].
  rewrite Hvalid in Hvalid'. inversion Hvalid'; subst fd' l'. clear Hvalid'.
  apply createTx_inv in Htx.
  destruct Htx
    as [t [stored [_ [_ [_ [_ [_ [_ [Hrows [Hstored [Hdb _]]]]]]]]]]].
  rewrite Hrows in Hstored. apply storeRows_Forall2 in Hstored.
  pose proof (mapFrom_nth newId t db _ 0%Z _ Hn) as Hrow.
  destruct (Forall2_nth_error_left Hstored _ Hrow) as [s [Hs Hrel]].
  exists s. split.
  - rewrite Hdb. unfold ingredientsOf. simpl. apply filter_In. split.
    + apply in_or_app. right. now apply nth_error_In in Hs.
    + destruct Hrel as [Hid _]. rewrite Hid. simpl. apply N.eqb_refl.
  - now apply storedRowOf_storedEntry in Hrel.
Qed.

(** C3, where the code departs from it. createFormulation sorts the mix in
    place for the summary before it builds the rows: with soy (40) supplied
    first and corn (60) second, the row of corn gets sequenceOrder and
    displayOrder 0 and the row of soy gets 1. updateFormulation, which sorts
    after it has built the rows, numbers the same mix as supplied (here in
    an update that declares a total cost of 200). *)
Theorem create_numbers_rows_in_sorted_order :
  map (fun r => (fi_ingredientId r, fi_sequenceOrder r, fi_displayOrder r))
    (ingredientsOf 100%N
       (snd (createFormulation 100%N (Sample.payload 100 Sample.soyCorn)
               Sample.db0)))
  = [(Sample.cornId, 0%Z, 0%Z); (Sample.soyId, 1%Z, 1%Z)]
  /\ success (fst (createFormulation 100%N (Sample.payload 100 Sample.soyCorn)
                     Sample.db0)) = true
  /\ success (fst (updateFormulation (Uuid 100%N)
                     (Sample.costedMix 200 Sample.soyCorn) Sample.db1)) = true
  /\ map (fun r => (fi_ingredientId r, fi_sequenceOrder r, fi_displayOrder r))
       (ingredientsOf 100%N
          (snd (updateFormulation (Uuid 100%N)
                  (Sample.costedMix 200 Sample.soyCorn) Sample.db1)))
     = [(Sample.soyId, 0%Z, 0%Z); (Sample.cornId, 1%Z, 1%Z)].
Proof. repeat split. Qed.

(** ** Duplication *)

(** The payload duplicateFormulation builds lacks the keys
    nutritionalAnalysis, meetsRequirements and ingredientCount, which
    createFormulationSchema requires. *)
Lemma duplicatePayload_refused (original : FormulationView) (newName : string) :
  exists error errors,
    validateInput createFormulationSchema (duplicatePayload original newName)
    = inl (error :: errors).
Proof.
  unfold validateInput.
  destruct (schemaIssues createFormulationSchema
              (duplicatePayload original newName)) as [| error errors] eqn:Hs.
  - exfalso. unfold schemaIssues in Hs.
    do 10 (apply app_eq_nil in Hs; destruct Hs as [_ Hs]).
    apply app_eq_nil in Hs. destruct Hs as [Hs _]. discriminate.
  - now exists error, errors.
Qed.

(** duplicateFormulation forces the status of the copy to draft and copies
    ingredient, quantity, percentage, role and essential flag of each row. *)
Lemma duplicatePayload_copies (original : FormulationView) (newName : string) :
  p_status (duplicatePayload original newName) = Some "draft"
  /\ p_name (duplicatePayload original newName) = Some newName
  /\ p_ingredients (duplicatePayload original newName)
     = Some (map (fun v =>
                    mkIngredientInput (Uuid (fi_ingredientId (iv_row v)))
                      (fi_quantity (iv_row v)) (fi_percentage (iv_row v))
                      (fi_ingredientRole (iv_row v))
                      (Some (fi_isEssential (iv_row v))))
               (v_ingredients original)).
Proof. repeat split. Qed.

(** No call of duplicateFormulation succeeds, and none writes. *)
Lemma duplicateFormulation_never_succeeds (newId : uuid) (id : idArg)
  (newName : string) (db : DB) :
  success (fst (duplicateFormulation newId id newName db)) = false
  /\ snd (duplicateFormulation newId id newName db) = db.
Proof.
  unfold duplicateFormulation.
  destruct (idSchema_parse id) as [e | v]; simpl.
  - split; [apply handleDatabaseError_fails | reflexivity].
  - pose proof (getFormulationById_pure (Uuid v) db) as Hpure.
    destruct (getFormulationById (Uuid v) db) as [r db1]. simpl in Hpure.
    subst db1.
    destruct (success r); [| split; reflexivity].
    destruct (data r) as [original |]; [| split; reflexivity].
    unfold createFormulation.
    destruct (duplicatePayload_refused original newName) as [error [errors H]].
    rewrite H. split; reflexivity.
Qed.

(** C9, where the code departs from it. Duplicating the active formulation
    of the sample produces no new formulation: the object handed to
    createFormulation has no nutritionalAnalysis, meetsRequirements and
    ingredientCount, so the call is answered with a validation failure that
    names these keys among its issues, and the database is left as it
    was. *)
Theorem duplicate_fails_validation :
  (exists errors,
      fst (duplicateFormulation 101%N (Uuid 100%N) "Broiler Starter (Copy)"
             Sample.db2)
      = validationFailed errors
      /\ In "nutritionalAnalysis" errors
      /\ In "meetsRequirements" errors
      /\ In "ingredientCount" errors)
  /\ success (fst (duplicateFormulation 101%N (Uuid 100%N)
                     "Broiler Starter (Copy)" Sample.db2)) = false
  /\ snd (duplicateFormulation 101%N (Uuid 100%N) "Broiler Starter (Copy)"
            Sample.db2) = Sample.db2
  /\ selectFormulation 101%N
       (snd (duplicateFormulation 101%N (Uuid 100%N) "Broiler Starter (Copy)"
               Sample.db2)) = None.
Proof.
  split; [| repeat split].
  eexists. split; [reflexivity |]. simpl. tauto.
Qed.

(** ** The divisor of the cost percentage in updateFormulation *)


Lemma same_ids_after_set (v : FormulationData) (id : uuid) (l : list Formulation) :
  map f_id (map (fun f => if N.eqb (f_id f) id then applySet v f else f) l)
  = map f_id l.
Proof.
  rewrite map_map. apply map_ext. intros f.
  now destruct (N.eqb (f_id f) id).
Qed.














(** * Further properties of the actions *)

(** ** What the schemas accept *)

Lemma key_required (A : Type) (path : string) (ok : A -> bool) (v : option A) :
  Zod.key path true ok v = [] -> exists x, v = Some x /\ ok x = true.
Proof.
  unfold Zod.key. destruct v as [x |]; [| discriminate].
  destruct (ok x) eqn:Hok; [| discriminate]. intros _. now exists x.
Qed.

Lemma parseEntries_supplied (l : list IngredientInput) :
  forall (start : Z) (es : list IngredientEntry),
    List.concat (Js.mapFrom entryIssues start l) = [] ->
    parseEntries l = Some es ->
    Forall2 suppliedAs l es
    /\ Forall (fun e => Js.gt (e_quantity e) Js.zero = true) es.
Proof.
  induction l as [| r l IH]; intros start es Hnil Hparse; simpl in *.
  - inversion Hparse. split; constructor.
  - apply app_eq_nil in Hnil. destruct Hnil as [Hr Hl].
    destruct (parseEntry r) as [e |] eqn:He; [| discriminate].
    destruct (parseEntries l) as [es' |] eqn:Hes; [| discriminate].
    inversion Hparse; subst es. clear Hparse.
    destruct (IH _ _ Hl eq_refl) as [IH2 IHq].
    unfold entryIssues in Hr.
    apply app_eq_nil in Hr. destruct Hr as [_ Hr].
    apply app_eq_nil in Hr. destruct Hr as [Hq _].
    destruct (Zod.positive (r_quantity r)) eqn:Hpos; [| discriminate].
    unfold parseEntry in He. destruct (r_ingredientId r) as [u |] eqn:Hid;
      [| discriminate].
    inversion He; subst e. clear He.
    split; constructor; trivial.
    repeat split; simpl; trivial.
Qed.

(** X1. A payload either schema accepts with a mix carries at least one
    entry; the parsed mix has the supplied entries in the supplied order,
    with the essential flag defaulting to false, and every entry has a
    positive quantity and a percentage between 0 and 100. *)
Theorem accepted_mix_is_the_supplied_mix (s : Schema) (p : Payload)
  (fd : FormulationData) (es : list IngredientEntry) :
  validateInput s p = inr (fd, Some es) ->
  exists l,
    p_ingredients p = Some l
    /\ l <> []
    /\ Forall2 suppliedAs l es
    /\ Forall (fun e => Js.gt (e_quantity e) Js.zero = true
                        /\ validPercentage e) es.
Proof.
  unfold validateInput. intros H.
  destruct (schemaIssues s p) eqn:Hs; [| discriminate].
  destruct (p_ingredients p) as [l |] eqn:Hl; [| discriminate].
  destruct (parseEntries l) as [es' |] eqn:Hes; [| discriminate].
  inversion H; subst. clear H.
  unfold schemaIssues in Hs.
  repeat (apply app_eq_nil in Hs; destruct Hs as [_ Hs]).
  rewrite Hl in Hs. simpl in Hs.
  destruct l as [| r l]; [discriminate |].
  destruct (parseEntries_supplied _ _ Hs Hes) as [H2 Hq].
  destruct (parseEntries_valid _ _ Hs Hes) as [Hv _].
  exists (r :: l). split; [reflexivity |]. split; [discriminate |].
  split; [exact H2 |].
  rewrite Forall_forall in Hq, Hv |- *. intros e He. split; auto.
Qed.

Lemma accepted_mix_is_the_supplied_mix_witness :
  exists l,
    p_ingredients (Sample.payload 100 Sample.cornSoy) = Some l
    /\ l <> []
    /\ Forall2 suppliedAs l
         [Sample.parsed Sample.cornId 60 60; Sample.parsed Sample.soyId 40 40]
    /\ Forall (fun e => Js.gt (e_quantity e) Js.zero = true
                        /\ validPercentage e)
         [Sample.parsed Sample.cornId 60 60; Sample.parsed Sample.soyId 40 40].
Proof.
  exact (@accepted_mix_is_the_supplied_mix createFormulationSchema
           (Sample.payload 100 Sample.cornSoy)
           (parseData createFormulationSchema (Sample.payload 100 Sample.cornSoy))
           [Sample.parsed Sample.cornId 60 60; Sample.parsed Sample.soyId 40 40]
           eq_refl).
Defined.

Lemma mapFrom_nth_any (A B : Type) (f : A -> Z -> B) (l : list A) :
  forall (start : Z) (n : nat) (x : A),
    nth_error l n = Some x ->
    nth_error (Js.mapFrom f start l) n = Some (f x (start + Z.of_nat n)%Z).
Proof.
  induction l as [| y l IH]; intros start n x H.
  - destruct n; discriminate.
  - destruct n as [| n]; simpl in H |- *.
    + inversion H; subst. now rewrite Z.add_0_r.
    + rewrite (IH _ _ _ H). do 2 f_equal. lia.
Qed.

Lemma schemaIssues_mix (s : Schema) (p : Payload) (path : string) :
  In path (ingredientsIssues (negb (isPartial s)) (p_ingredients p)) ->
  In path (schemaIssues s p).
Proof.
  intros H. unfold schemaIssues.
  repeat (apply in_or_app; right). exact H.
Qed.

Lemma validateInput_issue (s : Schema) (p : Payload) (path : string) :
  In path (schemaIssues s p) ->
  validateInput s p = inl (schemaIssues s p).
Proof.
  unfold validateInput. destruct (schemaIssues s p); [contradiction | reflexivity].
Qed.

(** The field path of the entry at position [n]. *)
Lemma entry_issue_listed (l : list IngredientInput) (n : nat)
  (r : IngredientInput) (path : string) :
  nth_error l n = Some r ->
  In path (entryIssues r (Z.of_nat n)) ->
  forall required, In path (ingredientsIssues required (Some l)).
Proof.
  intros Hn Hin required. unfold ingredientsIssues.
  destruct l as [| r0 l0] eqn:Hl; [destruct n; discriminate |].
  rewrite <- Hl in *. apply in_concat.
  exists (entryIssues r (Z.of_nat n)). split; [| exact Hin].
  unfold Js.mapi. eapply nth_error_In.
  rewrite (mapFrom_nth_any entryIssues _ 0 _ Hn). reflexivity.
Qed.

(** X2. Both schemas refuse a payload whose mix is empty, or has an entry
    with a quantity that is not positive, a percentage outside 0 to 100 or
    an ingredient id that is not a uuid; the issues name the mix, or the
    field of the entry by its position. createFormulation then answers with
    the validation failure and these issues, and writes nothing. *)
Theorem invalid_mix_is_refused (s : Schema) (p : Payload)
  (l : list IngredientInput) (newId : uuid) (db : DB) :
  p_ingredients p = Some l ->
  (l = [] -> In "ingredients" (schemaIssues s p))
  /\ (forall n r,
         nth_error l n = Some r ->
         (Zod.positive (r_quantity r) = false ->
          In ("ingredients." ++ Js.printN (N.of_nat n) ++ ".quantity")
            (schemaIssues s p))
         /\ (Zod.between 0 100 (r_percentage r) = false ->
             In ("ingredients." ++ Js.printN (N.of_nat n) ++ ".percentage")
               (schemaIssues s p))
         /\ (Zod.isUuid (r_ingredientId r) = false ->
             In ("ingredients." ++ Js.printN (N.of_nat n) ++ ".ingredientId")
               (schemaIssues s p)))
  /\ (forall path,
         In path (schemaIssues s p) ->
         validateInput s p = inl (schemaIssues s p)
         /\ (s = createFormulationSchema ->
             createFormulation newId p db
             = (validationFailed (schemaIssues s p), db))).
Proof.
  intros Hl. split; [| split].
  - intros ->. apply schemaIssues_mix. rewrite Hl. simpl.
    destruct (negb (isPartial s)); now left.
  - intros n r Hn.
    assert (Hpath : forall path,
               In path (entryIssues r (Z.of_nat n)) -> In path (schemaIssues s p)).
    { intros path Hin. apply schemaIssues_mix. rewrite Hl.
      now apply entry_issue_listed with (n := n) (r := r). }
    assert (Hidx : Z.to_N (Z.of_nat n) = N.of_nat n) by lia.
    split; [| split]; intros Hbad; apply Hpath; unfold entryIssues;
      rewrite Hidx, Hbad.
    + apply in_or_app. right. apply in_or_app. left. now left.
    + apply in_or_app. right. apply in_or_app. right. now left.
    + apply in_or_app. left. now left.
  - intros path Hin. split; [now apply validateInput_issue with (path := path) |].
    intros ->. unfold createFormulation.
    now rewrite (validateInput_issue _ _ _ Hin).
Qed.

Lemma invalid_mix_is_refused_witness :
  In "ingredients.1.quantity"
    (schemaIssues createFormulationSchema
       (Sample.payload 100 [Sample.entry Sample.cornId 60 60;
                            Sample.entry Sample.soyId 0 40]))
  /\ createFormulation 100%N
       (Sample.payload 100 [Sample.entry Sample.cornId 60 60;
                            Sample.entry Sample.soyId 0 40]) Sample.db0
     = (validationFailed ["ingredients.1.quantity"], Sample.db0).
Proof.
  pose proof (@invalid_mix_is_refused createFormulationSchema
                (Sample.payload 100 [Sample.entry Sample.cornId 60 60;
                                     Sample.entry Sample.soyId 0 40])
                [Sample.entry Sample.cornId 60 60; Sample.entry Sample.soyId 0 40]
                100%N Sample.db0 eq_refl) as [_ [Hentry Hcall]].
  pose proof (proj1 (Hentry 1%nat (Sample.entry Sample.soyId 0 40) eq_refl)
                eq_refl) as Hin.
  split; [exact Hin |].
  exact (proj2 (Hcall _ Hin) eq_refl).
Defined.

(** ** The outcomes of createFormulation *)

Lemma rowOfValues_fields (newId : uuid) (v : FormulationData) (f : Formulation) :
  rowOfValues newId v = Some f ->
  d_name v = Some (f_name f)
  /\ d_animalId v = Some (f_animalId f)
  /\ d_productionStageId v = Some (f_productionStageId f)
  /\ d_nutritionalAnalysis v = Some (f_nutritionalAnalysis f)
  /\ d_meetsRequirements v = Some (f_meetsRequirements f)
  /\ d_ingredientCount v = Some (f_ingredientCount f)
  /\ f_description f = d_description v.
Proof.
  unfold rowOfValues, bindOpt. intros H.
  repeat match type of H with
         | match ?x with _ => _ end = _ => destruct x; [| discriminate]
         end.
  inversion H; subst. simpl. repeat split.
Qed.

(** What createFormulationSchema accepts has every key the insert needs. *)
Lemma accepted_create_is_complete (p : Payload) (fd : FormulationData)
  (ing : option (list IngredientEntry)) :
  validateInput createFormulationSchema p = inr (fd, ing) ->
  (exists l, ing = Some l /\ l <> [])
  /\ exists name formulationType animalId productionStageId formulationQuantity
            optimizationObjective totalCost costPerUnit createdBy,
      d_name fd = Some name
      /\ d_formulationType fd = Some formulationType
      /\ d_animalId fd = Some animalId
      /\ d_productionStageId fd = Some productionStageId
      /\ d_formulationQuantity fd = Some formulationQuantity
      /\ d_optimizationObjective fd = Some optimizationObjective
      /\ d_totalCost fd = Some totalCost
      /\ d_costPerUnit fd = Some costPerUnit
      /\ d_createdBy fd = Some createdBy.
Proof.
  unfold validateInput. intros H.
  destruct (schemaIssues createFormulationSchema p) eqn:Hs; [| discriminate].
  unfold schemaIssues in Hs. simpl negb in Hs.
  apply app_eq_nil in Hs. destruct Hs as [Hname Hs].
  apply app_eq_nil in Hs. destruct Hs as [_ Hs].
  apply app_eq_nil in Hs. destruct Hs as [Htype Hs].
  apply app_eq_nil in Hs. destruct Hs as [_ Hs].
  apply app_eq_nil in Hs. destruct Hs as [Hanimal Hs].
  apply app_eq_nil in Hs. destruct Hs as [Hstage Hs].
  apply app_eq_nil in Hs. destruct Hs as [Hquantity Hs].
  apply app_eq_nil in Hs. destruct Hs as [Hobjective Hs].
  apply app_eq_nil in Hs. destruct Hs as [Htotal Hs].
  apply app_eq_nil in Hs. destruct Hs as [Hcost Hs].
  apply app_eq_nil in Hs. destruct Hs as [_ Hs].
  apply app_eq_nil in Hs. destruct Hs as [_ Hs].
  apply app_eq_nil in Hs. destruct Hs as [_ Hs].
  apply app_eq_nil in Hs. destruct Hs as [_ Hs].
  apply app_eq_nil in Hs. destruct Hs as [Hby Hmix].
  apply key_required in Hname, Htype, Hanimal, Hstage, Hquantity, Hobjective,
    Htotal, Hcost, Hby.
  destruct Hname as [name [Hname _]]. destruct Htype as [type [Htype _]].
  destruct Hanimal as [[a | sa] [Hanimal Ha]]; [| discriminate].
  destruct Hstage as [[st | ss] [Hstage Hst]]; [| discriminate].
  destruct Hquantity as [quantity [Hquantity _]].
  destruct Hobjective as [objective [Hobjective _]].
  destruct Htotal as [total [Htotal _]]. destruct Hcost as [cost [Hcost _]].
  destruct Hby as [createdBy [Hby _]].
  destruct (p_ingredients p) as [l |] eqn:Hl; [| discriminate].
  destruct (parseEntries l) as [es |] eqn:Hes; [| discriminate].
  inversion H; subst fd ing. clear H.
  split.
  - exists es. split; [reflexivity |].
    destruct l as [| r l]; [discriminate Hmix |].
    simpl in Hes. destruct (parseEntry r), (parseEntries l); try discriminate.
    inversion Hes. discriminate.
  - exists name, type, a, st, quantity, objective, total, cost, createdBy.
    simpl. rewrite Hanimal, Hstage. repeat split; assumption.
Qed.

Lemma forallb_perm (A : Type) (Q : A -> bool) (l l' : list A) :
  Permutation l l' -> forallb Q l = forallb Q l'.
Proof.
  induction 1; simpl; try congruence.
  - now destruct (Q x), (Q y).
Qed.

Lemma insertFormulation_references (newId : uuid) (v : FormulationData)
  (db db' : DB) (f : Formulation) :
  insertFormulation newId v db = inr (f, db') ->
  isSome (selectAnimal (f_animalId f) db) = true
  /\ isSome (selectProductionStage (f_productionStageId f) db) = true.
Proof.
  unfold insertFormulation. intros H.
  destruct (storeData v) as [e | stored]; [discriminate |].
  destruct (rowOfValues newId stored) as [row |]; [| discriminate].
  destruct (isSome (selectFormulation newId db)); [discriminate |].
  destruct (isSome (selectAnimal (f_animalId row) db)
            && isSome (selectProductionStage (f_productionStageId row) db))
    eqn:Href; [| discriminate].
  inversion H; subst. now apply andb_prop in Href.
Qed.

Lemma createTx_row (newId : uuid) (fd : FormulationData)
  (l : list IngredientEntry) (db db' : DB) (f : Formulation)
  (rows : list FormulationIngredient) :
  createTx newId fd l db = inr ((f, rows), db') ->
  f_name f = orElse (d_name fd) (f_name f)
  /\ d_name fd = Some (f_name f)
  /\ f_nutritionalAnalysis f = "{}"
  /\ f_meetsRequirements f = false
  /\ f_ingredientCount f = Z.of_nat (List.length l)
  /\ f_description f = d_description fd
  /\ referencesExist fd db = true.
Proof.
  unfold createTx, bind. intros H.
  destruct (insertFormulation newId _ db) as [e | [f0 db1]] eqn:Hins;
    [discriminate |].
  pose proof (insertFormulation_references _ _ _ Hins) as [Hanimal Hstage].
  apply insertFormulation_inv in Hins.
  destruct Hins as [values [Hvalues [Hrow _]]].
  apply storeData_heldAs in Hvalues.
  destruct Hvalues
    as [Hn [Hd [_ [_ [Ha [Hs [_ [_ [_ [_ [Hna [Hme [Hic _]]]]]]]]]]]]].
  simpl in Hn, Hd, Ha, Hs, Hna, Hme, Hic.
  destruct (d_totalCost fd) as [t |]; [| discriminate].
  unfold query in H.
  destruct (insertFormulationIngredients _ db1) as [e | [[] db2]];
    [discriminate |].
  unfold ret in H. inversion H; subst f0. clear H.
  apply rowOfValues_fields in Hrow.
  destruct Hrow as [Hname [Hfa [Hfs [Hfna [Hmeets [Hcount Hdesc]]]]]].
  rewrite Hn in Hname. rewrite Ha in Hfa. rewrite Hs in Hfs.
  rewrite Hna in Hfna. rewrite Hme in Hmeets. rewrite Hic in Hcount.
  rewrite Hd in Hdesc. rewrite Hname. simpl.
  inversion Hfna. inversion Hmeets. inversion Hcount.
  repeat split; trivial.
  unfold referencesExist. rewrite Hfa, Hfs, Hanimal, Hstage. reflexivity.
Qed.

(** The ingredients of a mix whose rows were inserted exist. *)
Lemma createTx_ingredientsExist (newId : uuid) (fd : FormulationData)
  (l : list IngredientEntry) (db db' : DB) (f : Formulation)
  (rows : list FormulationIngredient) :
  createTx newId fd l db = inr ((f, rows), db') ->
  ingredientsExist l db = true.
Proof.
  intros Htx. apply createTx_inv in Htx.
  destruct Htx as [t [stored [_ [_ [_ [_ [_ [_ [Hrows [_ [_ Hfk]]]]]]]]]]].
  unfold ingredientsExist.
  rewrite (forallb_perm _ (sort_perm byPercentageDesc l)).
  apply forallb_forall. intros e He.
  destruct (mapFrom_In_row (ingredientRow newId t db) _ _ 0%Z He) as [i Hi].
  fold (Js.mapi (ingredientRow newId t db) (Js.sort byPercentageDesc l)) in Hi.
  rewrite <- Hrows in Hi. rewrite Forall_forall in Hfk.
  destruct (Hfk _ Hi) as [ingredient Hsel]. simpl in Hsel.
  now rewrite Hsel.
Qed.

(** The sum of percentages that are integers is their sum as an integer. *)
Lemma sum_of_integers (l : list IngredientEntry) :
  Forall (fun e => exists z, e_percentage e = Js.ofZ z) l ->
  forall a za,
    (a == inject_Z za)%Q ->
    exists q n,
      fold_left (fun sum ing => Js.add sum (e_percentage ing)) l (Js.Num a)
      = Js.Num q
      /\ (q == inject_Z n)%Q.
Proof.
  induction 1 as [| e l [z Hz] _ IH]; intros a za Ha; simpl.
  - now exists a, za.
  - rewrite Hz. unfold Js.add, Js.ofZ, Js.fin.
    apply (IH _ (za + z)%Z).
    rewrite Qred_correct, Ha, inject_Z_plus. reflexivity.
Qed.

(** Integer percentages that do not sum to 100 are out of tolerance. *)
Lemma integers_out_of_tolerance (l : list IngredientEntry) :
  Forall (fun e => exists z, e_percentage e = Js.ofZ z) l ->
  ~ Js.same (totalPercentage l) (Js.ofZ 100) ->
  outOfTolerance (totalPercentage l) = true.
Proof.
  intros Hint Hne.
  destruct (@sum_of_integers l Hint 0%Q 0%Z (Qeq_refl _)) as [q [n [Hq Hn]]].
  assert (Hq' : totalPercentage l = Js.Num q) by exact Hq.
  rewrite Hq' in Hne |- *.
  apply out_of_tolerance.
  assert (Hn100 : n <> 100%Z).
  { intros ->. apply Hne. unfold Js.same, Js.sameb. now apply Qeq_bool_iff. }
  assert (Hdiff : (q - 100 == inject_Z (n - 100))%Q).
  { rewrite Hn. unfold Zminus. rewrite inject_Z_plus, inject_Z_opp.
    reflexivity. }
  rewrite Hdiff.
  change (Qabs (inject_Z (n - 100))) with (inject_Z (Z.abs (n - 100))).
  apply Qlt_le_trans with (y := inject_Z 1); [reflexivity |].
  rewrite <- Zle_Qle. lia.
Qed.

(** X3. What createFormulation answers. When the schema refuses the payload,
    the validation failure with the issues of the schema, and the database
    as it was; a payload the schema accepts carries a mix. For an accepted
    payload: when the percentages are integers that do not sum to 100, the
    error that carries the sum, and the database as it was; the call
    succeeds only if no formulation has the id drawn for the new one, the
    animal and the production stage of the payload exist and every
    ingredient of the mix exists; and a call that does not succeed leaves
    the database as it was. *)
Theorem createFormulation_outcome (newId : uuid) (p : Payload) (db : DB) :
  match validateInput createFormulationSchema p with
  | inl errors => createFormulation newId p db = (validationFailed errors, db)
  | inr (fd, None) => False
  | inr (fd, Some l) =>
      (Forall (fun e => exists z, e_percentage e = Js.ofZ z) l ->
       ~ Js.same (totalPercentage l) (Js.ofZ 100) ->
       createFormulation newId p db
       = (createErrorResponse "Invalid ingredient percentages"
            (Some (sumMessage (totalPercentage l))), db))
      /\ (success (fst (createFormulation newId p db)) = true ->
          selectFormulation newId db = None
          /\ referencesExist fd db = true
          /\ ingredientsExist l db = true)
      /\ (success (fst (createFormulation newId p db)) = false ->
          snd (createFormulation newId p db) = db)
  end.
Proof.
  destruct (validateInput createFormulationSchema p) as [errors | [fd ing]] eqn:Hv.
  - unfold createFormulation. now rewrite Hv.
  - destruct (accepted_create_is_complete _ Hv) as [[l [-> _]] _].
    split; [| split].
    + intros Hint Hne. unfold createFormulation. rewrite Hv.
      now rewrite (integers_out_of_tolerance Hint Hne).
    + intros Hok. apply createFormulation_success in Hok.
      destruct Hok as [fd' [l' [f [rows [Hv' [_ [Htx _]]]]]]].
      rewrite Hv in Hv'. inversion Hv'; subst fd' l'. clear Hv'.
      pose proof (createTx_row _ _ _ _ Htx) as [_ [_ [_ [_ [_ [_ Href]]]]]].
      pose proof (createTx_ingredientsExist _ _ _ _ Htx) as Hing.
      apply createTx_inv in Htx. destruct Htx as [t [stored [Hfresh _]]].
      now repeat split.
    + apply createFormulation_failure.
Qed.

(** Scenario B, whose percentages sum to 99, and scenario A. *)
Lemma createFormulation_outcome_witness :
  createFormulation 100%N (Sample.payload 100 Sample.short) Sample.db0
  = (createErrorResponse "Invalid ingredient percentages"
       (Some "Ingredient percentages must sum to 100%. Current sum: 99.0%"),
     Sample.db0)
  /\ ingredientsExist
       [Sample.parsed Sample.cornId 60 60; Sample.parsed Sample.soyId 40 40]
       Sample.db0 = true.
Proof.
  split.
  - refine (proj1 (@createFormulation_outcome 100%N
                     (Sample.payload 100 Sample.short) Sample.db0) _ _).
    + repeat constructor; eexists; reflexivity.
    + intros H. vm_compute in H. discriminate.
  - exact (proj2 (proj2 (proj1 (proj2
             (@createFormulation_outcome 100%N
                (Sample.payload 100 Sample.cornSoy) Sample.db0)) eq_refl))).
Defined.

(** X4. A successful createFormulation appends one formulation, under the
    id drawn for it, which no formulation had, and one ingredient row per
    entry of the mix, and touches nothing else. The answer carries the
    stored formulation and the rows handed to the insert; the table holds
    these rows with each decimal as its column holds it. The stored
    ingredientCount is the number of entries, nutritionalAnalysis is the
    empty object and meetsRequirements is false whatever the payload carried
    for these keys; the status is the one of the payload, draft when it has
    none; the name is the one of the payload, and the total cost is the one
    of the payload as its column holds it. *)
Theorem createFormulation_stores (newId : uuid) (p : Payload) (db : DB) :
  success (fst (createFormulation newId p db)) = true ->
  exists f rows stored raw t,
    data (fst (createFormulation newId p db)) = Some (f, rows)
    /\ p_ingredients p = Some raw
    /\ selectFormulation newId db = None
    /\ snd (createFormulation newId p db)
       = mkDB (animals db) (productionStages db) (ingredients db)
           (formulations db ++ [f]) (formulationIngredients db ++ stored)
    /\ Forall2 storedRowOf rows stored
    /\ selectFormulation newId (snd (createFormulation newId p db)) = Some f
    /\ f_id f = newId
    /\ List.length rows = List.length raw
    /\ f_ingredientCount f = Z.of_nat (List.length raw)
    /\ f_nutritionalAnalysis f = "{}"
    /\ f_meetsRequirements f = false
    /\ f_status f = orElse (p_status p) "draft"
    /\ p_name p = Some (f_name f)
    /\ p_totalCost p = Some t
    /\ heldAs 12 2 t (f_totalCost f).
Proof.
  intros Hok. apply createFormulation_success in Hok.
  destruct Hok as [fd [l [f [rows [Hvalid [_ [Htx Hdata]]]]]]].
  pose proof (createTx_row _ _ _ _ Htx)
    as [_ [Hname [Hna [Hmeets [Hcount _]]]]].
  apply createTx_inv in Htx.
  destruct Htx
    as [t [stored [Hfresh [Hid [_ [Hstatus [Htotal [Hheld [Hrows
         [Hstored [Hdb _]]]]]]]]]]].
  destruct (validateInput_mix _ _ Hvalid) as [Hfd [_ [_ [raw [Hraw Hparse]]]]].
  assert (Hlen : List.length l = List.length raw).
  { clear - Hparse. revert l Hparse.
    induction raw as [| r raw IH]; intros l Hparse; simpl in Hparse.
    - now inversion Hparse.
    - destruct (parseEntry r), (parseEntries raw) as [es |]; try discriminate.
      inversion Hparse; subst l. simpl. f_equal. now apply IH. }
  exists f, rows, stored, raw, t. split; [exact Hdata |]. split; [exact Hraw |].
  split; [exact Hfresh |]. split; [exact Hdb |].
  split; [now apply storeRows_Forall2 |].
  split.
  { rewrite Hdb. unfold selectFormulation in *. simpl.
    rewrite (find_none_app _ _ _ Hfresh). simpl. now rewrite Hid, N.eqb_refl. }
  split; [exact Hid |].
  split.
  { rewrite Hrows, <- Hlen. unfold Js.mapi.
    now rewrite mapFrom_length, sort_length. }
  split; [now rewrite <- Hlen |]. split; [exact Hna |]. split; [exact Hmeets |].
  subst fd. simpl in *. split; [| split; [| split]]; try assumption.
  rewrite Hstatus. now destruct (p_status p).
Qed.

(** Scenario A. *)
Lemma createFormulation_stores_witness :
  exists f rows stored raw t,
    data (fst (createFormulation 100%N (Sample.payload 100 Sample.cornSoy)
                 Sample.db0)) = Some (f, rows)
    /\ p_ingredients (Sample.payload 100 Sample.cornSoy) = Some raw
    /\ selectFormulation 100%N Sample.db0 = None
    /\ snd (createFormulation 100%N (Sample.payload 100 Sample.cornSoy) Sample.db0)
       = mkDB (animals Sample.db0) (productionStages Sample.db0)
           (ingredients Sample.db0) (formulations Sample.db0 ++ [f])
           (formulationIngredients Sample.db0 ++ stored)
    /\ Forall2 storedRowOf rows stored
    /\ selectFormulation 100%N
         (snd (createFormulation 100%N (Sample.payload 100 Sample.cornSoy)
                 Sample.db0)) = Some f
    /\ f_id f = 100%N
    /\ List.length rows = List.length raw
    /\ f_ingredientCount f = Z.of_nat (List.length raw)
    /\ f_nutritionalAnalysis f = "{}"
    /\ f_meetsRequirements f = false
    /\ f_status f = orElse (p_status (Sample.payload 100 Sample.cornSoy)) "draft"
    /\ p_name (Sample.payload 100 Sample.cornSoy) = Some (f_name f)
    /\ p_totalCost (Sample.payload 100 Sample.cornSoy) = Some t
    /\ heldAs 12 2 t (f_totalCost f).
Proof.
  exact (@createFormulation_stores 100%N (Sample.payload 100 Sample.cornSoy)
           Sample.db0 eq_refl).
Defined.

(** ** The declared constraints are kept *)

Lemma select_found_iff (u : uuid) (l : list Formulation) :
  isSome (find (fun f => N.eqb (f_id f) u) l) = true <-> In u (map f_id l).
Proof.
  induction l as [| f l IH]; simpl.
  - split; [discriminate | contradiction].
  - destruct (N.eqb_spec (f_id f) u) as [Heq | Hne]; simpl.
    + split; [now left | reflexivity].
    + rewrite IH. split; [now right | intros [H | H]; [contradiction | exact H]].
Qed.

Lemma NoDup_snoc (u : uuid) (ids : list uuid) :
  NoDup ids -> ~ In u ids -> NoDup (ids ++ [u]).
Proof.
  induction ids as [| x ids IH]; intros Hnd Hnin; simpl.
  - constructor; [intros [] | constructor].
  - inversion Hnd as [| ? ? Hx Hnd']; subst. constructor.
    + intros Hin. apply in_app_or in Hin. destruct Hin as [Hin | [-> | []]].
      * contradiction.
      * apply Hnin. now left.
    + apply IH; [exact Hnd' |]. intros Hin. apply Hnin. now right.
Qed.

Lemma NoDup_ids_filter (keep : Formulation -> bool) (l : list Formulation) :
  NoDup (map f_id l) -> NoDup (map f_id (filter keep l)).
Proof.
  induction l as [| f l IH]; simpl; intros Hnd; [constructor |].
  inversion Hnd as [| ? ? Hf Hnd']; subst.
  destruct (keep f); simpl; [| now apply IH].
  constructor; [| now apply IH].
  intros Hin. apply Hf. apply in_map_iff in Hin.
  destruct Hin as [g [Hg Hin]]. apply filter_In in Hin.
  apply in_map_iff. exists g. split; [exact Hg | now destruct Hin].
Qed.

Lemma Forall_kept (A : Type) (P : A -> Prop) (keep : A -> bool) (l : list A) :
  Forall P l -> Forall P (filter keep l).
Proof.
  rewrite !Forall_forall. intros H x Hx. apply filter_In in Hx.
  apply H. now destruct Hx.
Qed.

Lemma ids_after_delete (u id : uuid) (l : list Formulation) :
  u <> id ->
  In u (map f_id l) ->
  In u (map f_id (filter (fun f => negb (N.eqb (f_id f) id)) l)).
Proof.
  intros Hne Hin. apply in_map_iff in Hin. destruct Hin as [f [Hf Hin]].
  apply in_map_iff. exists f. split; [exact Hf |].
  apply filter_In. split; [exact Hin |].
  destruct (N.eqb_spec (f_id f) id); [congruence | reflexivity].
Qed.

Lemma keeps_ret (A : Type) (a : A) : keepsWellFormed (ret a).
Proof. intros db b db' Hwf H. inversion H; subst. exact Hwf. Qed.

Lemma keeps_query (A : Type) (q : DB -> A) : keepsWellFormed (query q).
Proof. intros db b db' Hwf H. inversion H; subst. exact Hwf. Qed.

Lemma keeps_throw (A : Type) (e : exn) : keepsWellFormed (@throw A e).
Proof. intros db b db' Hwf H. discriminate. Qed.

Lemma keeps_bind (A B : Type) (m : Tx A) (k : A -> Tx B) :
  keepsWellFormed m -> (forall a, keepsWellFormed (k a)) ->
  keepsWellFormed (bind m k).
Proof.
  intros Hm Hk db b db' Hwf H. unfold bind in H.
  destruct (m db) as [e | [a db1]] eqn:Hrun; [discriminate |].
  exact (Hk a db1 b db' (Hm db a db1 Hwf Hrun) H).
Qed.

Lemma keeps_insertFormulation (newId : uuid) (v : FormulationData) :
  keepsWellFormed (insertFormulation newId v).
Proof.
  intros db f db' [Hnd [Hrefs Hrows]] H. unfold insertFormulation in H.
  destruct (storeData v) as [e | values]; [discriminate |].
  destruct (rowOfValues newId values) as [row |] eqn:Hrow; [| discriminate].
  destruct (isSome (selectFormulation newId db)) eqn:Htaken; [discriminate |].
  destruct (isSome (selectAnimal (f_animalId row) db)
            && isSome (selectProductionStage (f_productionStageId row) db))
    eqn:Href; [| discriminate].
  inversion H; subst f db'. clear H.
  apply andb_prop in Href. apply rowOfValues_inv in Hrow.
  destruct Hrow as [Hid _].
  split; [| split]; simpl.
  - rewrite map_app. simpl. rewrite Hid. apply NoDup_snoc; [exact Hnd |].
    intros Hin. apply select_found_iff in Hin.
    unfold selectFormulation in Htaken. congruence.
  - apply Forall_app. split; [exact Hrefs |]. constructor; [exact Href | constructor].
  - eapply Forall_impl; [| exact Hrows]. simpl. intros r [Hf Hi].
    split; [| exact Hi]. unfold selectFormulation in *. simpl.
    apply select_found_iff. rewrite map_app. apply in_or_app. left.
    now apply select_found_iff.
Qed.

Lemma keeps_updateFormulations (v : FormulationData) (id : uuid) :
  keepsWellFormed (updateFormulations v id).
Proof.
  intros db updated db' [Hnd [Hrefs Hrows]] H. unfold updateFormulations in H.
  destruct (storeData v) as [e | values]; [discriminate |].
  destruct (existsb (fun f => N.eqb (f_id f) id) (formulations db)
            && negb (referencesExist values db)) eqn:Hfk; [discriminate |].
  inversion H; subst updated db'. clear H.
  split; [| split]; simpl.
  - now rewrite same_ids_after_set.
  - rewrite Forall_forall in Hrefs |- *. intros g Hg.
    apply in_map_iff in Hg. destruct Hg as [f [<- Hf]].
    specialize (Hrefs f Hf). destruct Hrefs as [Ha Hs].
    destruct (N.eqb (f_id f) id) eqn:Hhit; [| now split].
    assert (Hex : existsb (fun f => N.eqb (f_id f) id) (formulations db) = true).
    { apply existsb_exists. now exists f. }
    rewrite Hex in Hfk. simpl in Hfk. apply negb_false_iff in Hfk.
    unfold referencesExist in Hfk. apply andb_prop in Hfk.
    destruct Hfk as [Hva Hvs]. simpl.
    destruct (d_animalId values), (d_productionStageId values); simpl;
      now split.
  - eapply Forall_impl; [| exact Hrows]. simpl. intros r [Hf Hi].
    split; [| exact Hi]. unfold selectFormulation in *. simpl.
    apply select_found_iff. rewrite same_ids_after_set.
    now apply select_found_iff.
Qed.

Lemma keeps_deleteFormulationIngredients (id : uuid) :
  keepsWellFormed (deleteFormulationIngredients id).
Proof.
  intros db [] db' [Hnd [Hrefs Hrows]] H. inversion H; subst db'. clear H.
  split; [exact Hnd |]. split; [exact Hrefs |]. simpl.
  now apply Forall_kept.
Qed.

Lemma keeps_insertFormulationIngredients (rows : list FormulationIngredient) :
  keepsWellFormed (insertFormulationIngredients rows).
Proof.
  intros db [] db' [Hnd [Hrefs Hrows]] H. unfold insertFormulationIngredients in H.
  destruct rows as [| r rows]; [discriminate |].
  destruct (storeRows (r :: rows)) as [e | stored]; [discriminate |].
  destruct (forallb _ stored) eqn:Hfk; [| discriminate].
  inversion H; subst db'. clear H.
  split; [exact Hnd |]. split; [exact Hrefs |]. simpl.
  apply Forall_app. split; [exact Hrows |].
  rewrite forallb_forall in Hfk. apply Forall_forall. intros x Hx.
  specialize (Hfk x Hx). apply andb_prop in Hfk. exact Hfk.
Qed.

Lemma keeps_deleteFormulations (id : uuid) :
  keepsWellFormed (deleteFormulations id).
Proof.
  intros db [] db' [Hnd [Hrefs Hrows]] H. inversion H; subst db'. clear H.
  split; [| split]; simpl.
  - now apply NoDup_ids_filter.
  - now apply Forall_kept.
  - rewrite Forall_forall in Hrows |- *. intros r Hr.
    apply filter_In in Hr. destruct Hr as [Hr Hkeep].
    destruct (Hrows r Hr) as [Hf Hi]. split; [| exact Hi].
    unfold selectFormulation in *. simpl.
    apply select_found_iff. apply ids_after_delete.
    + intros Heq. rewrite Heq, N.eqb_refl in Hkeep. discriminate.
    + now apply select_found_iff.
Qed.

Lemma keeps_createTx (newId : uuid) (fd : FormulationData)
  (l : list IngredientEntry) :
  keepsWellFormed (createTx newId fd l).
Proof.
  unfold createTx. apply keeps_bind; [apply keeps_insertFormulation |].
  intros f. destruct (d_totalCost fd); [| apply keeps_throw].
  apply keeps_bind; [apply keeps_query |]. intros rows.
  apply keeps_bind; [apply keeps_insertFormulationIngredients |].
  intros _. apply keeps_ret.
Qed.

Lemma keeps_updateTx (u : uuid) (fd : FormulationData)
  (ing : option (list IngredientEntry)) :
  keepsWellFormed (updateTx u fd ing).
Proof.
  unfold updateTx. apply keeps_bind.
  - destruct (hasKeys fd); [| apply keeps_ret].
    apply keeps_bind; [apply keeps_updateFormulations |].
    intros _. apply keeps_ret.
  - intros _. destruct ing as [l |]; [| apply keeps_ret].
    destruct (outOfTolerance (totalPercentage l)); [apply keeps_throw |].
    apply keeps_bind; [apply keeps_deleteFormulationIngredients |]. intros _.
    apply keeps_bind; [apply keeps_query |]. intros rows.
    apply keeps_bind; [apply keeps_insertFormulationIngredients |]. intros _.
    apply keeps_bind; [apply keeps_updateFormulations |]. intros _.
    apply keeps_ret.
Qed.

Lemma keeps_createFormulation (newId : uuid) (p : Payload) (db : DB) :
  wellFormed db -> wellFormed (snd (createFormulation newId p db)).
Proof.
  intros Hwf. unfold createFormulation, transaction.
  destruct (validateInput createFormulationSchema p) as [errors | [fd [l |]]];
    try exact Hwf.
  destruct (outOfTolerance (totalPercentage l)); [exact Hwf |].
  destruct (createTx newId fd l db) as [e | [result db']] eqn:Htx;
    [exact Hwf |].
  exact (@keeps_createTx newId fd l db result db' Hwf Htx).
Qed.

(** X5. Every action of the module keeps the constraints the tables
    declare: formulation ids stay distinct, every formulation keeps an
    existing animal and production stage, and every ingredient row keeps an
    existing formulation and an existing ingredient; in particular a delete
    leaves no row of the deleted formulation behind, and an update that
    replaces the mix leaves no row without its ingredient. *)
Theorem actions_keep_wellFormed (a : Action) (db : DB) :
  wellFormed db -> wellFormed (run a db).
Proof.
  intros Hwf. destruct a as [id | newId p | id p | id | id b | newId id n]; simpl.
  - now rewrite getFormulationById_pure.
  - now apply keeps_createFormulation.
  - unfold updateFormulation, transaction.
    destruct (idSchema_parse id) as [e | u]; [exact Hwf |].
    destruct (validateInput createFormulationSchema_partial p)
      as [errors | [fd ing]]; [exact Hwf |].
    destruct (selectFormulation u db) as [f |]; [| exact Hwf].
    destruct (String.eqb (f_status f) "active"); [exact Hwf |].
    destruct (updateTx u fd ing db) as [e | [[] db']] eqn:Htx; [exact Hwf |].
    rewrite getFormulationById_pure.
    exact (@keeps_updateTx u fd ing db tt db' Hwf Htx).
  - unfold deleteFormulation.
    destruct (idSchema_parse id) as [e | u]; [exact Hwf |].
    destruct (selectFormulation u db) as [f |]; [| exact Hwf].
    destruct (String.eqb (f_status f) "active"); [exact Hwf |].
    destruct (deleteFormulations u db) as [e | [[] db']] eqn:Hdel; [exact Hwf |].
    exact (@keeps_deleteFormulations u db tt db' Hwf Hdel).
  - unfold toggleFormulationStatus.
    destruct (idSchema_parse id) as [e | u]; [exact Hwf |].
    destruct (updateFormulations _ u db) as [e | [updated db']] eqn:Hupd;
      [exact Hwf |].
    pose proof (@keeps_updateFormulations _ u db updated db' Hwf Hupd) as Hwf'.
    destruct updated; exact Hwf'.
  - unfold duplicateFormulation.
    destruct (idSchema_parse id) as [e | u]; [exact Hwf |].
    pose proof (getFormulationById_pure (Uuid u) db) as Hpure.
    destruct (getFormulationById (Uuid u) db) as [r db1]. simpl in Hpure.
    subst db1.
    destruct (success r); [| exact Hwf].
    destruct (data r) as [original |]; [| exact Hwf].
    now apply keeps_createFormulation.
Qed.

Lemma sample_db0_wellFormed : wellFormed Sample.db0.
Proof. repeat split; constructor. Qed.

Lemma actions_keep_wellFormed_witness :
  wellFormed (run (Create 100%N (Sample.payload 100 Sample.cornSoy)) Sample.db0).
Proof.
  exact (@actions_keep_wellFormed
           (Create 100%N (Sample.payload 100 Sample.cornSoy)) Sample.db0
           sample_db0_wellFormed).
Defined.

(** ** Reading back what was created *)

Lemma orderByAsc_of_sorted (A : Type) (key : A -> Z) (l : list A) :
  StronglySorted (fun a b => (key a <= key b)%Z) l -> orderByAsc key l = l.
Proof.
  induction 1 as [| x l Hs IH Hx]; [reflexivity |].
  simpl. fold (orderByAsc key l). rewrite IH.
  destruct l as [| y l]; [reflexivity |]. simpl.
  inversion Hx as [| ? ? Hxy _]; subst.
  destruct (Z.ltb_spec (key y) (key x)); [lia | reflexivity].
Qed.

Lemma StronglySorted_mapFrom (A B : Type) (R : A -> A -> Prop)
  (R' : B -> B -> Prop) (f : A -> Z -> B) (l : list A) :
  (forall a b i j, R a b -> R' (f a i) (f b j)) ->
  StronglySorted R l ->
  forall start, StronglySorted R' (Js.mapFrom f start l).
Proof.
  intros Hf. induction 1 as [| x l Hs IH Hx]; intros start; simpl;
    constructor; [apply IH |].
  apply Forall_forall. intros y Hy. apply mapFrom_In in Hy.
  destruct Hy as [b [j [Hb ->]]]. apply Hf.
  rewrite Forall_forall in Hx. now apply Hx.
Qed.

Lemma rows_in_display_order (id : uuid) (t : Js.number) (db db' : DB)
  (l : list IngredientEntry) :
  forall start,
    Forall (fun r => (start <= fi_displayOrder r)%Z)
      (Js.mapFrom (ingredientRow id t db) start l)
    /\ StronglySorted
         (fun a b => (fi_displayOrder (iv_row a) <= fi_displayOrder (iv_row b))%Z)
         (map (joinIngredient db') (Js.mapFrom (ingredientRow id t db) start l)).
Proof.
  induction l as [| x l IH]; intros start; simpl.
  - split; constructor.
  - destruct (IH (start + 1)%Z) as [Hlow Hsorted]. split.
    + constructor; [simpl; lia |].
      eapply Forall_impl; [| exact Hlow]. simpl. intros r Hr. lia.
    + constructor; [exact Hsorted |].
      apply Forall_forall. intros v Hv. apply in_map_iff in Hv.
      destruct Hv as [r [<- Hr]]. rewrite Forall_forall in Hlow.
      specialize (Hlow r Hr). simpl in *. lia.
Qed.

Lemma no_rows_of_unknown (u : uuid) (db : DB) :
  wellFormed db -> selectFormulation u db = None -> ingredientsOf u db = [].
Proof.
  intros [_ [_ Hrows]] Hnone. unfold ingredientsOf.
  induction (formulationIngredients db) as [| r rows IH]; [reflexivity |].
  inversion Hrows as [| ? ? [Hf _] Hrows']; subst. simpl.
  destruct (N.eqb_spec (fi_formulationId r) u) as [Heq | _]; [| now apply IH].
  rewrite Heq, Hnone in Hf. discriminate.
Qed.

Lemma sorted_by_key (A B : Type) (ka : A -> Z) (kb : B -> Z) (l : list A) :
  forall l' : list B,
    map ka l = map kb l' ->
    StronglySorted (fun a b => (ka a <= ka b)%Z) l ->
    StronglySorted (fun a b => (kb a <= kb b)%Z) l'.
Proof.
  induction l as [| x l IH]; intros [| y l'] Hmap Hs; try discriminate;
    [constructor |].
  inversion Hmap as [[Hxy Hrest]]. inversion Hs as [| ? ? Hs' Hx]; subst.
  constructor; [now apply IH |].
  apply Forall_forall. intros b Hb.
  assert (Hin : In (kb b) (map ka l)).
  { rewrite Hrest. now apply in_map. }
  apply in_map_iff in Hin. destruct Hin as [a [Ha Hin]].
  rewrite Forall_forall in Hx. specialize (Hx a Hin). lia.
Qed.

Lemma stored_displayOrder (rows stored : list FormulationIngredient) :
  Forall2 storedRowOf rows stored ->
  map fi_displayOrder rows = map fi_displayOrder stored.
Proof.
  induction 1 as [| r s rows stored Hrs _ IH]; simpl; [reflexivity |].
  destruct Hrs as [_ [_ [_ [_ [_ [_ [_ [_ [_ [_ Hd]]]]]]]]]].
  now rewrite IH, Hd.
Qed.

Lemma Forall2_length_eq (A B : Type) (R : A -> B -> Prop) (l : list A)
  (l' : list B) :
  Forall2 R l l' -> List.length l = List.length l'.
Proof. induction 1; simpl; congruence. Qed.

(** X6. In a database that satisfies the declared constraints, reading a
    formulation right after its successful creation returns the formulation
    the creation answered with and, for each row the creation answered
    with, the row the table holds for it, each decimal as its column holds
    it, in the same order, which is the order of descending percentage; the
    stored ingredientCount is the number of rows read. *)
Theorem create_then_read (newId : uuid) (p : Payload) (db : DB) :
  wellFormed db ->
  success (fst (createFormulation newId p db)) = true ->
  exists f rows view,
    data (fst (createFormulation newId p db)) = Some (f, rows)
    /\ success (fst (getFormulationById (Uuid newId)
                       (snd (createFormulation newId p db)))) = true
    /\ data (fst (getFormulationById (Uuid newId)
                    (snd (createFormulation newId p db)))) = Some view
    /\ v_formulation view = f
    /\ Forall2 storedRowOf rows (map iv_row (v_ingredients view))
    /\ StronglySorted
         (fun a b => Js.ge (fi_percentage a) (fi_percentage b) = true) rows
    /\ f_ingredientCount f = Z.of_nat (List.length (v_ingredients view)).
Proof.
  intros Hwf Hok. apply createFormulation_success in Hok.
  destruct Hok as [fd [l [f [rows [Hvalid [_ [Htx Hdata]]]]]]].
  pose proof (createTx_row _ _ _ _ Htx) as [_ [_ [_ [_ [Hcount _]]]]].
  apply createTx_inv in Htx.
  destruct Htx
    as [t [stored [Hfresh [Hid [_ [_ [_ [_ [Hrows [Hstored [Hdb _]]]]]]]]]]].
  destruct (validateInput_mix _ _ Hvalid) as [_ [Hv _]].
  assert (Hf : selectFormulation newId (snd (createFormulation newId p db))
               = Some f).
  { rewrite Hdb. unfold selectFormulation in *. simpl.
    rewrite (find_none_app _ _ _ Hfresh). simpl. now rewrite Hid, N.eqb_refl. }
  assert (Hmine : ingredientsOf newId (snd (createFormulation newId p db))
                  = stored).
  { rewrite Hdb. unfold ingredientsOf. simpl. rewrite filter_app.
    fold (ingredientsOf newId db). rewrite (@no_rows_of_unknown newId db Hwf Hfresh).
    rewrite Hrows in Hstored. unfold Js.mapi in Hstored.
    rewrite (@stored_rows_of_formulation _ newId _ _ _ _ _ Hstored).
    now rewrite N.eqb_refl. }
  pose proof (storeRows_Forall2 _ Hstored) as Hheld.
  unfold getFormulationById. simpl. rewrite Hf. simpl.
  eexists f, rows, _. split; [exact Hdata |]. split; [reflexivity |].
  split; [reflexivity |]. simpl. rewrite Hmine.
  assert (Hsame : orderByAsc (fun v => fi_displayOrder (iv_row v))
                    (map (joinIngredient (snd (createFormulation newId p db)))
                       stored)
                  = map (joinIngredient (snd (createFormulation newId p db)))
                      stored).
  { apply orderByAsc_of_sorted.
    apply sorted_by_key
      with (ka := fun v => fi_displayOrder (iv_row v))
           (l := map (joinIngredient db) rows).
    - rewrite !map_map. simpl. now apply stored_displayOrder.
    - rewrite Hrows. unfold Js.mapi. apply rows_in_display_order. }
  rewrite Hsame. split; [reflexivity |].
  split; [rewrite map_map; simpl; rewrite map_id; exact Hheld |].
  split.
  - rewrite Hrows. unfold Js.mapi.
    apply StronglySorted_mapFrom with (R := descending);
      [| now apply sort_descending].
    intros a b i j Hab. exact Hab.
  - rewrite length_map, <- (Forall2_length_eq Hheld), Hrows. unfold Js.mapi.
    now rewrite mapFrom_length, sort_length.
Qed.

(** Scenario A with soy written first. *)
Lemma create_then_read_witness :
  exists f rows view,
    data (fst (createFormulation 100%N (Sample.payload 100 Sample.soyCorn)
                 Sample.db0)) = Some (f, rows)
    /\ success (fst (getFormulationById (Uuid 100%N)
                       (snd (createFormulation 100%N
                               (Sample.payload 100 Sample.soyCorn) Sample.db0))))
       = true
    /\ data (fst (getFormulationById (Uuid 100%N)
                    (snd (createFormulation 100%N
                            (Sample.payload 100 Sample.soyCorn) Sample.db0))))
       = Some view
    /\ v_formulation view = f
    /\ Forall2 storedRowOf rows (map iv_row (v_ingredients view))
    /\ StronglySorted
         (fun a b => Js.ge (fi_percentage a) (fi_percentage b) = true) rows
    /\ f_ingredientCount f = Z.of_nat (List.length (v_ingredients view)).
Proof.
  exact (@create_then_read 100%N (Sample.payload 100 Sample.soyCorn) Sample.db0
           sample_db0_wellFormed eq_refl).
Defined.

(** ** deleteFormulation and toggleFormulationStatus *)

Lemma select_after_delete (u : uuid) (l : list Formulation) :
  find (fun f => N.eqb (f_id f) u)
    (filter (fun f => negb (N.eqb (f_id f) u)) l) = None.
Proof.
  induction l as [| f l IH]; simpl; [reflexivity |].
  destruct (N.eqb (f_id f) u) eqn:E; simpl; [exact IH |]. now rewrite E.
Qed.

(** X7. What deleteFormulation does with an id in uuid form: NotFound when
    no formulation has it and the InvalidState error when the formulation is
    active, the database being left as it was; otherwise it succeeds with a
    message that names the formulation, after which the formulation is not
    found any more (reading it gives NotFound), none of its ingredient rows
    remains, and every other formulation, its rows and the other tables are
    as before. (The self-reference parentFormulationId is not represented:
    no formulation is the parent of another.) *)
Theorem deleteFormulation_outcome (u : uuid) (db : DB) :
  match selectFormulation u db with
  | None =>
      NotFound (fst (deleteFormulation (Uuid u) db))
      /\ snd (deleteFormulation (Uuid u) db) = db
  | Some f =>
      if String.eqb (f_status f) "active" then
        InvalidState (fst (deleteFormulation (Uuid u) db))
        /\ snd (deleteFormulation (Uuid u) db) = db
      else
        fst (deleteFormulation (Uuid u) db)
        = createSuccessResponse None
            (Some ("Formulation " ++ quote ++ f_name f ++ quote
                     ++ " deleted successfully"))
        /\ selectFormulation u (snd (deleteFormulation (Uuid u) db)) = None
        /\ ingredientsOf u (snd (deleteFormulation (Uuid u) db)) = []
        /\ NotFound (fst (getFormulationById (Uuid u)
                            (snd (deleteFormulation (Uuid u) db))))
        /\ (forall v, v <> u ->
                      unchanged v db (snd (deleteFormulation (Uuid u) db)))
        /\ animals (snd (deleteFormulation (Uuid u) db)) = animals db
        /\ productionStages (snd (deleteFormulation (Uuid u) db))
           = productionStages db
        /\ ingredients (snd (deleteFormulation (Uuid u) db)) = ingredients db
  end.
Proof.
  destruct (selectFormulation u db) as [f |] eqn:Hf.
  - destruct (String.eqb (f_status f) "active") eqn:Hactive.
    + unfold deleteFormulation. simpl. rewrite Hf, Hactive. simpl.
      split; [| reflexivity]. split; [reflexivity | now right].
    + assert (Hgone : selectFormulation u (snd (deleteFormulation (Uuid u) db))
                      = None).
      { unfold deleteFormulation. simpl. rewrite Hf, Hactive. simpl.
        apply select_after_delete. }
      split; [unfold deleteFormulation; simpl; now rewrite Hf, Hactive |].
      split; [exact Hgone |].
      split.
      { unfold deleteFormulation. simpl. rewrite Hf, Hactive. simpl.
        apply filter_removed. }
      split.
      { unfold getFormulationById. simpl. rewrite Hgone. split; reflexivity. }
      split.
      { intros v Hne. apply deleteFormulation_unchanged. congruence. }
      unfold deleteFormulation. simpl. rewrite Hf, Hactive. simpl.
      repeat split.
  - unfold deleteFormulation. simpl. rewrite Hf. simpl.
    split; [split |]; reflexivity.
Qed.

Lemma unchanged_rows (u : uuid) (g : Formulation -> Formulation)
  (l : list Formulation) :
  (forall f, In f l -> N.eqb (f_id f) u = false) ->
  map (fun f => if N.eqb (f_id f) u then g f else f) l = l.
Proof.
  intros H. induction l as [| f l IH]; simpl; [reflexivity |].
  rewrite (H f (or_introl eq_refl)). f_equal. apply IH.
  intros f' Hf'. apply H. now right.
Qed.

Lemma first_updated (u : uuid) (g : Formulation -> Formulation)
  (l : list Formulation) (f : Formulation) :
  (forall f, f_id (g f) = f_id f) ->
  find (fun f => N.eqb (f_id f) u) l = Some f ->
  exists rest,
    filter (fun f => N.eqb (f_id f) u)
      (map (fun f => if N.eqb (f_id f) u then g f else f) l)
    = g f :: rest.
Proof.
  intros Hg. induction l as [| h l IH]; simpl; [discriminate |].
  destruct (N.eqb (f_id h) u) eqn:Hh.
  - intros Hfind. inversion Hfind; subst h. simpl. rewrite Hg, Hh.
    eexists. reflexivity.
  - intros Hfind. simpl. rewrite Hh. now apply IH.
Qed.

(** The update of the status writes no decimal and no reference. *)
Lemma updateFormulations_statusData (status : string) (u : uuid) (db : DB) :
  updateFormulations (statusData status) u db
  = inr (filter (fun f => N.eqb (f_id f) u)
           (map (fun f => if N.eqb (f_id f) u
                          then applySet (statusData status) f else f)
              (formulations db)),
         withFormulations db
           (map (fun f => if N.eqb (f_id f) u
                          then applySet (statusData status) f else f)
              (formulations db))).
Proof.
  unfold updateFormulations.
  change (storeData (statusData status)) with (@inr exn _ (statusData status)).
  cbv beta iota.
  change (referencesExist (statusData status) db) with true.
  now rewrite andb_false_r.
Qed.

(** X8. What toggleFormulationStatus does with an id in uuid form: NotFound
    and an unchanged database when no formulation has it; otherwise it
    succeeds and answers with the stored formulation, whose status is now
    active or draft as asked, whatever it was before (an archived or
    template formulation that is deactivated becomes a draft), every other
    column being as before; no ingredient row and no other formulation
    changes. *)
Theorem toggleFormulationStatus_outcome (u : uuid) (activate : bool) (db : DB) :
  match selectFormulation u db with
  | None =>
      NotFound (fst (toggleFormulationStatus (Uuid u) activate db))
      /\ snd (toggleFormulationStatus (Uuid u) activate db) = db
  | Some f =>
      let stored :=
        mkFormulation (f_id f) (f_name f) (f_description f)
          (f_formulationType f) (if activate then "active" else "draft")
          (f_animalId f) (f_productionStageId f) (f_formulationQuantity f)
          (f_optimizationObjective f) (f_totalCost f) (f_costPerUnit f)
          (f_nutritionalAnalysis f) (f_meetsRequirements f)
          (f_ingredientCount f) (f_mainIngredients f) (f_createdBy f) in
      success (fst (toggleFormulationStatus (Uuid u) activate db)) = true
      /\ data (fst (toggleFormulationStatus (Uuid u) activate db)) = Some stored
      /\ selectFormulation u (snd (toggleFormulationStatus (Uuid u) activate db))
         = Some stored
      /\ formulationIngredients
           (snd (toggleFormulationStatus (Uuid u) activate db))
         = formulationIngredients db
      /\ forall v, v <> u ->
                   unchanged v db
                     (snd (toggleFormulationStatus (Uuid u) activate db))
  end.
Proof.
  assert (Hg : forall s f, f_id (applySet (statusData s) f) = f_id f)
    by reflexivity.
  destruct (selectFormulation u db) as [f |] eqn:Hf.
  - assert (Hother : forall v, v <> u ->
                unchanged v db
                  (snd (toggleFormulationStatus (Uuid u) activate db))).
    { intros v Hne. apply toggleFormulationStatus_unchanged. congruence. }
    unfold toggleFormulationStatus in *. cbn [idSchema_parse] in *.
    rewrite updateFormulations_statusData in *.
    destruct (first_updated u
                (applySet (statusData (if activate then "active" else "draft")))
                (formulations db)
                (Hg (if activate then "active" else "draft")) Hf)
      as [rest Hfirst].
    rewrite Hfirst in *. simpl.
    split; [reflexivity |]. split; [reflexivity |].
    split; [| split; [reflexivity | exact Hother]].
    unfold selectFormulation in *. simpl.
    rewrite find_id_map
      by (intros h; now destruct (N.eqb (f_id h) u)).
    rewrite Hf. simpl. apply find_some in Hf. destruct Hf as [_ Hid].
    now rewrite Hid.
  - unfold toggleFormulationStatus. cbn [idSchema_parse].
    rewrite updateFormulations_statusData.
    assert (Hnone : forall h, In h (formulations db) -> N.eqb (f_id h) u = false).
    { intros h Hh. unfold selectFormulation in Hf.
      exact (find_none _ _ Hf h Hh). }
    rewrite (unchanged_rows u _ _ Hnone).
    assert (Hempty : filter (fun f => N.eqb (f_id f) u) (formulations db) = []).
    { clear - Hnone. induction (formulations db) as [| h l IH]; [reflexivity |].
      simpl. rewrite (Hnone h (or_introl eq_refl)). apply IH.
      intros h' Hh'. apply Hnone. now right. }
    rewrite Hempty. simpl. split; [split; reflexivity |].
    now destruct db.
Qed.

Lemma toggle_database (u : uuid) (activate : bool) (db : DB) :
  snd (toggleFormulationStatus (Uuid u) activate db)
  = withFormulations db
      (map (fun f =>
              if N.eqb (f_id f) u
              then applySet (statusData (if activate then "active" else "draft")) f
              else f)
         (formulations db)).
Proof.
  unfold toggleFormulationStatus. cbn [idSchema_parse].
  rewrite updateFormulations_statusData. now destruct (filter _ _).
Qed.

Lemma only_row_of_id (u : uuid) (l : list Formulation) (f : Formulation) :
  NoDup (map f_id l) ->
  find (fun f => N.eqb (f_id f) u) l = Some f ->
  forall g, In g l -> f_id g = u -> g = f.
Proof.
  induction l as [| h l IH]; simpl; intros Hnd Hfind g Hg Hid; [contradiction |].
  inversion Hnd as [| ? ? Hh Hnd']; subst.
  destruct (N.eqb_spec (f_id h) (f_id g)) as [Heq | Hne].
  - inversion Hfind; subst h. destruct Hg as [Hg | Hg]; [now symmetry |].
    exfalso. apply Hh. rewrite Heq. now apply in_map.
  - destruct Hg as [Hg | Hg]; [congruence |]. now apply IH.
Qed.

(** X9. Activating a formulation and deactivating it again. Once a
    formulation is activated, an update of it whose payload the schema
    accepts is refused with the InvalidState error and writes nothing; when
    the formulation was a draft, in a database that satisfies the declared
    constraints, deactivating it gives back the database as it was before
    the activation, so that the same update is then answered as it would
    have been before. *)
Theorem activate_then_deactivate (u : uuid) (db : DB) (f : Formulation) :
  wellFormed db ->
  selectFormulation u db = Some f ->
  f_status f = "draft" ->
  (forall p accepted,
      validateInput createFormulationSchema_partial p = inr accepted ->
      InvalidState
        (fst (updateFormulation (Uuid u) p (run (ToggleStatus (Uuid u) true) db)))
      /\ snd (updateFormulation (Uuid u) p (run (ToggleStatus (Uuid u) true) db))
         = run (ToggleStatus (Uuid u) true) db)
  /\ run (ToggleStatus (Uuid u) false) (run (ToggleStatus (Uuid u) true) db) = db
  /\ forall p,
      updateFormulation (Uuid u) p
        (run (ToggleStatus (Uuid u) false) (run (ToggleStatus (Uuid u) true) db))
      = updateFormulation (Uuid u) p db.
Proof.
  intros [Hnd _] Hf Hdraft.
  assert (Hback : run (ToggleStatus (Uuid u) false)
                    (run (ToggleStatus (Uuid u) true) db) = db).
  { simpl. rewrite !toggle_database. unfold withFormulations. simpl.
    rewrite map_map.
    assert (Hsame : map (fun h =>
                           if N.eqb
                                (f_id (if N.eqb (f_id h) u
                                       then applySet (statusData "active") h
                                       else h)) u
                           then applySet (statusData "draft")
                                  (if N.eqb (f_id h) u
                                   then applySet (statusData "active") h
                                   else h)
                           else if N.eqb (f_id h) u
                                then applySet (statusData "active") h
                                else h)
                      (formulations db) = formulations db).
    { rewrite <- (map_id (formulations db)) at 2. apply map_ext_in.
      intros h Hh. destruct (N.eqb_spec (f_id h) u) as [Hid | Hid]; simpl.
      - rewrite Hid, N.eqb_refl.
        assert (h = f) by now apply (@only_row_of_id u (formulations db)).
        subst h. destruct f. simpl in Hdraft. subst. reflexivity.
      - destruct (N.eqb_spec (f_id h) u); [contradiction | reflexivity]. }
    rewrite Hsame. now destruct db. }
  split; [| split; [exact Hback | intros p; now rewrite Hback]].
  intros p [fd ing] Hvalid. simpl. rewrite toggle_database.
  unfold updateFormulation. simpl. rewrite Hvalid.
  unfold selectFormulation in *. simpl.
  rewrite find_id_map by (intros h; now destruct (N.eqb (f_id h) u)).
  rewrite Hf. simpl. apply find_some in Hf. destruct Hf as [_ Hid].
  rewrite Hid. simpl. split; [| reflexivity].
  split; [reflexivity | now left].
Qed.

Lemma sample_db1_wellFormed : wellFormed Sample.db1.
Proof.
  exact (@keeps_createFormulation 100%N (Sample.payload 100 Sample.cornSoy)
           Sample.db0 sample_db0_wellFormed).
Qed.

Lemma activate_then_deactivate_witness :
  InvalidState
    (fst (updateFormulation (Uuid 100%N) (Sample.mixOnly Sample.soyCorn)
            (run (ToggleStatus (Uuid 100%N) true) Sample.db1)))
  /\ run (ToggleStatus (Uuid 100%N) false)
       (run (ToggleStatus (Uuid 100%N) true) Sample.db1) = Sample.db1.
Proof.
  destruct (@activate_then_deactivate 100%N Sample.db1 _ sample_db1_wellFormed
              eq_refl eq_refl) as [Hrefused [Hback _]].
  split; [| exact Hback].
  exact (proj1 (Hrefused (Sample.mixOnly Sample.soyCorn) _ eq_refl)).
Defined.

(** ** The outcomes of updateFormulation *)

Lemma bind_run (A B : Type) (m : Tx A) (k : A -> Tx B) (db : DB) :
  bind m k db = match m db with
                | inl e => inl e
                | inr (a, db') => k a db'
                end.
Proof. reflexivity. Qed.

Lemma references_without_keys (fd : FormulationData) (db : DB) :
  hasKeys fd = false -> referencesExist fd db = true.
Proof.
  unfold hasKeys, referencesExist. intros H.
  destruct (d_animalId fd), (d_productionStageId fd); simpl in H;
    rewrite ?orb_true_r in H; try discriminate; try reflexivity.
Qed.

Lemma applySet_without_keys (fd : FormulationData) (f : Formulation) :
  hasKeys fd = false -> applySet fd f = f.
Proof.
  unfold hasKeys. intros H.
  repeat (apply orb_false_elim in H; destruct H as [H ?]).
  destruct fd as [name description type status animal stage quantity objective
                    total cost analysis meets count main createdBy].
  simpl in *.
  destruct name; [discriminate |]. destruct description; [discriminate |].
  destruct type; [discriminate |]. destruct status; [discriminate |].
  destruct animal; [discriminate |]. destruct stage; [discriminate |].
  destruct quantity; [discriminate |]. destruct objective; [discriminate |].
  destruct total; [discriminate |]. destruct cost; [discriminate |].
  destruct analysis; [discriminate |]. destruct meets; [discriminate |].
  destruct count; [discriminate |]. destruct main; [discriminate |].
  destruct createdBy; [discriminate |].
  now destruct f.
Qed.

Lemma dataHeldAs_without_keys (fd : FormulationData) :
  hasKeys fd = false -> dataHeldAs fd fd.
Proof.
  unfold hasKeys. intros H.
  repeat (apply orb_false_elim in H; destruct H as [H ?]).
  unfold dataHeldAs.
  destruct (d_formulationQuantity fd); [discriminate |].
  destruct (d_totalCost fd); [discriminate |].
  destruct (d_costPerUnit fd); [discriminate |].
  repeat split.
Qed.

(** The values an update of a formulation wrote, as the columns hold them. *)
Lemma written_values (fd : FormulationData) (g : Formulation -> Formulation) :
  (if hasKeys fd
   then exists stored, storeData fd = inr stored /\ g = applySet stored
   else g = fun f => f) ->
  exists held, dataHeldAs fd held /\ forall f, g f = applySet held f.
Proof.
  destruct (hasKeys fd) eqn:Hkeys.
  - intros [stored [Hstored ->]]. exists stored.
    split; [now apply storeData_heldAs | reflexivity].
  - intros ->. exists fd. split; [now apply dataHeldAs_without_keys |].
    intros f. symmetry. now apply applySet_without_keys.
Qed.

Lemma updateFormulations_references (v : FormulationData) (u : uuid)
  (db db' : DB) (updated : list Formulation) (f : Formulation) :
  updateFormulations v u db = inr (updated, db') ->
  selectFormulation u db = Some f ->
  referencesExist v db = true.
Proof.
  unfold updateFormulations. intros H Hf.
  destruct (storeData v) as [e | stored] eqn:Hstored; [discriminate |].
  apply storeData_heldAs in Hstored.
  rewrite <- (dataHeldAs_referencesExist db Hstored).
  assert (Hhit : existsb (fun g => N.eqb (f_id g) u) (formulations db) = true).
  { apply existsb_exists. exists f. unfold selectFormulation in Hf.
    now apply find_some in Hf. }
  rewrite Hhit in H. simpl in H.
  now destruct (referencesExist stored db).
Qed.

(** The references of an update that went through exist. *)
Lemma updateTx_references (u : uuid) (fd : FormulationData)
  (ing : option (list IngredientEntry)) (db db' : DB) (f : Formulation) :
  updateTx u fd ing db = inr (tt, db') ->
  selectFormulation u db = Some f ->
  referencesExist fd db = true
  /\ match ing with
     | None => True
     | Some l => ingredientsExist l db = true
     end.
Proof.
  intros Htx Hf. split.
  - unfold updateTx in Htx. rewrite bind_run in Htx.
    destruct (hasKeys fd) eqn:Hkeys;
      [| now apply references_without_keys].
    rewrite bind_run in Htx.
    destruct (updateFormulations fd u db) as [e | [updated db1]] eqn:Hupd;
      [discriminate |].
    exact (@updateFormulations_references _ _ _ _ _ _ Hupd Hf).
  - apply updateTx_inv in Htx.
    destruct Htx as [g [_ [_ [_ [_ Hmix]]]]].
    destruct ing as [l |]; [| exact I].
    destruct Hmix as [_ [_ Hfk]].
    unfold ingredientsExist. apply forallb_forall. intros e He.
    destruct (mapFrom_In_row
                (ingredientRow u (orElse (d_totalCost fd) Js.zero) db)
                _ _ 0%Z He) as [i Hi].
    rewrite Forall_forall in Hfk.
    destruct (Hfk _ Hi) as [ingredient Hsel]. simpl in Hsel.
    now rewrite Hsel.
Qed.

(** X10. updateFormulation succeeds only if the partial schema accepts the
    payload, the formulation exists and is not active, the animal and the
    production stage the payload names exist, and, when the payload carries
    a mix, the mix has an entry and all its ingredients exist. *)
Theorem updateFormulation_succeeds_only_if (u : uuid) (p : Payload) (db : DB) :
  success (fst (updateFormulation (Uuid u) p db)) = true ->
  exists fd ing f,
    validateInput createFormulationSchema_partial p = inr (fd, ing)
    /\ selectFormulation u db = Some f
    /\ f_status f <> "active"
    /\ referencesExist fd db = true
    /\ match ing with
       | None => True
       | Some l => l <> [] /\ ingredientsExist l db = true
       end.
Proof.
  intros Hok. apply updateFormulation_success in Hok.
  destruct Hok as [v [fd [ing [f [Hid [Hvalid [Hf [Hstatus Htx]]]]]]]].
  inversion Hid; subst v. clear Hid.
  exists fd, ing, f. repeat (split; [assumption |]).
  destruct (@updateTx_references _ _ _ _ _ _ Htx Hf) as [Href Hmix].
  split; [exact Href |].
  destruct ing as [l |]; [| exact I].
  split; [| exact Hmix].
  now destruct (validateInput_mix _ _ Hvalid) as [_ [_ [Hne _]]].
Qed.

(** An update of the draft formulation of the sample that declares a total
    cost of 200 and carries the mix of scenario A with soy first. *)
Lemma updateFormulation_succeeds_only_if_witness :
  exists fd ing f,
    validateInput createFormulationSchema_partial
      (Sample.costedMix 200 Sample.soyCorn) = inr (fd, ing)
    /\ selectFormulation 100%N Sample.db1 = Some f
    /\ f_status f <> "active"
    /\ referencesExist fd Sample.db1 = true
    /\ match ing with
       | None => True
       | Some l => l <> [] /\ ingredientsExist l Sample.db1 = true
       end.
Proof.
  exact (@updateFormulation_succeeds_only_if 100%N
           (Sample.costedMix 200 Sample.soyCorn) Sample.db1 eq_refl).
Defined.

(** X11. What a successful updateFormulation leaves and answers. The stored
    formulation is the one before the call with the keys of the payload
    written over its columns, each decimal as its column holds it; when the
    payload carries a mix, ingredientCount and mainIngredients are then
    written from the mix, the rows of the formulation are the rows of the
    mix, and the answer lists them in the supplied order: the row at each
    position is the row of the entry supplied at that position, with its
    ingredient, role and essential flag, its quantity and percentage as
    their columns hold them, and the position as sequenceOrder and
    displayOrder; when the payload carries no mix, no ingredient row
    changes. The answer carries the stored formulation; no other
    formulation changes. *)
Theorem updateFormulation_result (u : uuid) (p : Payload) (db : DB) :
  success (fst (updateFormulation (Uuid u) p db)) = true ->
  exists fd ing f view held,
    validateInput createFormulationSchema_partial p = inr (fd, ing)
    /\ selectFormulation u db = Some f
    /\ data (fst (updateFormulation (Uuid u) p db)) = Some view
    /\ selectFormulation u (snd (updateFormulation (Uuid u) p db))
       = Some (v_formulation view)
    /\ dataHeldAs fd held
    /\ match ing with
       | None =>
           v_formulation view = applySet held f
           /\ formulationIngredients (snd (updateFormulation (Uuid u) p db))
              = formulationIngredients db
       | Some l =>
           v_formulation view
           = applySet
               (summaryData (Z.of_nat (List.length l))
                  (topFive (Js.sort byPercentageDesc l)))
               (applySet held f)
           /\ map iv_row (v_ingredients view)
              = ingredientsOf u (snd (updateFormulation (Uuid u) p db))
           /\ List.length (v_ingredients view) = List.length l
           /\ forall n e,
               nth_error l n = Some e ->
               exists r,
                 nth_error (map iv_row (v_ingredients view)) n = Some r
                 /\ storedEntry u (Z.of_nat n) e r
       end
    /\ forall v, v <> u -> unchanged v db (snd (updateFormulation (Uuid u) p db)).
Proof.
  intros Hok.
  assert (Hother : forall v, v <> u ->
              unchanged v db (snd (updateFormulation (Uuid u) p db))).
  { intros v Hne. apply updateFormulation_unchanged. congruence. }
  pose proof Hok as Hsucc. apply updateFormulation_success in Hsucc.
  destruct Hsucc as [v [fd [ing [f [Hid [Hvalid [Hf [Hstatus _]]]]]]]].
  inversion Hid; subst v. clear Hid.
  assert (Hcall : exists db',
             updateTx u fd ing db = inr (tt, db')
             /\ updateFormulation (Uuid u) p db
                = getFormulationById (Uuid u) db').
  { unfold updateFormulation, transaction in Hok |- *. simpl in Hok |- *.
    rewrite Hvalid, Hf in Hok |- *.
    destruct (String.eqb_spec (f_status f) "active"); [contradiction |].
    destruct (updateTx u fd ing db) as [e | [[] db']].
    - simpl in Hok. rewrite handleDatabaseError_fails in Hok. discriminate.
    - exists db'. split; reflexivity. }
  destruct Hcall as [db' [Htx Hcall]].
  rewrite Hcall in Hother |- *. rewrite getFormulationById_pure in Hother |- *.
  pose proof (updateTx_inv _ _ _ _ Htx) as [g [Hg [_ [_ [Hstored Hmix]]]]].
  specialize (Hstored f Hf).
  destruct (written_values _ _ Hg) as [held [Hheld Hgf]].
  rewrite Hgf in Hstored.
  unfold getFormulationById. simpl. rewrite Hstored. simpl.
  eexists fd, ing, f, _, held. split; [exact Hvalid |]. split; [exact Hf |].
  split; [reflexivity |]. simpl. split; [reflexivity |].
  split; [exact Hheld |].
  split; [| exact Hother].
  destruct ing as [l |].
  - destruct Hmix as [_ [[stored [Hrows Hmine]] _]]. split; [reflexivity |].
    rewrite Hmine.
    pose proof (storeRows_Forall2 _ Hrows) as Hrel.
    assert (Hsame : orderByAsc (fun x => fi_displayOrder (iv_row x))
                      (map (joinIngredient db') stored)
                    = map (joinIngredient db') stored).
    { apply orderByAsc_of_sorted.
      apply sorted_by_key
        with (ka := fun v => fi_displayOrder (iv_row v))
             (l := map (joinIngredient db)
                     (Js.mapi
                        (ingredientRow u (orElse (d_totalCost fd) Js.zero) db)
                        l)).
      - rewrite !map_map. simpl. now apply stored_displayOrder.
      - unfold Js.mapi. apply rows_in_display_order. }
    rewrite Hsame.
    assert (Hrows' : map iv_row (map (joinIngredient db') stored) = stored).
    { rewrite map_map. simpl. apply map_id. }
    rewrite Hrows'. split; [reflexivity |]. split.
    + rewrite length_map, <- (Forall2_length_eq Hrel). unfold Js.mapi.
      apply mapFrom_length.
    + intros n e Hn.
      pose proof (mapFrom_nth u (orElse (d_totalCost fd) Js.zero) db _ 0%Z _ Hn)
        as Hrow.
      destruct (Forall2_nth_error_left Hrel _ Hrow) as [s [Hs Hes]].
      exists s. split; [exact Hs |].
      now apply storedRowOf_storedEntry in Hes.
  - split; [reflexivity | exact Hmix].
Qed.

(** An update of the draft formulation of the sample that declares a total
    cost of 200 and carries the mix of scenario A with soy first. *)
Lemma updateFormulation_result_witness :
  exists fd ing f view held,
    validateInput createFormulationSchema_partial
      (Sample.costedMix 200 Sample.soyCorn)
    = inr (fd, ing)
    /\ selectFormulation 100%N Sample.db1 = Some f
    /\ data (fst (updateFormulation (Uuid 100%N)
                    (Sample.costedMix 200 Sample.soyCorn) Sample.db1))
       = Some view
    /\ selectFormulation 100%N
         (snd (updateFormulation (Uuid 100%N)
                 (Sample.costedMix 200 Sample.soyCorn) Sample.db1))
       = Some (v_formulation view)
    /\ dataHeldAs fd held
    /\ match ing with
       | None =>
           v_formulation view = applySet held f
           /\ formulationIngredients
                (snd (updateFormulation (Uuid 100%N)
                        (Sample.costedMix 200 Sample.soyCorn) Sample.db1))
              = formulationIngredients Sample.db1
       | Some l =>
           v_formulation view
           = applySet
               (summaryData (Z.of_nat (List.length l))
                  (topFive (Js.sort byPercentageDesc l)))
               (applySet held f)
           /\ map iv_row (v_ingredients view)
              = ingredientsOf 100%N
                  (snd (updateFormulation (Uuid 100%N)
                          (Sample.costedMix 200 Sample.soyCorn) Sample.db1))
           /\ List.length (v_ingredients view) = List.length l
           /\ forall n e,
               nth_error l n = Some e ->
               exists r,
                 nth_error (map iv_row (v_ingredients view)) n = Some r
                 /\ storedEntry 100%N (Z.of_nat n) e r
       end
    /\ forall v, v <> 100%N ->
                 unchanged v Sample.db1
                   (snd (updateFormulation (Uuid 100%N)
                           (Sample.costedMix 200 Sample.soyCorn) Sample.db1)).
Proof.
  exact (@updateFormulation_result 100%N (Sample.costedMix 200 Sample.soyCorn)
           Sample.db1 eq_refl).
Defined.

(** X12. An update with the empty object is accepted by the partial schema
    and, for an existing formulation that is not active, is a successful
    call that writes nothing and answers what a read of the formulation
    answers. *)
Theorem update_with_empty_payload (u : uuid) (db : DB) (f : Formulation) :
  selectFormulation u db = Some f ->
  f_status f <> "active" ->
  updateFormulation (Uuid u) emptyPayload db = getFormulationById (Uuid u) db
  /\ success (fst (updateFormulation (Uuid u) emptyPayload db)) = true
  /\ snd (updateFormulation (Uuid u) emptyPayload db) = db.
Proof.
  intros Hf Hstatus.
  assert (Hcall : updateFormulation (Uuid u) emptyPayload db
                  = getFormulationById (Uuid u) db).
  { unfold updateFormulation. simpl. rewrite Hf.
    destruct (String.eqb_spec (f_status f) "active"); [contradiction |].
    reflexivity. }
  rewrite Hcall. split; [reflexivity |].
  split; [now apply getFormulationById_found with (f := f) |].
  apply getFormulationById_pure.
Qed.

Lemma update_with_empty_payload_witness :
  updateFormulation (Uuid 100%N) emptyPayload Sample.db1
  = getFormulationById (Uuid 100%N) Sample.db1
  /\ success (fst (updateFormulation (Uuid 100%N) emptyPayload Sample.db1)) = true
  /\ snd (updateFormulation (Uuid 100%N) emptyPayload Sample.db1) = Sample.db1.
Proof.
  refine (@update_with_empty_payload 100%N Sample.db1 _ eq_refl _).
  discriminate.
Defined.

(** ** The outcomes of duplicateFormulation *)

(** X13. What duplicateFormulation answers, and that it never writes: the
    generic database failure for an id that is not a uuid, Original
    formulation not found for an id no formulation has, and for an existing
    formulation the validation failure of createFormulation, whose issues
    name nutritionalAnalysis, meetsRequirements and ingredientCount, the
    keys the copy is built without. *)
Theorem duplicateFormulation_outcome (newId : uuid) (id : idArg)
  (newName : string) (db : DB) :
  snd (duplicateFormulation newId id newName db) = db
  /\ match id with
     | Malformed _ =>
         fst (duplicateFormulation newId id newName db)
         = mkActionResult false None (Some "Database operation failed")
             (Some "An unexpected error occurred. Please try again.") None
     | Uuid u =>
         match selectFormulation u db with
         | None =>
             fst (duplicateFormulation newId id newName db)
             = createErrorResponse "Original formulation not found" None
         | Some f =>
             exists errors,
               fst (duplicateFormulation newId id newName db)
               = validationFailed errors
               /\ In "nutritionalAnalysis" errors
               /\ In "meetsRequirements" errors
               /\ In "ingredientCount" errors
         end
     end.
Proof.
  split.
  - unfold duplicateFormulation.
    destruct (idSchema_parse id) as [e | v]; [reflexivity |].
    pose proof (getFormulationById_pure (Uuid v) db) as Hpure.
    destruct (getFormulationById (Uuid v) db) as [r db1]. simpl in Hpure.
    subst db1.
    destruct (success r); [| reflexivity].
    destruct (data r) as [original |]; [| reflexivity].
    unfold createFormulation.
    destruct (duplicatePayload_refused original newName) as [error [errors H]].
    now rewrite H.
  - destruct id as [u | s]; [| reflexivity].
    unfold duplicateFormulation, getFormulationById. simpl.
    destruct (selectFormulation u db) as [f |]; [| reflexivity]. simpl.
    match goal with
    | |- context [duplicatePayload ?o newName] => set (original := o)
    end.
    assert (Hna : In "nutritionalAnalysis"
                    (schemaIssues createFormulationSchema
                       (duplicatePayload original newName))).
    { unfold schemaIssues. do 10 (apply in_or_app; right).
      apply in_or_app. left. now left. }
    assert (Hmeets : In "meetsRequirements"
                       (schemaIssues createFormulationSchema
                          (duplicatePayload original newName))).
    { unfold schemaIssues. do 11 (apply in_or_app; right).
      apply in_or_app. left. now left. }
    assert (Hcount : In "ingredientCount"
                       (schemaIssues createFormulationSchema
                          (duplicatePayload original newName))).
    { unfold schemaIssues. do 12 (apply in_or_app; right).
      apply in_or_app. left. now left. }
    exists (schemaIssues createFormulationSchema
              (duplicatePayload original newName)).
    unfold createFormulation.
    rewrite (validateInput_issue _ _ _ Hna). simpl.
    split; [reflexivity |]. now repeat split.
Qed.

(** * Pagination *)

Lemma integer_value (q : Q) (z : Z) :
  (q == inject_Z z)%Q ->
  Js.isInteger (Js.Num q) = true /\ integerOf (Js.Num q) = Some z.
Proof.
  intros H.
  assert (Hf : Qfloor q = z) by (rewrite H; apply Qfloor_Z).
  split.
  - simpl. apply Qeq_bool_iff. rewrite Hf. exact H.
  - simpl. now rewrite Hf.
Qed.

Lemma rowCount_value (q : Q) (n : nat) :
  (q == inject_Z (Z.of_nat n))%Q -> rowCount (Js.Num q) = Some n.
Proof.
  intros H. unfold rowCount.
  destruct (integer_value H) as [Hi Hv]. rewrite Hi, Hv.
  assert (Hge : Js.ge (Js.Num q) Js.zero = true).
  { apply ge_Num. rewrite H. rewrite <- Zle_Qle. lia. }
  rewrite Hge. simpl. now rewrite Nat2Z.id.
Qed.

(** The number of pages is the least integer whose pages hold all rows. *)
Lemma totalPages_value (t : Z) (l : Q) :
  (1 <= l)%Q ->
  exists tp : Z,
    Math.ceil (Js.div (Js.ofZ t) (Js.Num l)) = Js.ofZ tp
    /\ (inject_Z t <= inject_Z tp * l)%Q
    /\ (inject_Z tp * l < inject_Z t + l)%Q.
Proof.
  intros Hl.
  assert (Hpos : (0 < l)%Q) by lra.
  assert (Hcmp : (l ?= 0)%Q = Gt) by (now apply Qgt_alt).
  exists (Qceiling (Qred (inject_Z t / l))).
  split.
  - unfold Js.div, Js.ofZ. rewrite Hcmp. reflexivity.
  - assert (Hc : Qceiling (Qred (inject_Z t / l)) = Qceiling (inject_Z t / l))
      by (apply Qceiling_comp, Qred_correct).
    rewrite Hc.
    set (y := (inject_Z t / l)%Q).
    assert (Hy : (y * l == inject_Z t)%Q).
    { unfold y. rewrite Qmult_comm. apply Qmult_div_r. lra. }
    clearbody y.
    pose proof (Qle_ceiling y) as Hup.
    pose proof (Qceiling_lt y) as Hlow.
    unfold Z.sub in Hlow. rewrite inject_Z_plus in Hlow.
    change (inject_Z (- (1))) with (- (1))%Q in Hlow.
    set (c := inject_Z (Qceiling y)) in *. clearbody c.
    assert (H1 : (0 <= (c - y) * l)%Q) by (apply Qmult_le_0_compat; lra).
    assert (H2 : (0 < (y - c + 1) * l)%Q) by (apply Qmult_lt_0_compat; lra).
    split; lra.
Qed.

Lemma hasNext_value (t n tp : Z) (l q : Q) :
  (1 <= l)%Q -> (q == inject_Z n)%Q ->
  (inject_Z t <= inject_Z tp * l)%Q ->
  (inject_Z tp * l < inject_Z t + l)%Q ->
  (Js.gt (Js.ofZ tp) (Js.Num q) = true <-> (inject_Z n * l < inject_Z t)%Q).
Proof.
  intros Hl Hq Hup Hlow. unfold Js.ofZ. rewrite gt_Num, Hq, <- Zlt_Qlt.
  split; intro H.
  - assert (Hn : (inject_Z n <= inject_Z tp - 1)%Q).
    { change 1%Q with (inject_Z 1). unfold Qminus.
      rewrite <- inject_Z_opp, <- inject_Z_plus, <- Zle_Qle. lia. }
    assert (H1 : (0 <= (inject_Z tp - 1 - inject_Z n) * l)%Q)
      by (apply Qmult_le_0_compat; lra).
    lra.
  - rewrite Zlt_Qlt. apply Qnot_le_lt. intros Hle.
    assert (H1 : (0 <= (inject_Z n - inject_Z tp) * l)%Q)
      by (apply Qmult_le_0_compat; lra).
    lra.
Qed.

Lemma parsed_pagination (rq : PageRequest) (page limit : Js.number) :
  paginationSchema_parse rq = inr (page, limit) ->
  page = orElse (q_page rq) (Js.ofZ 1)
  /\ limit = orElse (q_limit rq) (Js.ofZ 20)
  /\ Js.ge page (Js.ofZ 1) = true
  /\ exists l, limit = Js.Num l /\ (1 <= l <= 100)%Q.
Proof.
  unfold paginationSchema_parse, Zod.atLeast, Zod.between. cbv zeta.
  set (pg := orElse (q_page rq) (Js.ofZ 1)).
  set (lm := orElse (q_limit rq) (Js.ofZ 20)).
  destruct (Js.ge pg (Js.ofZ 1)) eqn:Hp; [| discriminate].
  destruct (Js.ge lm (Js.ofZ 1)) eqn:Hlo; [| discriminate].
  destruct (Js.ge (Js.ofZ 100) lm) eqn:Hhi; [| discriminate].
  cbn [andb].
  intros H. injection H as <- <-.
  repeat split; trivial.
  clearbody lm. destruct lm as [l | | |]; simpl in Hlo, Hhi; try discriminate.
  exists l. split; [reflexivity |].
  change (Js.ge (Js.Num l) (Js.Num (inject_Z 1)) = true) in Hlo.
  change (Js.ge (Js.Num (inject_Z 100)) (Js.Num l) = true) in Hhi.
  apply ge_Num in Hlo. apply ge_Num in Hhi.
  change (inject_Z 1) with 1%Q in Hlo. change (inject_Z 100) with 100%Q in Hhi.
  split; assumption.
Qed.

(** The end of the window of a page, [offset + limit]. *)
Lemma window_end (q l : Q) (n : Z) :
  (q == inject_Z n)%Q ->
  exists e, Js.add (offsetOf (Js.Num q) (Js.Num l)) (Js.Num l) = Js.Num e
            /\ (e == inject_Z n * l)%Q.
Proof.
  intros Hq. unfold offsetOf, Js.sub, Js.neg, Js.add, Js.mul, Js.ofZ, Js.fin.
  eexists. split; [reflexivity |].
  rewrite !Qred_correct, Hq. change (inject_Z 1) with 1%Q. ring.
Qed.

(** X14. What the list actions tell about the pages. For a pagination
    object the schema accepts (page at least 1, limit between 1 and 100,
    1 and 20 when absent) whose limit is an integer, and a count of rows,
    the number of pages is an integer, the least one whose pages hold all
    rows, zero when there is no row: the division by the limit is never a
    division by zero. For an integer page, hasNext tells whether the count
    exceeds the end of the window, offset + limit, and hasPrev whether the
    page is not the first. *)
Theorem pagination_of_validated (rq : PageRequest) (page limit : Js.number)
  (li t : Z) :
  paginationSchema_parse rq = inr (page, limit) ->
  Js.same limit (Js.ofZ li) ->
  (0 <= t)%Z ->
  exists (l : Q) (tp : Z),
    limit = Js.Num l /\ (1 <= l <= 100)%Q /\ (l == inject_Z li)%Q
    /\ (q_page rq = None -> page = Js.ofZ 1)
    /\ (q_limit rq = None -> limit = Js.ofZ 20)
    /\ Js.ge page (Js.ofZ 1) = true
    /\ pg_totalPages (calculatePagination page limit (Js.ofZ t)) = Js.ofZ tp
    /\ (0 <= tp)%Z
    /\ (inject_Z t <= inject_Z tp * l)%Q
    /\ (inject_Z tp * l < inject_Z t + l)%Q
    /\ (t = 0%Z -> tp = 0%Z)
    /\ forall n : Z,
        Js.same page (Js.ofZ n) ->
        (1 <= n)%Z
        /\ pg_hasNext (calculatePagination page limit (Js.ofZ t))
           = Js.gt (Js.ofZ t) (Js.add (offsetOf page limit) limit)
        /\ (pg_hasNext (calculatePagination page limit (Js.ofZ t)) = true
            <-> (inject_Z n * l < inject_Z t)%Q)
        /\ (pg_hasPrev (calculatePagination page limit (Js.ofZ t)) = true
            <-> (1 < n)%Z).
Proof.
  intros Hparse Hint Ht.
  destruct (@parsed_pagination rq page limit Hparse) as (Hpage & Hlimit & Hge & l & -> & Hl).
  apply Qeq_bool_iff in Hint.
  destruct (@totalPages_value t l (proj1 Hl)) as (tp & Htp & Hup & Hlow).
  assert (Ht' : (0 <= inject_Z t)%Q)
    by (change 0%Q with (inject_Z 0); now rewrite <- Zle_Qle).
  assert (Hnonneg : (0 <= tp)%Z).
  { destruct (Z_lt_le_dec tp 0) as [Hneg | Hok]; [| exact Hok].
    exfalso.
    assert (Hq : (inject_Z tp <= -1)%Q).
    { change (-1)%Q with (inject_Z (-1)). rewrite <- Zle_Qle. lia. }
    assert (H1 : (0 <= (-1 - inject_Z tp) * l)%Q)
      by (apply Qmult_le_0_compat; lra).
    lra. }
  assert (Hcalc : calculatePagination page (Js.Num l) (Js.ofZ t)
                  = mkPagination page (Js.Num l) (Js.ofZ t) (Js.ofZ tp)
                      (Js.gt (Js.ofZ tp) page) (Js.gt page (Js.ofZ 1))).
  { unfold calculatePagination. cbv zeta. now rewrite Htp. }
  exists l, tp. rewrite Hcalc. cbn [pg_totalPages pg_hasNext pg_hasPrev].
  split; [reflexivity |]. split; [exact Hl |]. split; [exact Hint |].
  split; [intros E; rewrite Hpage, E; reflexivity |].
  split; [intros E; rewrite Hlimit, E; reflexivity |].
  split; [exact Hge |]. split; [reflexivity |]. split; [exact Hnonneg |].
  split; [exact Hup |]. split; [exact Hlow |].
  split.
  { intros ->. destruct (Z_le_lt_eq_dec 0 tp Hnonneg) as [Hpos | <-];
      [| reflexivity].
    exfalso.
    assert (Hq : (1 <= inject_Z tp)%Q).
    { change 1%Q with (inject_Z 1). rewrite <- Zle_Qle. lia. }
    assert (H1 : (0 <= (inject_Z tp - 1) * l)%Q)
      by (apply Qmult_le_0_compat; lra).
    change (inject_Z 0) with 0%Q in Hlow. lra. }
  intros n Hsame.
  destruct page as [q | | |]; simpl in Hsame; try discriminate.
  apply Qeq_bool_iff in Hsame.
  assert (Hnext : Js.gt (Js.ofZ tp) (Js.Num q) = true
                  <-> (inject_Z n * l < inject_Z t)%Q)
    by (apply hasNext_value; [exact (proj1 Hl) | exact Hsame | exact Hup | exact Hlow]).
  split.
  { change (Js.ge (Js.Num q) (Js.Num (inject_Z 1)) = true) in Hge.
    apply ge_Num in Hge. rewrite Hsame in Hge. rewrite Zle_Qle. exact Hge. }
  split.
  { destruct (@window_end q l n Hsame) as (e & -> & He).
    apply eq_true_iff_eq. rewrite Hnext. unfold Js.ofZ. rewrite gt_Num, He.
    reflexivity. }
  split; [exact Hnext |].
  unfold Js.ofZ. rewrite gt_Num, Hsame, <- Zlt_Qlt. reflexivity.
Qed.

Lemma pagination_of_validated_witness :
  exists (l : Q) (tp : Z),
    Js.ofZ 10 = Js.Num l /\ (1 <= l <= 100)%Q
    /\ pg_totalPages (calculatePagination (Js.ofZ 3) (Js.ofZ 10) (Js.ofZ 25))
       = Js.ofZ tp
    /\ (inject_Z 25 <= inject_Z tp * l)%Q
    /\ (inject_Z tp * l < inject_Z 25 + l)%Q.
Proof.
  destruct (@pagination_of_validated
              (mkPageRequest (Some (Js.ofZ 3)) (Some (Js.ofZ 10)))
              (Js.ofZ 3) (Js.ofZ 10) 10 25 eq_refl eq_refl ltac:(lia))
    as (l & tp & H1 & H2 & _ & _ & _ & _ & H3 & _ & H4 & H5 & _).
  exists l, tp. repeat split; try assumption; apply H2.
Defined.

(** ** The pages of a select *)

Lemma totalPages_count (len l : nat) :
  (1 <= l)%nat ->
  exists tp : nat,
    Math.ceil (Js.div (Js.ofZ (Z.of_nat len)) (Js.ofZ (Z.of_nat l)))
    = Js.ofZ (Z.of_nat tp)
    /\ (len <= tp * l)%nat
    /\ (tp * l < len + l)%nat.
Proof.
  intros Hl.
  assert (Hq : (1 <= inject_Z (Z.of_nat l))%Q).
  { change 1%Q with (inject_Z 1). rewrite <- Zle_Qle. lia. }
  destruct (@totalPages_value (Z.of_nat len) (inject_Z (Z.of_nat l)) Hq)
    as (tp & Htp & Hup & Hlow).
  rewrite <- inject_Z_mult, <- Zle_Qle in Hup.
  rewrite <- inject_Z_mult, <- inject_Z_plus, <- Zlt_Qlt in Hlow.
  assert (Hnonneg : (0 <= tp)%Z) by nia.
  exists (Z.to_nat tp). rewrite Z2Nat.id by exact Hnonneg.
  split; [exact Htp |]. split; nia.
Qed.

Lemma offset_count (n l : nat) :
  (1 <= n)%nat ->
  rowCount (offsetOf (Js.ofZ (Z.of_nat n)) (Js.ofZ (Z.of_nat l)))
  = Some ((n - 1) * l)%nat.
Proof.
  intros Hn. unfold offsetOf, Js.sub, Js.neg, Js.add, Js.mul, Js.ofZ, Js.fin.
  apply rowCount_value.
  rewrite !Qred_correct, Nat2Z.inj_mul, Nat2Z.inj_sub by lia.
  rewrite inject_Z_mult. unfold Z.sub.
  rewrite inject_Z_plus, inject_Z_opp. reflexivity.
Qed.

Lemma skipn_nonempty (A : Type) (k : nat) (rows : list A) :
  skipn k rows <> [] <-> (k < List.length rows)%nat.
Proof.
  split.
  - intros H. destruct (Nat.lt_ge_cases k (List.length rows)) as [Hlt | Hge];
      [exact Hlt |].
    exfalso. apply H. now apply skipn_all2.
  - intros Hlt E. apply (f_equal (@List.length A)) in E.
    rewrite length_skipn in E. simpl in E. lia.
Qed.

Lemma firstn_nonempty (A : Type) (l : nat) (rows : list A) :
  (1 <= l)%nat -> (firstn l rows <> [] <-> rows <> []).
Proof.
  intros Hl. destruct l as [| l]; [lia |].
  destruct rows; simpl; split; congruence.
Qed.

(** Consecutive windows of the same size, enough of them to reach the end
    of the list, give the list back. *)
Lemma windows_concat (A : Type) (l : nat) :
  forall (tp : nat) (rows : list A),
    (List.length rows <= tp * l)%nat ->
    List.concat (map (fun k => firstn l (skipn (k * l) rows)) (seq 0 tp))
    = rows.
Proof.
  induction tp as [| tp IH]; intros rows Hlen.
  - simpl in *. destruct rows; [reflexivity | simpl in Hlen; lia].
  - rewrite <- cons_seq, <- seq_shift. cbn [map]. rewrite map_map.
    cbn [List.concat]. change (0 * l)%nat with 0%nat. cbn [skipn].
    transitivity (firstn l rows ++ skipn l rows)%list;
      [| apply firstn_skipn].
    f_equal.
    rewrite <- (IH (skipn l rows)).
    + f_equal. apply map_ext. intros k. rewrite skipn_skipn.
      f_equal. f_equal. lia.
    + rewrite length_skipn. simpl in Hlen. lia.
Qed.

(** X15. The pages of the list actions partition the selected rows. With an
    integer limit of at least 1, page n (from 1) holds the rows from
    position (n - 1) * limit on, at most limit of them; hasNext is true
    exactly when rows remain after the page; the page is not empty exactly
    when n is at most totalPages; and pages 1 to totalPages, one after the
    other, are the selected rows, each once and in their order. *)
Theorem pages_partition_rows (A : Type) (rows : list A) (l : nat) :
  (1 <= l)%nat ->
  exists tp : nat,
    (forall n,
        pg_totalPages
          (calculatePagination (Js.ofZ (Z.of_nat n)) (Js.ofZ (Z.of_nat l))
             (Js.ofZ (Z.of_nat (List.length rows))))
        = Js.ofZ (Z.of_nat tp))
    /\ (forall n,
           (1 <= n)%nat ->
           limitOffset (Js.ofZ (Z.of_nat l))
             (offsetOf (Js.ofZ (Z.of_nat n)) (Js.ofZ (Z.of_nat l))) rows
           = inr (firstn l (skipn ((n - 1) * l) rows))
           /\ (pg_hasNext
                 (calculatePagination (Js.ofZ (Z.of_nat n))
                    (Js.ofZ (Z.of_nat l))
                    (Js.ofZ (Z.of_nat (List.length rows)))) = true
               <-> skipn (n * l) rows <> [])
           /\ (firstn l (skipn ((n - 1) * l) rows) <> [] <-> (n <= tp)%nat))
    /\ List.concat
         (map (fun n => firstn l (skipn ((n - 1) * l) rows)) (seq 1 tp))
       = rows.
Proof.
  intros Hl.
  destruct (@totalPages_count (List.length rows) l Hl) as (tp & Htp & Hup & Hlow).
  assert (Hcalc : forall n,
             calculatePagination (Js.ofZ (Z.of_nat n)) (Js.ofZ (Z.of_nat l))
               (Js.ofZ (Z.of_nat (List.length rows)))
             = mkPagination (Js.ofZ (Z.of_nat n)) (Js.ofZ (Z.of_nat l))
                 (Js.ofZ (Z.of_nat (List.length rows))) (Js.ofZ (Z.of_nat tp))
                 (Js.gt (Js.ofZ (Z.of_nat tp)) (Js.ofZ (Z.of_nat n)))
                 (Js.gt (Js.ofZ (Z.of_nat n)) (Js.ofZ 1))).
  { intros n. unfold calculatePagination. cbv zeta. now rewrite Htp. }
  exists tp. split; [| split].
  - intros n. now rewrite Hcalc.
  - intros n Hn. rewrite Hcalc. cbn [pg_hasNext]. split; [| split].
    + assert (Hrc : rowCount (Js.ofZ (Z.of_nat l)) = Some l)
        by (apply rowCount_value; reflexivity).
      unfold limitOffset. rewrite Hrc, (@offset_count n l Hn). reflexivity.
    + rewrite skipn_nonempty. unfold Js.ofZ.
      rewrite gt_Num, <- Zlt_Qlt. split; intro H; nia.
    + rewrite (@firstn_nonempty A l (skipn ((n - 1) * l) rows) Hl).
      rewrite skipn_nonempty. split; intro H; nia.
  - rewrite <- seq_shift, map_map.
    transitivity
      (List.concat (map (fun k => firstn l (skipn (k * l) rows)) (seq 0 tp)));
      [| exact (@windows_concat A l tp rows Hup)].
    f_equal. apply map_ext. intros k. f_equal. f_equal. f_equal. lia.
Qed.

Lemma pages_partition_rows_witness :
  exists tp : nat,
    pg_totalPages
      (calculatePagination (Js.ofZ 1) (Js.ofZ 2) (Js.ofZ 3)) = Js.ofZ (Z.of_nat tp)
    /\ List.concat
         (map (fun n => firstn 2 (skipn ((n - 1) * 2) [5; 6; 7]%nat)) (seq 1 tp))
       = [5; 6; 7]%nat.
Proof.
  destruct (@pages_partition_rows nat [5; 6; 7]%nat 2 ltac:(lia))
    as (tp & H1 & _ & H3).
  exists tp. split; [exact (H1 1%nat) | exact H3].
Defined.

(** ** The list of formulation types *)

Lemma insertText_perm (x : string) (l : list string) :
  Permutation (insertText x l) (x :: l).
Proof.
  induction l as [| y l IH]; simpl; [apply Permutation_refl |].
  destruct (String.ltb y x); [| apply Permutation_refl].
  apply perm_trans with (y :: x :: l); [now apply perm_skip | apply perm_swap].
Qed.

Lemma orderByText_perm (l : list string) : Permutation (orderByText l) l.
Proof.
  induction l as [| x l IH]; simpl; [apply perm_nil |].
  apply perm_trans with (x :: orderByText l);
    [apply insertText_perm | now apply perm_skip].
Qed.

(** X16. getFormulationTypes never fails and never writes; it lists every
    formulation type that a stored formulation has, each one once, and never
    the empty string. *)
Theorem getFormulationTypes_lists_types_in_use (db : DB) :
  exists types,
    getFormulationTypes db = (createSuccessResponse (Some types) None, db)
    /\ NoDup types
    /\ forall t,
        In t types
        <-> t <> "" /\ exists f, In f (formulations db) /\ f_formulationType f = t.
Proof.
  eexists. split; [reflexivity |].
  set (all := map f_formulationType (formulations db)).
  assert (Hperm : Permutation (orderByText (nodup string_dec all))
                    (nodup string_dec all)) by apply orderByText_perm.
  split.
  - apply NoDup_filter.
    apply (Permutation_NoDup (Permutation_sym Hperm)), NoDup_nodup.
  - intros t. rewrite filter_In, negb_true_iff, String.eqb_neq.
    assert (Hin : In t (orderByText (nodup string_dec all)) <-> In t all).
    { split; intro H.
      - apply (nodup_In string_dec). exact (Permutation_in _ Hperm H).
      - apply (Permutation_in _ (Permutation_sym Hperm)).
        now apply nodup_In. }
    rewrite Hin. unfold all. rewrite in_map_iff.
    split.
    + intros [(f & Hf & Hi) Ht]. split; [exact Ht |]. exists f. now split.
    + intros [Ht (f & Hi & Hf)]. split; [| exact Ht]. exists f. now split.
Qed.

(** * The nutrient actions *)

(** ** The nutrient schemas *)

Lemma validateNutrient_inv (s : NutrientSchema) (p : NutrientPayload)
  (v : NutrientData) :
  validateNutrient s p = inr v ->
  nutrientIssues s p = [] /\ v = parseNutrient s p.
Proof.
  unfold validateNutrient. destruct (nutrientIssues s p); [| discriminate].
  intros H. injection H as <-. now split.
Qed.

Lemma validateNutrient_errors (s : NutrientSchema) (p : NutrientPayload)
  (errors : list string) :
  validateNutrient s p = inl errors ->
  errors = nutrientIssues s p /\ errors <> [].
Proof.
  unfold validateNutrient. destruct (nutrientIssues s p); [discriminate |].
  intros H. injection H as <-. split; [reflexivity | discriminate].
Qed.

Ltac split_issues H :=
  repeat (let H' := fresh "Hkey" in
          apply app_eq_nil in H; destruct H as [H' H]).

(** What a payload that insertNutrientSchema accepts carries, and the row
    the insert builds from it. *)
Lemma accepted_nutrient_row (newId : uuid) (p : NutrientPayload)
  (v : NutrientData) :
  validateNutrient insertNutrientSchema p = inr v ->
  exists name displayName category unit_ unitType,
    np_name p = Some name
    /\ np_displayName p = Some displayName
    /\ np_category p = Some category
    /\ np_unit p = Some unit_
    /\ np_unitType p = Some unitType
    /\ name <> ""
    /\ category <> ""
    /\ nd_name v = Some name
    /\ nd_parentNutrientId v = bindOpt (np_parentNutrientId p) uuidOf
    /\ nutrientOfValues newId v
       = Some (mkNutrient newId name displayName (np_description p) category
                 (np_subcategory p) unit_ unitType
                 (orElse (bindOpt (np_decimalPlaces p) integerOf) 2%Z)
                 (orElse (np_isAnalyzable p) true)
                 (np_analysisMethod p)
                 (orElse (np_isRequired p) false)
                 (orElse (bindOpt (np_displayOrder p) integerOf) 0%Z)
                 (orElse (np_isVisible p) true)
                 (orElse (np_highlightInReports p) false)
                 (np_minimumValue p) (np_maximumValue p)
                 (bindOpt (np_parentNutrientId p) uuidOf)
                 (np_standardReference p)).
Proof.
  intros Hv. destruct (@validateNutrient_inv _ _ _ Hv) as [Hi ->].
  unfold nutrientIssues in Hi. simpl negb in Hi. split_issues Hi.
  destruct (key_required _ _ _ Hkey) as (name & En & Hn).
  destruct (key_required _ _ _ Hkey0) as (displayName & Ed & _).
  destruct (key_required _ _ _ Hkey2) as (category & Ec & Hc).
  destruct (key_required _ _ _ Hkey4) as (unit_ & Eu & _).
  destruct (key_required _ _ _ Hkey5) as (unitType & Et & _).
  exists name, displayName, category, unit_, unitType.
  repeat split; trivial.
  - intros ->. discriminate Hn.
  - intros ->. discriminate Hc.
  - unfold nutrientOfValues, parseNutrient. simpl.
    rewrite En, Ed, Ec, Eu, Et. simpl.
    destruct (bindOpt (np_decimalPlaces p) integerOf),
      (np_isAnalyzable p), (np_isRequired p),
      (bindOpt (np_displayOrder p) integerOf), (np_isVisible p),
      (np_highlightInReports p); reflexivity.
Qed.

(** ** createNutrient *)

(** X17. What createNutrient answers, case by case. A payload the schema
    refuses gives the validation failure. Otherwise the payload names the
    nutrient, and the call answers Duplicate nutrient name when a nutrient
    of that name exists, Duplicate entry when the id drawn for the row is
    taken, the foreign-key violation when the parent nutrient does not
    exist, and succeeds in every other case; only then is the database
    changed, by the one row appended. The row has the values of the payload
    and, for the absent keys, the defaults: two decimal places, analyzable,
    not required, display order 0, visible, not highlighted. *)
Theorem createNutrient_outcome (newId : uuid) (p : NutrientPayload)
  (db : NutrientDB) :
  match validateNutrient insertNutrientSchema p with
  | inl errors =>
      createNutrient newId p db = (validationFailed errors, db)
      /\ errors <> []
  | inr v =>
      exists row,
        nutrientOfValues newId v = Some row
        /\ n_id row = newId
        /\ np_name p = Some (n_name row)
        /\ np_category p = Some (n_category row)
        /\ n_decimalPlaces row = orElse (bindOpt (np_decimalPlaces p) integerOf) 2%Z
        /\ n_isAnalyzable row = orElse (np_isAnalyzable p) true
        /\ n_isRequired row = orElse (np_isRequired p) false
        /\ n_displayOrder row = orElse (bindOpt (np_displayOrder p) integerOf) 0%Z
        /\ n_isVisible row = orElse (np_isVisible p) true
        /\ n_highlightInReports row = orElse (np_highlightInReports p) false
        /\ if isSome (selectNutrientNamed (n_name row) db) then
             createNutrient newId p db
             = (createErrorResponse "Duplicate nutrient name"
                  (Some "A nutrient with this name already exists"), db)
           else if isSome (selectNutrient newId db) then
             createNutrient newId p db
             = (mkActionResult false None (Some "Duplicate entry")
                  (Some "This record already exists") None, db)
           else if parentExists (n_parentNutrientId row) (nutrients db ++ [row])
           then
             createNutrient newId p db
             = (createSuccessResponse (Some row)
                  (Some "Nutrient created successfully"),
                withNutrients db (nutrients db ++ [row]))
           else
             createNutrient newId p db
             = (mkActionResult false None
                  (Some "Foreign key constraint violation")
                  (Some "Referenced record does not exist") None, db)
  end.
Proof.
  destruct (validateNutrient insertNutrientSchema p) as [errors | v] eqn:Hv.
  - split.
    + unfold createNutrient. now rewrite Hv.
    + exact (proj2 (@validateNutrient_errors _ _ _ Hv)).
  - destruct (@accepted_nutrient_row newId p v Hv)
      as (name & displayName & category & unit_ & unitType
          & En & Ed & Ec & Eu & Et & Hn & Hc & Ename & Eparent & Erow).
    eexists. split; [exact Erow |]. cbn [n_id n_name n_category n_decimalPlaces
      n_isAnalyzable n_isRequired n_displayOrder n_isVisible
      n_highlightInReports n_parentNutrientId].
    repeat (split; [solve [trivial] |]).
    unfold createNutrient. rewrite Hv, Ename.
    destruct (isSome (selectNutrientNamed name db)) eqn:Hdup; [reflexivity |].
    unfold insertNutrient. rewrite Erow. cbn [n_name n_parentNutrientId].
    rewrite Hdup, orb_false_r.
    destruct (isSome (selectNutrient newId db)); [reflexivity |].
    destruct (parentExists _ _); reflexivity.
Qed.

(** ** The declared constraints of the nutrient tables are kept *)

Lemma isSome_find (A : Type) (p : A -> bool) (l : list A) :
  isSome (find p l) = existsb p l.
Proof.
  induction l as [| x l IH]; simpl; [reflexivity |].
  destruct (p x); [reflexivity | exact IH].
Qed.

Lemma nutrient_id_listed (u : uuid) (l : list Nutrient) :
  existsb (fun n => N.eqb (n_id n) u) l = true <-> In u (map n_id l).
Proof.
  rewrite existsb_exists, in_map_iff. split.
  - intros (n & Hin & E). apply N.eqb_eq in E. now exists n.
  - intros (n & E & Hin). exists n. split; [exact Hin | now apply N.eqb_eq].
Qed.

Lemma nutrientExists_iff (u : uuid) (db : NutrientDB) :
  nutrientExists u db <-> In u (map n_id (nutrients db)).
Proof.
  unfold nutrientExists, selectNutrient. rewrite isSome_find.
  apply nutrient_id_listed.
Qed.

Lemma nutrient_name_listed (name : string) (db : NutrientDB) :
  isSome (selectNutrientNamed name db) = true
  <-> In name (map n_name (nutrients db)).
Proof.
  unfold selectNutrientNamed. rewrite isSome_find, existsb_exists, in_map_iff.
  split.
  - intros (n & Hin & E). apply String.eqb_eq in E. now exists n.
  - intros (n & E & Hin). exists n. split; [exact Hin | now apply String.eqb_eq].
Qed.

Lemma NoDup_added (A : Type) (x : A) (l : list A) :
  NoDup l -> ~ In x l -> NoDup (l ++ [x]).
Proof.
  induction l as [| y l IH]; simpl; intros Hl Hx.
  - constructor; [intros [] | constructor].
  - inversion Hl as [| ? ? Hy Hl']; subst. constructor.
    + intros Hin. apply in_app_or in Hin. destruct Hin as [Hin | [E | []]].
      * exact (Hy Hin).
      * apply Hx. now left.
    + apply IH; [exact Hl' |]. intros Hin. apply Hx. now right.
Qed.

Lemma NoDup_map_filter (A B : Type) (f : A -> B) (keep : A -> bool)
  (l : list A) :
  NoDup (map f l) -> NoDup (map f (filter keep l)).
Proof.
  induction l as [| x l IH]; simpl; intros H; [constructor |].
  inversion H as [| ? ? Hx Hl]; subst.
  destruct (keep x); [| now apply IH].
  simpl. constructor; [| now apply IH].
  intros Hin. apply Hx. apply in_map_iff in Hin.
  destruct Hin as (y & E & Hy). apply filter_In in Hy.
  apply in_map_iff. exists y. now split.
Qed.

Lemma insertNutrient_keeps (newId : uuid) (v : NutrientData)
  (db db' : NutrientDB) (row : Nutrient) :
  wellFormedNutrients db ->
  insertNutrient newId v db = inr (row, db') ->
  wellFormedNutrients db'.
Proof.
  intros (Hids & Hnames & Hparents & Hvalues & Hreqs).
  unfold insertNutrient.
  destruct (nutrientOfValues newId v) as [r |] eqn:Er; [| discriminate].
  destruct (isSome (selectNutrient newId db)) eqn:Hid; [discriminate |].
  destruct (isSome (selectNutrientNamed (n_name r) db)) eqn:Hname;
    [discriminate |].
  cbn [orb].
  destruct (parentExists (n_parentNutrientId r) (nutrients db ++ [r])) eqn:Hp;
    [| discriminate].
  intros H. injection H as <- <-.
  assert (Hrid : n_id r = newId).
  { unfold nutrientOfValues, bindOpt in Er.
    destruct (nd_name v), (nd_displayName v), (nd_category v), (nd_unit v),
      (nd_unitType v); try discriminate.
    injection Er as <-. reflexivity. }
  assert (Hmono : forall u, nutrientExists u db ->
                            nutrientExists u (withNutrients db (nutrients db ++ [r]))).
  { intros u Hu. apply nutrientExists_iff. apply nutrientExists_iff in Hu.
    cbn [nutrients withNutrients]. rewrite map_app. apply in_or_app. now left. }
  repeat split; cbn [nutrients withNutrients ingredientNutrients animalRequirements].
  - rewrite map_app. simpl. apply NoDup_added; [exact Hids |].
    rewrite Hrid. intros Hin. apply nutrientExists_iff in Hin.
    unfold nutrientExists in Hin. congruence.
  - rewrite map_app. simpl. apply NoDup_added; [exact Hnames |].
    intros Hin. apply nutrient_name_listed in Hin. congruence.
  - apply Forall_app. split.
    + eapply Forall_impl; [| exact Hparents]. intros n Hn u Hu.
      apply Hmono. now apply Hn.
    + constructor; [| constructor]. intros u Hu. rewrite Hu in Hp.
      apply nutrientExists_iff. cbn [nutrients withNutrients].
      now apply nutrient_id_listed.
  - eapply Forall_impl; [| exact Hvalues]. intros r0 Hr0. now apply Hmono.
  - eapply Forall_impl; [| exact Hreqs]. intros r0 [Hr0 Href].
    split; [now apply Hmono |]. intros u Hu. apply Hmono. now apply Href.
Qed.

Lemma updated_ids (u : uuid) (v : NutrientData) (l : list Nutrient) :
  map n_id (map (fun n => if N.eqb (n_id n) u then applyNutrientSet v n else n) l)
  = map n_id l.
Proof.
  rewrite map_map. apply map_ext. intros n.
  destruct (N.eqb (n_id n) u); reflexivity.
Qed.

Lemma updated_names (u : uuid) (v : NutrientData) (l : list Nutrient) :
  NoDup (map n_id l) -> NoDup (map n_name l) ->
  (forall name, nd_name v = Some name ->
                forall m, In m l -> n_id m <> u -> n_name m <> name) ->
  NoDup (map n_name
           (map (fun n => if N.eqb (n_id n) u then applyNutrientSet v n else n) l)).
Proof.
  induction l as [| x l IH]; simpl; intros Hids Hnames Hfree; [constructor |].
  inversion Hids as [| ? ? Hxid Hlids]; subst.
  inversion Hnames as [| ? ? Hxname Hlnames]; subst.
  assert (IHl := IH Hlids Hlnames
                   (fun name E m Hm => Hfree name E m (or_intror Hm))).
  constructor; [| exact IHl].
  intros Hin. apply in_map_iff in Hin. destruct Hin as (m' & E & Hm').
  apply in_map_iff in Hm'. destruct Hm' as (m & <- & Hm).
  assert (Hdiff : n_id m <> n_id x).
  { intros Eid. apply Hxid. rewrite <- Eid. now apply in_map. }
  assert (Hmname : n_name m <> n_name x).
  { intros En. apply Hxname. rewrite <- En. now apply in_map. }
  destruct (N.eqb_spec (n_id x) u) as [Ex | Nx];
    destruct (N.eqb_spec (n_id m) u) as [Em | Nm].
  - congruence.
  - cbn [n_name applyNutrientSet] in E.
    destruct (nd_name v) as [name |] eqn:En; cbn [orElse] in E.
    + exact (Hfree name eq_refl m (or_intror Hm) Nm E).
    + exact (Hmname E).
  - cbn [n_name applyNutrientSet] in E.
    destruct (nd_name v) as [name |] eqn:En; cbn [orElse] in E.
    + exact (Hfree name eq_refl x (or_introl eq_refl) Nx (eq_sym E)).
    + exact (Hmname E).
  - exact (Hmname E).
Qed.

Lemma updateNutrients_keeps (v : NutrientData) (id : uuid)
  (db db' : NutrientDB) (rows : list Nutrient) :
  wellFormedNutrients db ->
  updateNutrients v id db = inr (rows, db') ->
  wellFormedNutrients db'.
Proof.
  intros Hwf. pose proof Hwf as (Hids & Hnames & Hparents & Hvalues & Hreqs).
  unfold updateNutrients.
  destruct (existsb (fun n => N.eqb (n_id n) id) (nutrients db)) eqn:Hhit;
    cbn [negb]; [| intros H; injection H as <- <-; exact Hwf].
  destruct (match nd_name v with
            | Some name => isSome (selectOtherNutrientNamed name id db)
            | None => false
            end) eqn:Hconflict; [discriminate |].
  destruct (parentExists (nd_parentNutrientId v) (nutrients db)) eqn:Hp;
    [| discriminate].
  intros H. injection H as <- <-.
  set (rows := map _ (nutrients db)).
  assert (Hsame : forall u, nutrientExists u db
                            <-> nutrientExists u (withNutrients db rows)).
  { intros u. rewrite !nutrientExists_iff. cbn [nutrients withNutrients].
    unfold rows. now rewrite updated_ids. }
  repeat split; cbn [nutrients withNutrients ingredientNutrients animalRequirements].
  - unfold rows. now rewrite updated_ids.
  - apply updated_names; trivial.
    intros name En m Hm Hid E. rewrite En in Hconflict.
    unfold selectOtherNutrientNamed in Hconflict.
    rewrite isSome_find in Hconflict.
    assert (Hex : existsb (fun n => String.eqb (n_name n) name
                                    && negb (N.eqb (n_id n) id)) (nutrients db)
                  = true); [| congruence].
    apply existsb_exists. exists m. split; [exact Hm |].
    apply andb_true_iff. split; [now apply String.eqb_eq |].
    apply negb_true_iff. now apply N.eqb_neq.
  - apply Forall_forall. intros n Hn u Hu. apply Hsame.
    apply in_map_iff in Hn. destruct Hn as (m & <- & Hm).
    rewrite Forall_forall in Hparents.
    destruct (N.eqb (n_id m) id); [| now apply (Hparents m Hm)].
    cbn [n_parentNutrientId applyNutrientSet] in Hu.
    destruct (nd_parentNutrientId v) as [w |] eqn:Ew; cbn [orKeep] in Hu.
    + injection Hu as <-. apply nutrientExists_iff.
      now apply nutrient_id_listed.
    + now apply (Hparents m Hm).
  - eapply Forall_impl; [| exact Hvalues]. intros r0 Hr0. now apply Hsame.
  - eapply Forall_impl; [| exact Hreqs]. intros r0 [Hr0 Href].
    split; [now apply Hsame |]. intros u Hu. apply Hsame. now apply Href.
Qed.

Lemma kept_nutrient_exists (u id : uuid) (db : NutrientDB) :
  u <> id -> nutrientExists u db ->
  In u (map n_id (filter (fun n => negb (N.eqb (n_id n) id)) (nutrients db))).
Proof.
  intros Hne Hu. apply nutrientExists_iff, in_map_iff in Hu.
  destruct Hu as (n & E & Hn). apply in_map_iff. exists n.
  split; [exact E |]. apply filter_In. split; [exact Hn |].
  apply negb_true_iff, N.eqb_neq. congruence.
Qed.

Lemma deleteNutrients_keeps (id : uuid) (db db' : NutrientDB) :
  wellFormedNutrients db ->
  isSome (selectNutrient id db) = true ->
  deleteNutrients id db = inr (tt, db') ->
  wellFormedNutrients db'.
Proof.
  intros (Hids & Hnames & Hparents & Hvalues & Hreqs) Hfound.
  unfold deleteNutrients. rewrite Hfound. cbn [andb].
  destruct (existsb _ (filter _ (nutrients db))) eqn:Hparent; [discriminate |].
  destruct (existsb _ (filter _ (animalRequirements db))) eqn:Href;
    [discriminate |].
  cbn [orb]. intros H. injection H as <-.
  assert (Hkept : forall u, u <> id -> nutrientExists u db ->
                            nutrientExists u
                              (mkNutrientDB
                                 (filter (fun n => negb (N.eqb (n_id n) id))
                                    (nutrients db))
                                 (filter (fun r => negb (N.eqb (in_nutrientId r) id))
                                    (ingredientNutrients db))
                                 (filter (fun r => negb (N.eqb (ar_nutrientId r) id))
                                    (animalRequirements db)))).
  { intros u Hne Hu. apply nutrientExists_iff. cbn [nutrients].
    now apply kept_nutrient_exists. }
  repeat split; cbn [nutrients ingredientNutrients animalRequirements].
  - now apply NoDup_map_filter.
  - now apply NoDup_map_filter.
  - apply Forall_forall. intros n Hn u Hu.
    rewrite Forall_forall in Hparents.
    assert (Hn' := Hn). apply filter_In in Hn'. destruct Hn' as [Hin _].
    apply Hkept; [| now apply (Hparents n Hin)].
    intros ->.
    assert (Hex : existsb (fun n => match n_parentNutrientId n with
                                    | Some u => N.eqb u id
                                    | None => false
                                    end)
                    (filter (fun n => negb (N.eqb (n_id n) id)) (nutrients db))
                  = true); [| congruence].
    apply existsb_exists. exists n. split; [exact Hn |].
    rewrite Hu. apply N.eqb_refl.
  - apply Forall_forall. intros r Hr. apply filter_In in Hr.
    destruct Hr as [Hin Hne]. rewrite Forall_forall in Hvalues.
    apply Hkept; [| now apply Hvalues].
    apply negb_true_iff, N.eqb_neq in Hne. exact Hne.
  - apply Forall_forall. intros r Hr. assert (Hr' := Hr).
    apply filter_In in Hr'. destruct Hr' as [Hin Hne].
    rewrite Forall_forall in Hreqs. destruct (Hreqs r Hin) as [Hn Hrefs].
    split.
    + apply Hkept; [| exact Hn].
      apply negb_true_iff, N.eqb_neq in Hne. exact Hne.
    + intros u Hu. apply Hkept; [| now apply Hrefs].
      intros ->.
      assert (Hex : existsb (fun r => match ar_referenceNutrientId r with
                                      | Some u => N.eqb u id
                                      | None => false
                                      end)
                      (filter (fun r => negb (N.eqb (ar_nutrientId r) id))
                         (animalRequirements db))
                    = true); [| congruence].
      apply existsb_exists. exists r. split; [exact Hr |].
      rewrite Hu. apply N.eqb_refl.
Qed.

(** X18. The actions that write nutrients keep the constraints the tables
    declare: nutrient ids and nutrient names stay distinct, a parent
    nutrient exists, and every ingredient value and every requirement keeps
    an existing nutrient and reference nutrient; a delete that succeeds
    leaves no row that references the deleted nutrient. *)
Theorem nutrient_actions_keep_wellFormed (a : NutrientAction) (db : NutrientDB) :
  wellFormedNutrients db -> wellFormedNutrients (runNutrient a db).
Proof.
  intros Hwf. destruct a as [newId p | id p | id]; cbn [runNutrient].
  - unfold createNutrient.
    destruct (validateNutrient insertNutrientSchema p) as [errors | v];
      [exact Hwf |].
    destruct (nd_name v) as [name |]; [| exact Hwf].
    destruct (isSome (selectNutrientNamed name db)); [exact Hwf |].
    destruct (insertNutrient newId v db) as [e | [row db']] eqn:Hins;
      [exact Hwf |].
    exact (@insertNutrient_keeps newId v db db' row Hwf Hins).
  - unfold updateNutrient.
    destruct (idSchema_parse id) as [e | u]; [exact Hwf |].
    destruct (validateNutrient insertNutrientSchema_partial p) as [errors | v];
      [exact Hwf |].
    destruct (selectNutrient u db); [| exact Hwf].
    destruct (duplicateCheck v u db) as [e | []]; [exact Hwf | exact Hwf |].
    destruct (updateNutrients v u db) as [e | [rows db']] eqn:Hupd;
      [exact Hwf |].
    exact (@updateNutrients_keeps v u db db' rows Hwf Hupd).
  - unfold deleteNutrient.
    destruct (idSchema_parse id) as [e | u]; [exact Hwf |].
    destruct (selectNutrient u db) as [n |] eqn:Hn; [| exact Hwf].
    destruct (deleteNutrients u db) as [e | [[] db']] eqn:Hdel; [exact Hwf |].
    refine (@deleteNutrients_keeps u db db' Hwf _ Hdel).
    now rewrite Hn.
Qed.

Lemma nutrient_sample_wellFormed : wellFormedNutrients NutrientSample.db0.
Proof.
  repeat split.
  - repeat constructor; simpl; intuition discriminate.
  - repeat constructor; simpl; intuition discriminate.
  - repeat constructor; intros u E; try discriminate E.
    injection E as <-. reflexivity.
  - repeat constructor.
  - repeat constructor. intros u E. injection E as <-. reflexivity.
Qed.

Lemma nutrient_actions_keep_wellFormed_witness :
  wellFormedNutrients
    (runNutrient (DeleteNutrient (Uuid NutrientSample.energyId))
       NutrientSample.db0).
Proof.
  apply (@nutrient_actions_keep_wellFormed
           (DeleteNutrient (Uuid NutrientSample.energyId)) NutrientSample.db0).
  exact nutrient_sample_wellFormed.
Defined.

(** ** updateNutrient *)

Lemma key_accepted (A : Type) (path : string) (required : bool)
  (ok : A -> bool) (x : A) :
  Zod.key path required ok (Some x) = [] -> ok x = true.
Proof.
  unfold Zod.key. destruct (ok x); [reflexivity | discriminate].
Qed.

Lemma find_is_first (A : Type) (p : A -> bool) (l : list A) :
  hd_error (filter p l) = find p l.
Proof.
  induction l as [| x l IH]; simpl; [reflexivity |].
  destruct (p x); [reflexivity | exact IH].
Qed.

Lemma find_nutrient_map (g : Nutrient -> Nutrient) (u : uuid)
  (l : list Nutrient) :
  (forall n, n_id (g n) = n_id n) ->
  find (fun n => N.eqb (n_id n) u) (map g l)
  = option_map g (find (fun n => N.eqb (n_id n) u) l).
Proof.
  intros Hg. induction l as [| x l IH]; simpl; [reflexivity |].
  rewrite Hg. destruct (N.eqb (n_id x) u); [reflexivity | exact IH].
Qed.

Lemma selectNutrient_id (u : uuid) (db : NutrientDB) (n : Nutrient) :
  selectNutrient u db = Some n -> n_id n = u /\ In n (nutrients db).
Proof.
  unfold selectNutrient. intros H. apply find_some in H.
  destruct H as [Hin E]. split; [now apply N.eqb_eq | exact Hin].
Qed.

Lemma select_after_update (u w : uuid) (v : NutrientData) (db : NutrientDB) :
  selectNutrient w
    (withNutrients db
       (map (fun n => if N.eqb (n_id n) u then applyNutrientSet v n else n)
          (nutrients db)))
  = if N.eqb w u then option_map (applyNutrientSet v) (selectNutrient w db)
    else selectNutrient w db.
Proof.
  unfold selectNutrient at 1. cbn [nutrients withNutrients].
  rewrite find_nutrient_map
    by (intros n; destruct (N.eqb (n_id n) u); reflexivity).
  fold (selectNutrient w db).
  destruct (selectNutrient w db) as [n |] eqn:Hn;
    [| now destruct (N.eqb w u)].
  destruct (selectNutrient_id _ _ Hn) as [<- _]. cbn [option_map].
  now destruct (N.eqb (n_id n) u).
Qed.

(** X19. What updateNutrient answers for an id in uuid form, case by case:
    the validation failure when the partial schema refuses the payload;
    Nutrient not found; the generic database failure whenever the payload
    carries a name, since the duplicate check then evaluates the [sql] tag,
    which the module does not import; for a payload without a name, a
    failure when it names a parent that does not exist, and success
    otherwise. On success the stored nutrient, which the answer carries, is
    the old one with the keys of the payload written over its columns, and
    nothing else changes; in every other case nothing is written. *)
Theorem updateNutrient_outcome (u : uuid) (p : NutrientPayload)
  (db : NutrientDB) :
  match validateNutrient insertNutrientSchema_partial p with
  | inl errors => updateNutrient (Uuid u) p db = (validationFailed errors, db)
  | inr v =>
      match selectNutrient u db with
      | None =>
          updateNutrient (Uuid u) p db
          = (createErrorResponse "Nutrient not found" None, db)
      | Some n =>
          match np_name p with
          | Some _ =>
              updateNutrient (Uuid u) p db
              = (mkActionResult false None (Some "Database operation failed")
                   (Some "An unexpected error occurred. Please try again.")
                   None, db)
          | None =>
              if parentExists (nd_parentNutrientId v) (nutrients db) then
                fst (updateNutrient (Uuid u) p db)
                = createSuccessResponse (Some (applyNutrientSet v n))
                    (Some "Nutrient updated successfully")
                /\ selectNutrient u (snd (updateNutrient (Uuid u) p db))
                   = Some (applyNutrientSet v n)
                /\ (forall w, w <> u ->
                              selectNutrient w
                                (snd (updateNutrient (Uuid u) p db))
                              = selectNutrient w db)
                /\ map n_id (nutrients (snd (updateNutrient (Uuid u) p db)))
                   = map n_id (nutrients db)
                /\ ingredientNutrients (snd (updateNutrient (Uuid u) p db))
                   = ingredientNutrients db
                /\ animalRequirements (snd (updateNutrient (Uuid u) p db))
                   = animalRequirements db
              else
                success (fst (updateNutrient (Uuid u) p db)) = false
                /\ snd (updateNutrient (Uuid u) p db) = db
          end
      end
  end.
Proof.
  unfold updateNutrient. cbn [idSchema_parse].
  destruct (validateNutrient insertNutrientSchema_partial p) as [errors | v]
    eqn:Hv; [reflexivity |].
  destruct (selectNutrient u db) as [n |] eqn:Hn; [| reflexivity].
  destruct (@validateNutrient_inv _ _ _ Hv) as [Hi Ev].
  assert (Ename : nd_name v = np_name p) by (now rewrite Ev).
  unfold duplicateCheck. rewrite Ename.
  destruct (np_name p) as [name |] eqn:En.
  - unfold nutrientIssues in Hi. split_issues Hi. rewrite En in Hkey.
    apply key_accepted in Hkey.
    destruct name; [discriminate Hkey | reflexivity].
  - assert (Hhit : existsb (fun m => N.eqb (n_id m) u) (nutrients db) = true).
    { rewrite <- isSome_find. fold (selectNutrient u db). now rewrite Hn. }
    unfold updateNutrients. rewrite Hhit, Ename. cbn [negb].
    destruct (parentExists (nd_parentNutrientId v) (nutrients db));
      [| split; reflexivity].
    cbn [fst snd]. rewrite find_is_first.
    pose proof (@select_after_update u u v db) as Hsel.
    unfold selectNutrient at 1 in Hsel. cbn [nutrients withNutrients] in Hsel.
    rewrite N.eqb_refl, Hn in Hsel. cbn [option_map] in Hsel.
    split; [now rewrite Hsel |].
    split; [unfold selectNutrient; cbn [nutrients withNutrients]; exact Hsel |].
    split.
    { intros w Hw. rewrite select_after_update.
      apply N.eqb_neq in Hw. now rewrite Hw. }
    split; [cbn [nutrients withNutrients]; apply updated_ids |].
    split; reflexivity.
Qed.

(** ** deleteNutrient *)

Lemma inUse_checked (id : uuid) (db : NutrientDB) :
  existsb (fun n => match n_parentNutrientId n with
                    | Some u => N.eqb u id
                    | None => false
                    end)
    (filter (fun n => negb (N.eqb (n_id n) id)) (nutrients db))
  || existsb (fun r => match ar_referenceNutrientId r with
                       | Some u => N.eqb u id
                       | None => false
                       end)
       (filter (fun r => negb (N.eqb (ar_nutrientId r) id))
          (animalRequirements db)) = true
  <-> inUse id db.
Proof.
  rewrite orb_true_iff, !existsb_exists. unfold inUse. split.
  - intros [(n & Hn & Hp) | (r & Hr & Hp)].
    + left. apply filter_In in Hn. destruct Hn as [Hin Hne].
      apply negb_true_iff, N.eqb_neq in Hne.
      destruct (n_parentNutrientId n) as [w |] eqn:Ew; [| discriminate].
      apply N.eqb_eq in Hp. subst w. now exists n.
    + right. apply filter_In in Hr. destruct Hr as [Hin Hne].
      apply negb_true_iff, N.eqb_neq in Hne.
      destruct (ar_referenceNutrientId r) as [w |] eqn:Ew; [| discriminate].
      apply N.eqb_eq in Hp. subst w. now exists r.
  - intros [(n & Hin & Hne & Hp) | (r & Hin & Hne & Hp)].
    + left. exists n. split.
      * apply filter_In. split; [exact Hin |].
        now apply negb_true_iff, N.eqb_neq.
      * rewrite Hp. apply N.eqb_refl.
    + right. exists r. split.
      * apply filter_In. split; [exact Hin |].
        now apply negb_true_iff, N.eqb_neq.
      * rewrite Hp. apply N.eqb_refl.
Qed.

Lemma select_after_removal (u w : uuid) (l : list Nutrient) :
  find (fun n => N.eqb (n_id n) w)
    (filter (fun n => negb (N.eqb (n_id n) u)) l)
  = if N.eqb w u then None else find (fun n => N.eqb (n_id n) w) l.
Proof.
  induction l as [| x l IH]; simpl; [now destruct (N.eqb w u) |].
  destruct (N.eqb_spec (n_id x) u) as [Ex | Nx]; cbn [negb].
  - rewrite IH. destruct (N.eqb_spec w u) as [Ew | Nw]; [reflexivity |].
    destruct (N.eqb_spec (n_id x) w) as [E | _]; [congruence | reflexivity].
  - simpl. destruct (N.eqb_spec (n_id x) w) as [E | _]; [| exact IH].
    destruct (N.eqb_spec w u) as [Ew | _]; [congruence | reflexivity].
Qed.

(** X20. What deleteNutrient answers for an id in uuid form. Nutrient not
    found when no nutrient has the id. Cannot delete nutrient, with nothing
    written, exactly when the nutrient is in use: another nutrient has it as
    parent, or a requirement of another nutrient has it as reference
    nutrient. Otherwise it succeeds with a message that names the nutrient:
    the nutrient is gone, and with it every ingredient value and every
    requirement of that nutrient, while the other nutrients, values and
    requirements stay. Ingredient values of a nutrient do not protect it
    from deletion: they are deleted with it. *)
Theorem deleteNutrient_outcome (u : uuid) (db : NutrientDB) :
  match selectNutrient u db with
  | None =>
      deleteNutrient (Uuid u) db
      = (createErrorResponse "Nutrient not found" None, db)
  | Some n =>
      (inUse u db ->
       deleteNutrient (Uuid u) db
       = (createErrorResponse "Cannot delete nutrient"
            (Some "This nutrient is being used by ingredients or animal requirements. Remove those references first."),
          db))
      /\ (~ inUse u db ->
          fst (deleteNutrient (Uuid u) db)
          = createSuccessResponse None
              (Some ("Nutrient " ++ quote ++ n_name n ++ quote
                       ++ " deleted successfully"))
          /\ selectNutrient u (snd (deleteNutrient (Uuid u) db)) = None
          /\ (forall w, w <> u ->
                        selectNutrient w (snd (deleteNutrient (Uuid u) db))
                        = selectNutrient w db)
          /\ (forall r, In r (ingredientNutrients (snd (deleteNutrient (Uuid u) db)))
                        <-> In r (ingredientNutrients db) /\ in_nutrientId r <> u)
          /\ (forall r, In r (animalRequirements (snd (deleteNutrient (Uuid u) db)))
                        <-> In r (animalRequirements db) /\ ar_nutrientId r <> u))
  end.
Proof.
  unfold deleteNutrient. cbn [idSchema_parse].
  destruct (selectNutrient u db) as [n |] eqn:Hn; [| reflexivity].
  pose proof (inUse_checked u db) as Hused.
  unfold deleteNutrients. rewrite Hn. cbn [isSome andb].
  destruct (existsb _ (filter _ (nutrients db))
            || existsb _ (filter _ (animalRequirements db))) eqn:Hb.
  - split; [reflexivity |]. intros Hfree. exfalso. apply Hfree.
    now apply Hused.
  - split.
    + intros Hin. apply Hused in Hin. discriminate Hin.
    + intros _. cbn [fst snd]. split; [reflexivity |].
      split.
      { unfold selectNutrient. cbn [nutrients].
        rewrite select_after_removal. now rewrite N.eqb_refl. }
      split.
      { intros w Hw. unfold selectNutrient. cbn [nutrients].
        rewrite select_after_removal. apply N.eqb_neq in Hw. now rewrite Hw. }
      split.
      { intros r. cbn [ingredientNutrients]. rewrite filter_In.
        now rewrite negb_true_iff, N.eqb_neq. }
      { intros r. cbn [animalRequirements]. rewrite filter_In.
        now rewrite negb_true_iff, N.eqb_neq. }
Qed.

(** ** The lists of nutrients *)

Lemma ordered_In (A : Type) (key : A -> Z) (l : list A) (x : A) :
  In x (orderByAsc key l) <-> In x l.
Proof.
  split; apply Permutation_in;
    [apply Permutation_sym |]; apply orderByAsc_perm.
Qed.

Lemma filter_perm (A : Type) (p : A -> bool) (l l' : list A) :
  Permutation l l' -> Permutation (filter p l) (filter p l').
Proof.
  induction 1 as [| x l l' H IH | x y l | l l' l'' H1 IH1 H2 IH2]; simpl.
  - apply perm_nil.
  - destruct (p x); [now apply perm_skip | exact IH].
  - destruct (p x), (p y); try apply Permutation_refl. apply perm_swap.
  - now apply perm_trans with (filter p l').
Qed.

(** X21. The three lists of nutrients for forms. getVisibleNutrients lists
    the visible nutrients, getEssentialNutrients those of them that are
    required, getNutrientsByCategory those of them that have the category
    (none for a category no visible nutrient has); each nutrient is listed
    as often as it is stored, and every list is in ascending display
    order. None of the three calls fails or writes. *)
Theorem nutrient_lists (db : NutrientDB) :
  exists visible essential,
    getVisibleNutrients db = (createSuccessResponse (Some visible) None, db)
    /\ getEssentialNutrients db
       = (createSuccessResponse (Some essential) None, db)
    /\ Permutation visible (filter n_isVisible (nutrients db))
    /\ Permutation essential (filter n_isRequired visible)
    /\ StronglySorted (fun a b => (n_displayOrder a <= n_displayOrder b)%Z)
         visible
    /\ StronglySorted (fun a b => (n_displayOrder a <= n_displayOrder b)%Z)
         essential
    /\ forall category,
        exists listed,
          getNutrientsByCategory category db
          = (createSuccessResponse (Some listed) None, db)
          /\ Permutation listed
               (filter (fun n => String.eqb (n_category n) category) visible)
          /\ StronglySorted
               (fun a b => (n_displayOrder a <= n_displayOrder b)%Z) listed
          /\ ((forall n, In n (nutrients db) -> n_isVisible n = true ->
                         n_category n <> category) -> listed = []).
Proof.
  assert (Hfilter : forall (p : Nutrient -> bool) (l : list Nutrient),
             Permutation (filter p (orderByAsc n_displayOrder l)) (filter p l)).
  { intros q l. apply filter_perm, Permutation_sym, orderByAsc_perm. }
  assert (Hboth : forall (q : Nutrient -> bool) (l : list Nutrient),
             filter (fun n => q n && n_isVisible n) l
             = filter q (filter n_isVisible l)).
  { intros q l. induction l as [| x l IH]; simpl; [reflexivity |].
    destruct (n_isVisible x); simpl.
    - rewrite andb_true_r. destruct (q x); [now rewrite IH | exact IH].
    - rewrite andb_false_r. exact IH. }
  eexists. eexists. split; [reflexivity |]. split; [reflexivity |].
  split; [apply Permutation_sym, orderByAsc_perm |].
  split.
  { eapply perm_trans; [apply Permutation_sym, orderByAsc_perm |].
    rewrite Hboth. apply Permutation_sym, Hfilter. }
  split; [apply orderByAsc_sorted |].
  split; [apply orderByAsc_sorted |].
  intros category. eexists. split; [reflexivity |].
  split.
  { eapply perm_trans; [apply Permutation_sym, orderByAsc_perm |].
    rewrite Hboth. apply Permutation_sym, Hfilter. }
  split; [apply orderByAsc_sorted |].
  intros Hnone.
  assert (Hempty : filter (fun n => String.eqb (n_category n) category
                                    && n_isVisible n) (nutrients db) = []).
  { induction (nutrients db) as [| x l IH]; simpl; [reflexivity |].
    destruct (String.eqb_spec (n_category x) category) as [E | _];
      destruct (n_isVisible x) eqn:Hvis; simpl;
      try (apply IH; intros n Hn; apply Hnone; now right).
    exfalso. exact (Hnone x (or_introl eq_refl) Hvis E). }
  now rewrite Hempty.
Qed.

(** ** Nutrients grouped by category *)

Lemma string_compare_refl (s : string) : String.compare s s = Eq.
Proof.
  induction s as [| a s IH]; simpl; [reflexivity |].
  unfold Ascii.compare. now rewrite N.compare_refl.
Qed.

Lemma string_compare_lt_trans (s t u : string) :
  String.compare s t = Lt -> String.compare t u = Lt -> String.compare s u = Lt.
Proof.
  revert t u. induction s as [| a s IH]; intros [| b t] [| c u]; simpl;
    try discriminate; try reflexivity.
  destruct (Ascii.compare a b) eqn:Eab; destruct (Ascii.compare b c) eqn:Ebc;
    try discriminate.
  - apply Ascii.compare_eq_iff in Eab, Ebc. subst.
    unfold Ascii.compare. rewrite N.compare_refl. apply IH.
  - apply Ascii.compare_eq_iff in Eab. subst. now rewrite Ebc.
  - apply Ascii.compare_eq_iff in Ebc. subst. now rewrite Eab.
  - intros _ _. unfold Ascii.compare in *.
    rewrite N.compare_lt_iff in *. 
    assert (H : (N_of_ascii a < N_of_ascii c)%N) by (eapply N.lt_trans; eassumption).
    apply N.compare_lt_iff in H. now rewrite H.
Qed.

(** The order of the grouped query is a total preorder. *)
Lemma sortsBefore_asym (x y : Nutrient) :
  sortsBefore y x = true -> sortsBefore x y = false.
Proof.
  unfold sortsBefore. rewrite (String.compare_antisym (n_category x)).
  destruct (String.compare (n_category y) (n_category x)); simpl;
    try discriminate; try reflexivity.
  intros H. apply Z.ltb_lt in H. apply Z.ltb_ge. lia.
Qed.

Lemma sortsBefore_negtrans (x y z : Nutrient) :
  sortsBefore z y = false -> sortsBefore y x = false ->
  sortsBefore z x = false.
Proof.
  unfold sortsBefore.
  destruct (String.compare (n_category z) (n_category y)) eqn:Ezy;
    [| discriminate |];
    (destruct (String.compare (n_category y) (n_category x)) eqn:Eyx;
     [| discriminate |]).
  - apply String.compare_eq_iff in Ezy, Eyx. rewrite Ezy, Eyx.
    rewrite string_compare_refl. intros H1 H2.
    apply Z.ltb_ge in H1, H2. apply Z.ltb_ge. lia.
  - apply String.compare_eq_iff in Ezy. rewrite Ezy, Eyx. reflexivity.
  - apply String.compare_eq_iff in Eyx. rewrite <- Eyx, Ezy. reflexivity.
  - intros _ _.
    assert (H : String.compare (n_category x) (n_category z) = Lt).
    { apply string_compare_lt_trans with (n_category y).
      - rewrite String.compare_antisym, Eyx. reflexivity.
      - rewrite String.compare_antisym, Ezy. reflexivity. }
    rewrite String.compare_antisym, H. reflexivity.
Qed.

Lemma insertByCategory_perm (x : Nutrient) (l : list Nutrient) :
  Permutation (insertByCategory x l) (x :: l).
Proof.
  induction l as [| y l IH]; simpl; [apply Permutation_refl |].
  destruct (sortsBefore y x); [| apply Permutation_refl].
  apply perm_trans with (y :: x :: l); [now apply perm_skip | apply perm_swap].
Qed.

Lemma orderByCategory_perm (l : list Nutrient) :
  Permutation (orderByCategory l) l.
Proof.
  induction l as [| x l IH]; simpl; [apply perm_nil |].
  apply perm_trans with (x :: orderByCategory l);
    [apply insertByCategory_perm | now apply perm_skip].
Qed.

Lemma insertByCategory_sorted (x : Nutrient) (l : list Nutrient) :
  StronglySorted (fun a b => sortsBefore b a = false) l ->
  StronglySorted (fun a b => sortsBefore b a = false) (insertByCategory x l).
Proof.
  induction l as [| y l IH]; simpl; intros Hl.
  - constructor; constructor.
  - inversion Hl as [| ? ? Hl' Hy]; subst.
    destruct (sortsBefore y x) eqn:Hyx.
    + constructor; [now apply IH |].
      apply Forall_forall. intros z Hz.
      apply (Permutation_in _ (insertByCategory_perm x l)) in Hz.
      destruct Hz as [<- | Hz].
      * now apply sortsBefore_asym.
      * rewrite Forall_forall in Hy. now apply Hy.
    + constructor; [exact Hl |].
      constructor; [exact Hyx |].
      apply Forall_forall. intros z Hz. rewrite Forall_forall in Hy.
      apply sortsBefore_negtrans with y; [now apply Hy | exact Hyx].
Qed.

Lemma orderByCategory_sorted (l : list Nutrient) :
  StronglySorted (fun a b => sortsBefore b a = false) (orderByCategory l).
Proof.
  induction l as [| x l IH]; simpl; [constructor |].
  now apply insertByCategory_sorted.
Qed.

Lemma StronglySorted_filter (A : Type) (R : A -> A -> Prop) (p : A -> bool)
  (l : list A) :
  StronglySorted R l -> StronglySorted R (filter p l).
Proof.
  induction 1 as [| x l Hl IH Hx]; simpl; [constructor |].
  destruct (p x); [| exact IH].
  constructor; [exact IH |].
  apply Forall_forall. intros y Hy. apply filter_In in Hy.
  rewrite Forall_forall in Hx. now apply Hx.
Qed.

Lemma StronglySorted_among (A : Type) (R R' : A -> A -> Prop) (l : list A) :
  (forall a b, In a l -> In b l -> R a b -> R' a b) ->
  StronglySorted R l -> StronglySorted R' l.
Proof.
  intros Himp H. induction H as [| x l Hl IH Hx]; [constructor |].
  constructor.
  - apply IH. intros a b Ha Hb. apply Himp; now right.
  - apply Forall_forall. intros y Hy. rewrite Forall_forall in Hx.
    apply Himp; [now left | now right | now apply Hx].
Qed.

(** The nutrients of one category, in the order of the grouped query, are
    in ascending display order. *)
Lemma category_in_display_order (category : string) (l : list Nutrient) :
  StronglySorted (fun a b => (n_displayOrder a <= n_displayOrder b)%Z)
    (filter (fun n => String.eqb (n_category n) category) (orderByCategory l)).
Proof.
  apply StronglySorted_among
    with (R := fun a b => sortsBefore b a = false);
    [| apply StronglySorted_filter, orderByCategory_sorted].
  intros a b Ha Hb H. apply filter_In in Ha, Hb.
  destruct Ha as [_ Ea], Hb as [_ Eb].
  apply String.eqb_eq in Ea, Eb. unfold sortsBefore in H.
  rewrite Ea, Eb, string_compare_refl in H. apply Z.ltb_ge in H. exact H.
Qed.

Lemma ownProperty_added (A : Type) (key key' : string) (x : A)
  (obj : list (string * A)) :
  ownProperty key obj = None ->
  ownProperty key' (obj ++ [(key, x)])
  = if String.eqb key key' then Some x else ownProperty key' obj.
Proof.
  unfold ownProperty. intros Hnone.
  destruct (String.eqb_spec key key') as [<- | Hne].
  - destruct (find (fun kv => String.eqb (fst kv) key) obj) eqn:Hf;
      [discriminate |].
    rewrite (find_none_app _ _ [(key, x)] Hf). simpl.
    now rewrite String.eqb_refl.
  - destruct (find (fun kv => String.eqb (fst kv) key') obj) eqn:Hf.
    + now rewrite (find_some_app _ _ [(key, x)] Hf).
    + rewrite (find_none_app _ _ [(key, x)] Hf). simpl.
      apply String.eqb_neq in Hne. now rewrite Hne.
Qed.

Lemma ownProperty_pushed (key key' : string) (n : Nutrient)
  (obj : list (string * list Nutrient)) :
  ownProperty key'
    (map (fun kv => if String.eqb (fst kv) key
                    then (fst kv, (snd kv ++ [n])%list) else kv) obj)
  = if String.eqb key key'
    then option_map (fun g => (g ++ [n])%list) (ownProperty key' obj)
    else ownProperty key' obj.
Proof.
  unfold ownProperty. induction obj as [| [k g] obj IH]; simpl.
  - now destruct (String.eqb key key').
  - destruct (String.eqb_spec k key) as [-> | Hk]; simpl.
    + destruct (String.eqb_spec key key') as [_ | _]; [reflexivity |].
      exact IH.
    + destruct (String.eqb_spec k key') as [-> | Hk'].
      * apply String.eqb_neq in Hk. rewrite String.eqb_sym in Hk.
        now rewrite Hk.
      * exact IH.
Qed.

(** The own properties after one step, when the step does not throw. *)
Lemma groupStep_properties (acc acc' : list (string * list Nutrient))
  (n : Nutrient) (key : string) :
  groupStep acc n = inr acc' ->
  ownProperty key acc'
  = if String.eqb (n_category n) key
    then Some (match ownProperty key acc with
               | Some g => g ++ [n]
               | None => [n]
               end)%list
    else ownProperty key acc.
Proof.
  unfold groupStep.
  destruct (ownProperty (n_category n) acc) as [g |] eqn:Hown.
  - intros H. injection H as <-. rewrite ownProperty_pushed.
    destruct (String.eqb_spec (n_category n) key) as [<- | _];
      [| reflexivity].
    now rewrite Hown.
  - destruct (inherits (n_category n)); [discriminate |].
    intros H. injection H as <-.
    rewrite (@ownProperty_added _ (n_category n) key [n] acc Hown).
    destruct (String.eqb_spec (n_category n) key) as [<- | _];
      [| reflexivity].
    now rewrite Hown.
Qed.

Lemma reduceGroups_properties (l : list Nutrient) :
  forall (acc obj : list (string * list Nutrient)) (key : string),
    reduceGroups acc l = inr obj ->
    ownProperty key obj
    = match ownProperty key acc,
            filter (fun n => String.eqb (n_category n) key) l with
      | None, [] => None
      | None, g => Some g
      | Some g0, g => Some (g0 ++ g)%list
      end.
Proof.
  induction l as [| n l IH]; intros acc obj key; simpl.
  - intros H. injection H as <-.
    destruct (ownProperty key acc); [now rewrite app_nil_r | reflexivity].
  - destruct (groupStep acc n) as [e | acc'] eqn:Hstep; [discriminate |].
    intros H. rewrite (IH acc' obj key H).
    rewrite (@groupStep_properties acc acc' n key Hstep).
    destruct (String.eqb (n_category n) key).
    + destruct (ownProperty key acc) as [g0 |].
      * now rewrite <- app_assoc.
      * reflexivity.
    + reflexivity.
Qed.

Lemma reduceGroups_succeeds (l : list Nutrient) :
  forall acc,
    (forall n, In n l -> inherits (n_category n) = false) ->
    exists obj, reduceGroups acc l = inr obj.
Proof.
  induction l as [| n l IH]; intros acc Hl; simpl; [now exists acc |].
  assert (Hstep : exists acc', groupStep acc n = inr acc').
  { unfold groupStep. rewrite (Hl n (or_introl eq_refl)).
    destruct (ownProperty (n_category n) acc); eexists; reflexivity. }
  destruct Hstep as (acc' & ->).
  apply IH. intros m Hm. apply Hl. now right.
Qed.

Lemma reduceGroups_throws (l : list Nutrient) :
  forall acc,
    (forall key, inherits key = true -> ownProperty key acc = None) ->
    (exists n, In n l /\ inherits (n_category n) = true) ->
    reduceGroups acc l
    = inl (JsError "acc[nutrient.category].push is not a function").
Proof.
  induction l as [| x l IH]; intros acc Hacc (n & Hn & Hinh);
    [destruct Hn |].
  simpl. destruct (inherits (n_category x)) eqn:Hx.
  - unfold groupStep. rewrite (Hacc _ Hx), Hx. reflexivity.
  - destruct (groupStep acc x) as [e | acc'] eqn:Hstep.
    + unfold groupStep in Hstep. rewrite Hx in Hstep.
      destruct (ownProperty (n_category x) acc); discriminate.
    + apply IH.
      * intros key Hkey. rewrite (@groupStep_properties acc acc' x key Hstep).
        destruct (String.eqb_spec (n_category x) key) as [E | _];
          [congruence | now apply Hacc].
      * exists n. split; [| exact Hinh].
        destruct Hn as [<- | Hn]; [congruence | exact Hn].
Qed.

Lemma grouped_rows (db : NutrientDB) (n : Nutrient) :
  In n (orderByCategory (filter n_isVisible (nutrients db)))
  <-> In n (nutrients db) /\ n_isVisible n = true.
Proof.
  rewrite <- filter_In. split; apply Permutation_in;
    [| apply Permutation_sym]; apply orderByCategory_perm.
Qed.

Lemma category_listed (db : NutrientDB) (category : string) :
  In category
    (orderByText
       (nodup string_dec (map n_category (filter n_isVisible (nutrients db)))))
  <-> exists n, In n (nutrients db) /\ n_isVisible n = true
                /\ n_category n = category.
Proof.
  split.
  - intros H. apply (Permutation_in _ (orderByText_perm _)) in H.
    apply nodup_In, in_map_iff in H. destruct H as (n & E & Hn).
    apply filter_In in Hn. exists n. now repeat split.
  - intros (n & Hn & Hv & E).
    apply (Permutation_in _ (Permutation_sym (orderByText_perm _))).
    apply nodup_In, in_map_iff. exists n. split; [exact E |].
    apply filter_In. now split.
Qed.

(** X22. getKeyNutrientsByCategory, when no visible nutrient has a category
    named like a property every object inherits: the call succeeds and
    writes nothing; the object it answers has one property per category of
    a visible nutrient, and none else; the property holds the visible
    nutrients of the category, each as often as stored, in ascending
    display order. Its keys, the empty string apart, are the categories
    getNutrientCategories lists. *)
Theorem getKeyNutrientsByCategory_groups (db : NutrientDB) :
  (forall n, In n (nutrients db) -> n_isVisible n = true ->
             inherits (n_category n) = false) ->
  exists groups categories,
    getKeyNutrientsByCategory db
    = (createSuccessResponse (Some groups) None, db)
    /\ getNutrientCategories db
       = (createSuccessResponse (Some categories) None, db)
    /\ (forall category,
           In category categories
           <-> category <> "" /\ ownProperty category groups <> None)
    /\ forall category,
        match ownProperty category groups with
        | None =>
            forall n, In n (nutrients db) -> n_isVisible n = true ->
                      n_category n <> category
        | Some group =>
            group <> []
            /\ Permutation group
                 (filter (fun n => String.eqb (n_category n) category)
                    (filter n_isVisible (nutrients db)))
            /\ StronglySorted
                 (fun a b => (n_displayOrder a <= n_displayOrder b)%Z) group
        end.
Proof.
  intros Hsafe.
  set (l := orderByCategory (filter n_isVisible (nutrients db))).
  destruct (@reduceGroups_succeeds l []) as (groups & Hgroups).
  { intros n Hn. apply grouped_rows in Hn. now apply Hsafe. }
  assert (Hown : forall category,
             ownProperty category groups
             = match filter (fun n => String.eqb (n_category n) category) l with
               | [] => None
               | g => Some g
               end).
  { intros category.
    now rewrite (@reduceGroups_properties l [] groups category Hgroups). }
  assert (Hkeys : forall category,
             ownProperty category groups <> None
             <-> exists n, In n (nutrients db) /\ n_isVisible n = true
                           /\ n_category n = category).
  { intros category. rewrite Hown.
    destruct (filter (fun n => String.eqb (n_category n) category) l)
      as [| x g] eqn:Hf.
    - split; [congruence |]. intros (n & Hn & Hv & E). exfalso.
      assert (Hin : In n (filter (fun n => String.eqb (n_category n) category) l)).
      { apply filter_In. split; [now apply grouped_rows |].
        now apply String.eqb_eq. }
      rewrite Hf in Hin. destruct Hin.
    - split; [| discriminate]. intros _.
      assert (Hin : In x (filter (fun n => String.eqb (n_category n) category) l))
        by (rewrite Hf; now left).
      apply filter_In in Hin. destruct Hin as [Hx E].
      apply grouped_rows in Hx. apply String.eqb_eq in E.
      exists x. now repeat split. }
  exists groups. eexists.
  split; [unfold getKeyNutrientsByCategory; fold l; now rewrite Hgroups |].
  split; [reflexivity |].
  split.
  { intros category. rewrite filter_In, negb_true_iff, String.eqb_neq.
    rewrite category_listed, Hkeys. tauto. }
  intros category.
  destruct (ownProperty category groups) as [group |] eqn:Hg.
  - rewrite Hown in Hg.
    assert (Egroup : group = filter (fun n => String.eqb (n_category n) category) l).
    { destruct (filter (fun n => String.eqb (n_category n) category) l);
        [discriminate | now injection Hg as <-]. }
    split.
    { intros ->. rewrite <- Egroup in Hg. discriminate Hg. }
    rewrite Egroup. split.
    + apply filter_perm, orderByCategory_perm.
    + apply category_in_display_order.
  - intros n Hn Hv E.
    assert (Hex : ownProperty category groups <> None)
      by (apply Hkeys; now exists n).
    exact (Hex Hg).
Qed.

Lemma getKeyNutrientsByCategory_groups_witness :
  exists groups,
    getKeyNutrientsByCategory NutrientSample.db0
    = (createSuccessResponse (Some groups) None, NutrientSample.db0)
    /\ match ownProperty "Protein" groups with
       | None => False
       | Some group =>
           Permutation group [NutrientSample.protein; NutrientSample.lysine]
       end.
Proof.
  destruct (@getKeyNutrientsByCategory_groups NutrientSample.db0)
    as (groups & categories & H1 & _ & _ & H2).
  - intros n [<- | [<- | [<- | []]]] _; reflexivity.
  - exists groups. split; [exact H1 |].
    specialize (H2 "Protein").
    destruct (ownProperty "Protein" groups) as [group |].
    + exact (proj1 (proj2 H2)).
    + exact (H2 NutrientSample.protein (or_intror (or_introl eq_refl))
               eq_refl eq_refl).
Defined.

(** A visible nutrient whose category is the name of an inherited property
    makes the grouping throw. *)
Lemma grouping_throws (db : NutrientDB) (n : Nutrient) :
  In n (nutrients db) -> n_isVisible n = true ->
  inherits (n_category n) = true ->
  getKeyNutrientsByCategory db
  = (mkActionResult false None (Some "Database operation failed")
       (Some "An unexpected error occurred. Please try again.") None, db).
Proof.
  intros Hn Hv Hinh. unfold getKeyNutrientsByCategory.
  rewrite reduceGroups_throws; [reflexivity | reflexivity |].
  exists n. split; [now apply grouped_rows | exact Hinh].
Qed.

Lemma createNutrient_success (newId : uuid) (p : NutrientPayload)
  (db : NutrientDB) :
  success (fst (createNutrient newId p db)) = true ->
  exists v row,
    validateNutrient insertNutrientSchema p = inr v
    /\ nutrientOfValues newId v = Some row
    /\ selectNutrient newId db = None
    /\ selectNutrientNamed (n_name row) db = None
    /\ createNutrient newId p db
       = (createSuccessResponse (Some row) (Some "Nutrient created successfully"),
          withNutrients db (nutrients db ++ [row])).
Proof.
  unfold createNutrient.
  destruct (validateNutrient insertNutrientSchema p) as [errors | v] eqn:Hv;
    [discriminate |].
  destruct (@accepted_nutrient_row newId p v Hv)
    as (name & displayName & category & unit_ & unitType
        & _ & _ & _ & _ & _ & _ & _ & Ename & _ & Erow).
  rewrite Ename.
  destruct (selectNutrientNamed name db) eqn:Hdup; [discriminate |].
  cbn [isSome]. unfold insertNutrient. rewrite Erow.
  cbn [n_name n_parentNutrientId]. rewrite Hdup.
  destruct (selectNutrient newId db) eqn:Hid; [discriminate |].
  cbn [isSome orb].
  destruct (parentExists _ _); [| discriminate].
  intros _. eexists. eexists. split; [reflexivity |].
  split; [exact Erow |]. cbn [n_name]. repeat split; trivial.
Qed.

(** X23. A category may be any string of 1 to 50 characters, also the name
    of a property that every object inherits, such as constructor or
    toString. Once createNutrient has stored a visible nutrient with such a
    category, getKeyNutrientsByCategory answers with the generic database
    failure: the grouping finds the inherited property under the category
    and calls push on it. *)
Theorem inherited_category_breaks_grouping (newId : uuid)
  (p : NutrientPayload) (db : NutrientDB) (category : string) :
  success (fst (createNutrient newId p db)) = true ->
  np_category p = Some category ->
  inherits category = true ->
  np_isVisible p <> Some false ->
  getKeyNutrientsByCategory (snd (createNutrient newId p db))
  = (mkActionResult false None (Some "Database operation failed")
       (Some "An unexpected error occurred. Please try again.") None,
     snd (createNutrient newId p db)).
Proof.
  intros Hok Hc Hinh Hvis.
  destruct (@createNutrient_success newId p db Hok)
    as (v & row & Hv & Hrow & _ & _ & ->).
  destruct (@accepted_nutrient_row newId p v Hv)
    as (name & displayName & category' & unit_ & unitType
        & _ & _ & Ec & _ & _ & _ & _ & _ & _ & Erow).
  rewrite Erow in Hrow. injection Hrow as <-.
  cbn [snd]. apply grouping_throws with (n := mkNutrient newId name displayName
    (np_description p) category' (np_subcategory p) unit_ unitType
    (orElse (bindOpt (np_decimalPlaces p) integerOf) 2%Z)
    (orElse (np_isAnalyzable p) true) (np_analysisMethod p)
    (orElse (np_isRequired p) false)
    (orElse (bindOpt (np_displayOrder p) integerOf) 0%Z)
    (orElse (np_isVisible p) true) (orElse (np_highlightInReports p) false)
    (np_minimumValue p) (np_maximumValue p)
    (bindOpt (np_parentNutrientId p) uuidOf) (np_standardReference p)).
  - cbn [nutrients withNutrients]. apply in_or_app. right. now left.
  - cbn [n_isVisible]. destruct (np_isVisible p) as [[|] |];
      [reflexivity | now elim Hvis | reflexivity].
  - cbn [n_category]. congruence.
Qed.

Lemma inherited_category_breaks_grouping_witness :
  getKeyNutrientsByCategory
    (snd (createNutrient NutrientSample.calciumId
            (NutrientSample.payload "calcium" "constructor")
            NutrientSample.db0))
  = (mkActionResult false None (Some "Database operation failed")
       (Some "An unexpected error occurred. Please try again.") None,
     snd (createNutrient NutrientSample.calciumId
            (NutrientSample.payload "calcium" "constructor")
            NutrientSample.db0)).
Proof.
  apply (@inherited_category_breaks_grouping NutrientSample.calciumId
           (NutrientSample.payload "calcium" "constructor")
           NutrientSample.db0 "constructor").
  - reflexivity.
  - reflexivity.
  - reflexivity.
  - discriminate.
Defined.

(** ** Creating, reading and deleting a nutrient *)

Lemma filter_all (A : Type) (p : A -> bool) (l : list A) :
  (forall x, In x l -> p x = true) -> filter p l = l.
Proof.
  induction l as [| x l IH]; simpl; intros H; [reflexivity |].
  rewrite (H x (or_introl eq_refl)). f_equal. apply IH.
  intros y Hy. apply H. now right.
Qed.

(** X24. Creating a nutrient, then reading, creating again and deleting.
    After a successful createNutrient, getNutrientById on the id of the new
    nutrient answers with the nutrient the creation answered with; a second
    createNutrient with a payload of the same name that the schema accepts
    is refused with Duplicate nutrient name and writes nothing, whatever id
    is drawn; and, in a database that satisfies the declared constraints,
    deleteNutrient on the new nutrient succeeds and gives back the database
    as it was before the creation. *)
Theorem create_read_delete_nutrient (newId : uuid) (p : NutrientPayload)
  (db : NutrientDB) :
  success (fst (createNutrient newId p db)) = true ->
  exists row,
    data (fst (createNutrient newId p db)) = Some row
    /\ getNutrientById (Uuid newId) (snd (createNutrient newId p db))
       = (createSuccessResponse (Some row) None,
          snd (createNutrient newId p db))
    /\ (forall otherId p' v',
           validateNutrient insertNutrientSchema p' = inr v' ->
           np_name p' = np_name p ->
           createNutrient otherId p' (snd (createNutrient newId p db))
           = (createErrorResponse "Duplicate nutrient name"
                (Some "A nutrient with this name already exists"),
              snd (createNutrient newId p db)))
    /\ (wellFormedNutrients db ->
        deleteNutrient (Uuid newId) (snd (createNutrient newId p db))
        = (createSuccessResponse None
             (Some ("Nutrient " ++ quote ++ n_name row ++ quote
                      ++ " deleted successfully")), db)).
Proof.
  intros Hok.
  destruct (@createNutrient_success newId p db Hok)
    as (v & row & Hv & Hrow & Hfresh & Hname & ->).
  destruct (@accepted_nutrient_row newId p v Hv)
    as (name & displayName & category & unit_ & unitType
        & En & _ & _ & _ & _ & _ & _ & Ename & _ & Erow).
  assert (Hid : n_id row = newId).
  { rewrite Erow in Hrow. injection Hrow as <-. reflexivity. }
  assert (Hrname : n_name row = name).
  { rewrite Erow in Hrow. injection Hrow as <-. reflexivity. }
  assert (Hsel : selectNutrient newId (withNutrients db (nutrients db ++ [row]))
                 = Some row).
  { unfold selectNutrient in *. cbn [nutrients withNutrients].
    rewrite (find_none_app _ _ [row] Hfresh). simpl.
    now rewrite Hid, N.eqb_refl. }
  exists row. cbn [fst snd data createSuccessResponse].
  split; [reflexivity |].
  split; [unfold getNutrientById; cbn [idSchema_parse]; now rewrite Hsel |].
  split.
  - intros otherId p' v' Hv' Esame. unfold createNutrient. rewrite Hv'.
    destruct (@accepted_nutrient_row otherId p' v' Hv')
      as (name' & _ & _ & _ & _ & En' & _ & _ & _ & _ & _ & _ & Ename' & _).
    rewrite Ename'.
    assert (name' = name) by congruence. subst name'.
    assert (Hdup : isSome (selectNutrientNamed name
                             (withNutrients db (nutrients db ++ [row]))) = true).
    { apply nutrient_name_listed. cbn [nutrients withNutrients].
      rewrite map_app. apply in_or_app. right. simpl. now left. }
    now rewrite Hdup.
  - intros (Hids & Hnames & Hparents & Hvalues & Hreqs).
    assert (Hnew : forall u, nutrientExists u db -> u <> newId).
    { intros u Hu ->. unfold nutrientExists in Hu. now rewrite Hfresh in Hu. }
    unfold deleteNutrient. cbn [idSchema_parse]. rewrite Hsel.
    unfold deleteNutrients. rewrite Hsel.
    cbn [isSome andb nutrients withNutrients ingredientNutrients
           animalRequirements].
    assert (Hkept : filter (fun n => negb (N.eqb (n_id n) newId))
                      (nutrients db ++ [row]) = nutrients db).
    { rewrite filter_app. simpl. rewrite Hid, N.eqb_refl. simpl.
      rewrite app_nil_r. apply filter_all. intros x Hx.
      apply negb_true_iff, N.eqb_neq. apply Hnew.
      apply nutrientExists_iff. now apply in_map. }
    assert (Hkeptv : filter (fun r => negb (N.eqb (in_nutrientId r) newId))
                       (ingredientNutrients db) = ingredientNutrients db).
    { apply filter_all. intros r Hr. apply negb_true_iff, N.eqb_neq.
      apply Hnew. rewrite Forall_forall in Hvalues. now apply Hvalues. }
    assert (Hkeptr : filter (fun r => negb (N.eqb (ar_nutrientId r) newId))
                       (animalRequirements db) = animalRequirements db).
    { apply filter_all. intros r Hr. apply negb_true_iff, N.eqb_neq.
      apply Hnew. rewrite Forall_forall in Hreqs. exact (proj1 (Hreqs r Hr)). }
    rewrite Hkept, Hkeptv, Hkeptr.
    assert (Hp : existsb (fun n => match n_parentNutrientId n with
                                   | Some u => N.eqb u newId
                                   | None => false
                                   end) (nutrients db) = false).
    { apply not_true_is_false. intros H. apply existsb_exists in H.
      destruct H as (n & Hn & Hpar).
      destruct (n_parentNutrientId n) as [u |] eqn:Eu; [| discriminate].
      apply N.eqb_eq in Hpar. subst u. rewrite Forall_forall in Hparents.
      exact (Hnew newId (Hparents n Hn newId Eu) eq_refl). }
    assert (Hr : existsb (fun r => match ar_referenceNutrientId r with
                                   | Some u => N.eqb u newId
                                   | None => false
                                   end) (animalRequirements db) = false).
    { apply not_true_is_false. intros H. apply existsb_exists in H.
      destruct H as (r & Hr & Href).
      destruct (ar_referenceNutrientId r) as [u |] eqn:Eu; [| discriminate].
      apply N.eqb_eq in Href. subst u. rewrite Forall_forall in Hreqs.
      exact (Hnew newId (proj2 (Hreqs r Hr) newId Eu) eq_refl). }
    rewrite Hp, Hr. cbn [orb]. destruct db; reflexivity.
Qed.

Lemma create_read_delete_nutrient_witness :
  exists row,
    data (fst (createNutrient NutrientSample.calciumId
                 (NutrientSample.payload "calcium" "Mineral")
                 NutrientSample.db0)) = Some row
    /\ deleteNutrient (Uuid NutrientSample.calciumId)
         (snd (createNutrient NutrientSample.calciumId
                 (NutrientSample.payload "calcium" "Mineral")
                 NutrientSample.db0))
       = (createSuccessResponse None
            (Some ("Nutrient " ++ quote ++ n_name row ++ quote
                     ++ " deleted successfully")), NutrientSample.db0).
Proof.
  destruct (@create_read_delete_nutrient NutrientSample.calciumId
              (NutrientSample.payload "calcium" "Mineral")
              NutrientSample.db0 eq_refl)
    as (row & H1 & _ & _ & H4).
  exists row. split; [exact H1 | exact (H4 nutrient_sample_wellFormed)].
Defined.
